(** * Researcher identity reconciliation: a shallow embedding

    The development follows the Python sources

    - [Forskardatabas/src/external_data/data_collector.py]
      ([retry], [APIRateLimiter], [PubMedCollector], [OrcidClient]),
    - [src/database/permanent_db.py] ([PermanentDatabase]),
    - [Forskardatabas/src/main.py] ([match_researchers_with_orcid]),
    - [app.py] ([search_orcid], [_format_date]).

    Conventions of the embedding.

    - Python [str] is the [string] of its UTF-8 bytes; [lower] and [split]
      work on the code points and follow the Unicode character tables.
    - Python [None] in a place where a string is expected is the [None] of
      [pystr := option string]; a missing dict key is the [None] of an outer
      [option].
    - JSON and XML answers are kept in the shape the parsing code reads
      them in: a record per object with the keys that are read, an
      inductive type where a key may be absent, [null] or of another kind.
    - Python floats that carry confidences and delays are exact rationals
      ([Q]): every confidence of the program is a finite sum of the literals
      0.5, 0.3, 0.1, 0.2, so the exact sum and the binary float differ by far
      less than the half unit that [round(_, 2)] resolves.
    - Effects (the network, [time.sleep], the rate limiter, SQLite) are
      threaded through a state-and-exception monad [M] over a [world]; an
      exception is the [Raise] outcome.
    - Calls to [logger] are not represented. *)

From Stdlib Require Import String Ascii List Bool ZArith QArith Qround Lia.
From Stdlib Require Import DecimalString DecimalPos.
From Stdlib Require Import Permutation Sorted Lqa.
Import ListNotations.

Set Implicit Arguments.

(** ** Unicode

    A Python [str] is a sequence of code points.  It is kept as the
    [string] of the bytes of its UTF-8 encoding, which is what a string
    literal of this file denotes; the operations that look at characters
    ([str.lower], [str.split]) work on the decoded code points.  The
    character tables are those of Unicode 14.0, the ones CPython 3.11
    carries. *)

Module Unicode.

Local Open Scope Z_scope.

(** Membership in a table of ranges [(first, last)] in ascending order. *)
Fixpoint in_ranges (c : Z) (table : list (Z * Z)) : bool :=
  match table with
  | [] => false
  | (first, last) :: rest =>
      if c <? first then false
      else (c <=? last) || in_ranges c rest
  end.

(** The offset a table of mappings in ascending order gives a code point,
    zero when the table does not list it. *)
Fixpoint offset_in (c : Z) (table : list (Z * Z * Z * Z)) : Z :=
  match table with
  | [] => 0
  | (first, last, step, offset) :: rest =>
      if c <? first then 0
      else if (c <=? last) && ((c - first) mod step =? 0) then offset
      else offset_in c rest
  end.

(** The code points for which [str.isspace] holds. *)
Definition whitespace : list (Z * Z) :=
  [
    (0x9, 0xD); (0x1C, 0x20); (0x85, 0x85); (0xA0, 0xA0); (0x1680, 0x1680);
    (0x2000, 0x200A); (0x2028, 0x2029); (0x202F, 0x202F); (0x205F, 0x205F);
    (0x3000, 0x3000)
  ].

(** The simple lower-case mappings: [(first, last, step, offset)] maps
    every [step]-th code point from [first] to [last] to itself plus
    [offset]. *)
Definition lowercase : list (Z * Z * Z * Z) :=
  [
    (0x41, 0x5A, 1, 32); (0xC0, 0xD6, 1, 32); (0xD8, 0xDE, 1, 32);
    (0x100, 0x12E, 2, 1); (0x132, 0x136, 2, 1); (0x139, 0x147, 2, 1);
    (0x14A, 0x176, 2, 1); (0x178, 0x178, 1, (-121)); (0x179, 0x17D, 2, 1);
    (0x181, 0x181, 1, 210); (0x182, 0x184, 2, 1); (0x186, 0x186, 1, 206);
    (0x187, 0x187, 1, 1); (0x189, 0x18A, 1, 205); (0x18B, 0x18B, 1, 1);
    (0x18E, 0x18E, 1, 79); (0x18F, 0x18F, 1, 202); (0x190, 0x190, 1, 203);
    (0x191, 0x191, 1, 1); (0x193, 0x193, 1, 205); (0x194, 0x194, 1, 207);
    (0x196, 0x196, 1, 211); (0x197, 0x197, 1, 209); (0x198, 0x198, 1, 1);
    (0x19C, 0x19C, 1, 211); (0x19D, 0x19D, 1, 213); (0x19F, 0x19F, 1, 214);
    (0x1A0, 0x1A4, 2, 1); (0x1A6, 0x1A6, 1, 218); (0x1A7, 0x1A7, 1, 1);
    (0x1A9, 0x1A9, 1, 218); (0x1AC, 0x1AC, 1, 1); (0x1AE, 0x1AE, 1, 218);
    (0x1AF, 0x1AF, 1, 1); (0x1B1, 0x1B2, 1, 217); (0x1B3, 0x1B5, 2, 1);
    (0x1B7, 0x1B7, 1, 219); (0x1B8, 0x1B8, 1, 1); (0x1BC, 0x1BC, 1, 1);
    (0x1C4, 0x1C4, 1, 2); (0x1C5, 0x1C5, 1, 1); (0x1C7, 0x1C7, 1, 2);
    (0x1C8, 0x1C8, 1, 1); (0x1CA, 0x1CA, 1, 2); (0x1CB, 0x1DB, 2, 1);
    (0x1DE, 0x1EE, 2, 1); (0x1F1, 0x1F1, 1, 2); (0x1F2, 0x1F4, 2, 1);
    (0x1F6, 0x1F6, 1, (-97)); (0x1F7, 0x1F7, 1, (-56));
    (0x1F8, 0x21E, 2, 1); (0x220, 0x220, 1, (-130)); (0x222, 0x232, 2, 1);
    (0x23A, 0x23A, 1, 10795); (0x23B, 0x23B, 1, 1);
    (0x23D, 0x23D, 1, (-163)); (0x23E, 0x23E, 1, 10792);
    (0x241, 0x241, 1, 1); (0x243, 0x243, 1, (-195)); (0x244, 0x244, 1, 69);
    (0x245, 0x245, 1, 71); (0x246, 0x24E, 2, 1); (0x370, 0x372, 2, 1);
    (0x376, 0x376, 1, 1); (0x37F, 0x37F, 1, 116); (0x386, 0x386, 1, 38);
    (0x388, 0x38A, 1, 37); (0x38C, 0x38C, 1, 64); (0x38E, 0x38F, 1, 63);
    (0x391, 0x3A1, 1, 32); (0x3A3, 0x3AB, 1, 32); (0x3CF, 0x3CF, 1, 8);
    (0x3D8, 0x3EE, 2, 1); (0x3F4, 0x3F4, 1, (-60)); (0x3F7, 0x3F7, 1, 1);
    (0x3F9, 0x3F9, 1, (-7)); (0x3FA, 0x3FA, 1, 1);
    (0x3FD, 0x3FF, 1, (-130)); (0x400, 0x40F, 1, 80);
    (0x410, 0x42F, 1, 32); (0x460, 0x480, 2, 1); (0x48A, 0x4BE, 2, 1);
    (0x4C0, 0x4C0, 1, 15); (0x4C1, 0x4CD, 2, 1); (0x4D0, 0x52E, 2, 1);
    (0x531, 0x556, 1, 48); (0x10A0, 0x10C5, 1, 7264);
    (0x10C7, 0x10C7, 1, 7264); (0x10CD, 0x10CD, 1, 7264);
    (0x13A0, 0x13EF, 1, 38864); (0x13F0, 0x13F5, 1, 8);
    (0x1C90, 0x1CBA, 1, (-3008)); (0x1CBD, 0x1CBF, 1, (-3008));
    (0x1E00, 0x1E94, 2, 1); (0x1E9E, 0x1E9E, 1, (-7615));
    (0x1EA0, 0x1EFE, 2, 1); (0x1F08, 0x1F0F, 1, (-8));
    (0x1F18, 0x1F1D, 1, (-8)); (0x1F28, 0x1F2F, 1, (-8));
    (0x1F38, 0x1F3F, 1, (-8)); (0x1F48, 0x1F4D, 1, (-8));
    (0x1F59, 0x1F5F, 2, (-8)); (0x1F68, 0x1F6F, 1, (-8));
    (0x1F88, 0x1F8F, 1, (-8)); (0x1F98, 0x1F9F, 1, (-8));
    (0x1FA8, 0x1FAF, 1, (-8)); (0x1FB8, 0x1FB9, 1, (-8));
    (0x1FBA, 0x1FBB, 1, (-74)); (0x1FBC, 0x1FBC, 1, (-9));
    (0x1FC8, 0x1FCB, 1, (-86)); (0x1FCC, 0x1FCC, 1, (-9));
    (0x1FD8, 0x1FD9, 1, (-8)); (0x1FDA, 0x1FDB, 1, (-100));
    (0x1FE8, 0x1FE9, 1, (-8)); (0x1FEA, 0x1FEB, 1, (-112));
    (0x1FEC, 0x1FEC, 1, (-7)); (0x1FF8, 0x1FF9, 1, (-128));
    (0x1FFA, 0x1FFB, 1, (-126)); (0x1FFC, 0x1FFC, 1, (-9));
    (0x2126, 0x2126, 1, (-7517)); (0x212A, 0x212A, 1, (-8383));
    (0x212B, 0x212B, 1, (-8262)); (0x2132, 0x2132, 1, 28);
    (0x2160, 0x216F, 1, 16); (0x2183, 0x2183, 1, 1);
    (0x24B6, 0x24CF, 1, 26); (0x2C00, 0x2C2F, 1, 48);
    (0x2C60, 0x2C60, 1, 1); (0x2C62, 0x2C62, 1, (-10743));
    (0x2C63, 0x2C63, 1, (-3814)); (0x2C64, 0x2C64, 1, (-10727));
    (0x2C67, 0x2C6B, 2, 1); (0x2C6D, 0x2C6D, 1, (-10780));
    (0x2C6E, 0x2C6E, 1, (-10749)); (0x2C6F, 0x2C6F, 1, (-10783));
    (0x2C70, 0x2C70, 1, (-10782)); (0x2C72, 0x2C72, 1, 1);
    (0x2C75, 0x2C75, 1, 1); (0x2C7E, 0x2C7F, 1, (-10815));
    (0x2C80, 0x2CE2, 2, 1); (0x2CEB, 0x2CED, 2, 1); (0x2CF2, 0x2CF2, 1, 1);
    (0xA640, 0xA66C, 2, 1); (0xA680, 0xA69A, 2, 1); (0xA722, 0xA72E, 2, 1);
    (0xA732, 0xA76E, 2, 1); (0xA779, 0xA77B, 2, 1);
    (0xA77D, 0xA77D, 1, (-35332)); (0xA77E, 0xA786, 2, 1);
    (0xA78B, 0xA78B, 1, 1); (0xA78D, 0xA78D, 1, (-42280));
    (0xA790, 0xA792, 2, 1); (0xA796, 0xA7A8, 2, 1);
    (0xA7AA, 0xA7AA, 1, (-42308)); (0xA7AB, 0xA7AB, 1, (-42319));
    (0xA7AC, 0xA7AC, 1, (-42315)); (0xA7AD, 0xA7AD, 1, (-42305));
    (0xA7AE, 0xA7AE, 1, (-42308)); (0xA7B0, 0xA7B0, 1, (-42258));
    (0xA7B1, 0xA7B1, 1, (-42282)); (0xA7B2, 0xA7B2, 1, (-42261));
    (0xA7B3, 0xA7B3, 1, 928); (0xA7B4, 0xA7C2, 2, 1);
    (0xA7C4, 0xA7C4, 1, (-48)); (0xA7C5, 0xA7C5, 1, (-42307));
    (0xA7C6, 0xA7C6, 1, (-35384)); (0xA7C7, 0xA7C9, 2, 1);
    (0xA7D0, 0xA7D0, 1, 1); (0xA7D6, 0xA7D8, 2, 1); (0xA7F5, 0xA7F5, 1, 1);
    (0xFF21, 0xFF3A, 1, 32); (0x10400, 0x10427, 1, 40);
    (0x104B0, 0x104D3, 1, 40); (0x10570, 0x1057A, 1, 39);
    (0x1057C, 0x1058A, 1, 39); (0x1058C, 0x10592, 1, 39);
    (0x10594, 0x10595, 1, 39); (0x10C80, 0x10CB2, 1, 64);
    (0x118A0, 0x118BF, 1, 32); (0x16E40, 0x16E5F, 1, 32);
    (0x1E900, 0x1E921, 1, 34)
  ].

(** The code points with the property [Cased]. *)
Definition cased : list (Z * Z) :=
  [
    (0x41, 0x5A); (0x61, 0x7A); (0xAA, 0xAA); (0xB5, 0xB5); (0xBA, 0xBA);
    (0xC0, 0xD6); (0xD8, 0xF6); (0xF8, 0x1BA); (0x1BC, 0x1BF);
    (0x1C4, 0x293); (0x295, 0x2B8); (0x2C0, 0x2C1); (0x2E0, 0x2E4);
    (0x345, 0x345); (0x370, 0x373); (0x376, 0x377); (0x37A, 0x37D);
    (0x37F, 0x37F); (0x386, 0x386); (0x388, 0x38A); (0x38C, 0x38C);
    (0x38E, 0x3A1); (0x3A3, 0x3F5); (0x3F7, 0x481); (0x48A, 0x52F);
    (0x531, 0x556); (0x560, 0x588); (0x10A0, 0x10C5); (0x10C7, 0x10C7);
    (0x10CD, 0x10CD); (0x10D0, 0x10FA); (0x10FD, 0x10FF); (0x13A0, 0x13F5);
    (0x13F8, 0x13FD); (0x1C80, 0x1C88); (0x1C90, 0x1CBA); (0x1CBD, 0x1CBF);
    (0x1D00, 0x1DBF); (0x1E00, 0x1F15); (0x1F18, 0x1F1D); (0x1F20, 0x1F45);
    (0x1F48, 0x1F4D); (0x1F50, 0x1F57); (0x1F59, 0x1F59); (0x1F5B, 0x1F5B);
    (0x1F5D, 0x1F5D); (0x1F5F, 0x1F7D); (0x1F80, 0x1FB4); (0x1FB6, 0x1FBC);
    (0x1FBE, 0x1FBE); (0x1FC2, 0x1FC4); (0x1FC6, 0x1FCC); (0x1FD0, 0x1FD3);
    (0x1FD6, 0x1FDB); (0x1FE0, 0x1FEC); (0x1FF2, 0x1FF4); (0x1FF6, 0x1FFC);
    (0x2071, 0x2071); (0x207F, 0x207F); (0x2090, 0x209C); (0x2102, 0x2102);
    (0x2107, 0x2107); (0x210A, 0x2113); (0x2115, 0x2115); (0x2119, 0x211D);
    (0x2124, 0x2124); (0x2126, 0x2126); (0x2128, 0x2128); (0x212A, 0x212D);
    (0x212F, 0x2134); (0x2139, 0x2139); (0x213C, 0x213F); (0x2145, 0x2149);
    (0x214E, 0x214E); (0x2160, 0x217F); (0x2183, 0x2184); (0x24B6, 0x24E9);
    (0x2C00, 0x2CE4); (0x2CEB, 0x2CEE); (0x2CF2, 0x2CF3); (0x2D00, 0x2D25);
    (0x2D27, 0x2D27); (0x2D2D, 0x2D2D); (0xA640, 0xA66D); (0xA680, 0xA69D);
    (0xA722, 0xA787); (0xA78B, 0xA78E); (0xA790, 0xA7CA); (0xA7D0, 0xA7D1);
    (0xA7D3, 0xA7D3); (0xA7D5, 0xA7D9); (0xA7F5, 0xA7F6); (0xA7F8, 0xA7FA);
    (0xAB30, 0xAB5A); (0xAB5C, 0xAB68); (0xAB70, 0xABBF); (0xFB00, 0xFB06);
    (0xFB13, 0xFB17); (0xFF21, 0xFF3A); (0xFF41, 0xFF5A);
    (0x10400, 0x1044F); (0x104B0, 0x104D3); (0x104D8, 0x104FB);
    (0x10570, 0x1057A); (0x1057C, 0x1058A); (0x1058C, 0x10592);
    (0x10594, 0x10595); (0x10597, 0x105A1); (0x105A3, 0x105B1);
    (0x105B3, 0x105B9); (0x105BB, 0x105BC); (0x10780, 0x10780);
    (0x10783, 0x10785); (0x10787, 0x107B0); (0x107B2, 0x107BA);
    (0x10C80, 0x10CB2); (0x10CC0, 0x10CF2); (0x118A0, 0x118DF);
    (0x16E40, 0x16E7F); (0x1D400, 0x1D454); (0x1D456, 0x1D49C);
    (0x1D49E, 0x1D49F); (0x1D4A2, 0x1D4A2); (0x1D4A5, 0x1D4A6);
    (0x1D4A9, 0x1D4AC); (0x1D4AE, 0x1D4B9); (0x1D4BB, 0x1D4BB);
    (0x1D4BD, 0x1D4C3); (0x1D4C5, 0x1D505); (0x1D507, 0x1D50A);
    (0x1D50D, 0x1D514); (0x1D516, 0x1D51C); (0x1D51E, 0x1D539);
    (0x1D53B, 0x1D53E); (0x1D540, 0x1D544); (0x1D546, 0x1D546);
    (0x1D54A, 0x1D550); (0x1D552, 0x1D6A5); (0x1D6A8, 0x1D6C0);
    (0x1D6C2, 0x1D6DA); (0x1D6DC, 0x1D6FA); (0x1D6FC, 0x1D714);
    (0x1D716, 0x1D734); (0x1D736, 0x1D74E); (0x1D750, 0x1D76E);
    (0x1D770, 0x1D788); (0x1D78A, 0x1D7A8); (0x1D7AA, 0x1D7C2);
    (0x1D7C4, 0x1D7CB); (0x1DF00, 0x1DF09); (0x1DF0B, 0x1DF1E);
    (0x1E900, 0x1E943); (0x1F130, 0x1F149); (0x1F150, 0x1F169);
    (0x1F170, 0x1F189)
  ].

(** The code points with the property [Case_Ignorable]. *)
Definition case_ignorable : list (Z * Z) :=
  [
    (0x27, 0x27); (0x2E, 0x2E); (0x3A, 0x3A); (0x5E, 0x5E); (0x60, 0x60);
    (0xA8, 0xA8); (0xAD, 0xAD); (0xAF, 0xAF); (0xB4, 0xB4); (0xB7, 0xB8);
    (0x2B0, 0x36F); (0x374, 0x375); (0x37A, 0x37A); (0x384, 0x385);
    (0x387, 0x387); (0x483, 0x489); (0x559, 0x559); (0x55F, 0x55F);
    (0x591, 0x5BD); (0x5BF, 0x5BF); (0x5C1, 0x5C2); (0x5C4, 0x5C5);
    (0x5C7, 0x5C7); (0x5F4, 0x5F4); (0x600, 0x605); (0x610, 0x61A);
    (0x61C, 0x61C); (0x640, 0x640); (0x64B, 0x65F); (0x670, 0x670);
    (0x6D6, 0x6DD); (0x6DF, 0x6E8); (0x6EA, 0x6ED); (0x70F, 0x70F);
    (0x711, 0x711); (0x730, 0x74A); (0x7A6, 0x7B0); (0x7EB, 0x7F5);
    (0x7FA, 0x7FA); (0x7FD, 0x7FD); (0x816, 0x82D); (0x859, 0x85B);
    (0x888, 0x888); (0x890, 0x891); (0x898, 0x89F); (0x8C9, 0x902);
    (0x93A, 0x93A); (0x93C, 0x93C); (0x941, 0x948); (0x94D, 0x94D);
    (0x951, 0x957); (0x962, 0x963); (0x971, 0x971); (0x981, 0x981);
    (0x9BC, 0x9BC); (0x9C1, 0x9C4); (0x9CD, 0x9CD); (0x9E2, 0x9E3);
    (0x9FE, 0x9FE); (0xA01, 0xA02); (0xA3C, 0xA3C); (0xA41, 0xA42);
    (0xA47, 0xA48); (0xA4B, 0xA4D); (0xA51, 0xA51); (0xA70, 0xA71);
    (0xA75, 0xA75); (0xA81, 0xA82); (0xABC, 0xABC); (0xAC1, 0xAC5);
    (0xAC7, 0xAC8); (0xACD, 0xACD); (0xAE2, 0xAE3); (0xAFA, 0xAFF);
    (0xB01, 0xB01); (0xB3C, 0xB3C); (0xB3F, 0xB3F); (0xB41, 0xB44);
    (0xB4D, 0xB4D); (0xB55, 0xB56); (0xB62, 0xB63); (0xB82, 0xB82);
    (0xBC0, 0xBC0); (0xBCD, 0xBCD); (0xC00, 0xC00); (0xC04, 0xC04);
    (0xC3C, 0xC3C); (0xC3E, 0xC40); (0xC46, 0xC48); (0xC4A, 0xC4D);
    (0xC55, 0xC56); (0xC62, 0xC63); (0xC81, 0xC81); (0xCBC, 0xCBC);
    (0xCBF, 0xCBF); (0xCC6, 0xCC6); (0xCCC, 0xCCD); (0xCE2, 0xCE3);
    (0xD00, 0xD01); (0xD3B, 0xD3C); (0xD41, 0xD44); (0xD4D, 0xD4D);
    (0xD62, 0xD63); (0xD81, 0xD81); (0xDCA, 0xDCA); (0xDD2, 0xDD4);
    (0xDD6, 0xDD6); (0xE31, 0xE31); (0xE34, 0xE3A); (0xE46, 0xE4E);
    (0xEB1, 0xEB1); (0xEB4, 0xEBC); (0xEC6, 0xEC6); (0xEC8, 0xECD);
    (0xF18, 0xF19); (0xF35, 0xF35); (0xF37, 0xF37); (0xF39, 0xF39);
    (0xF71, 0xF7E); (0xF80, 0xF84); (0xF86, 0xF87); (0xF8D, 0xF97);
    (0xF99, 0xFBC); (0xFC6, 0xFC6); (0x102D, 0x1030); (0x1032, 0x1037);
    (0x1039, 0x103A); (0x103D, 0x103E); (0x1058, 0x1059); (0x105E, 0x1060);
    (0x1071, 0x1074); (0x1082, 0x1082); (0x1085, 0x1086); (0x108D, 0x108D);
    (0x109D, 0x109D); (0x10FC, 0x10FC); (0x135D, 0x135F); (0x1712, 0x1714);
    (0x1732, 0x1733); (0x1752, 0x1753); (0x1772, 0x1773); (0x17B4, 0x17B5);
    (0x17B7, 0x17BD); (0x17C6, 0x17C6); (0x17C9, 0x17D3); (0x17D7, 0x17D7);
    (0x17DD, 0x17DD); (0x180B, 0x180F); (0x1843, 0x1843); (0x1885, 0x1886);
    (0x18A9, 0x18A9); (0x1920, 0x1922); (0x1927, 0x1928); (0x1932, 0x1932);
    (0x1939, 0x193B); (0x1A17, 0x1A18); (0x1A1B, 0x1A1B); (0x1A56, 0x1A56);
    (0x1A58, 0x1A5E); (0x1A60, 0x1A60); (0x1A62, 0x1A62); (0x1A65, 0x1A6C);
    (0x1A73, 0x1A7C); (0x1A7F, 0x1A7F); (0x1AA7, 0x1AA7); (0x1AB0, 0x1ACE);
    (0x1B00, 0x1B03); (0x1B34, 0x1B34); (0x1B36, 0x1B3A); (0x1B3C, 0x1B3C);
    (0x1B42, 0x1B42); (0x1B6B, 0x1B73); (0x1B80, 0x1B81); (0x1BA2, 0x1BA5);
    (0x1BA8, 0x1BA9); (0x1BAB, 0x1BAD); (0x1BE6, 0x1BE6); (0x1BE8, 0x1BE9);
    (0x1BED, 0x1BED); (0x1BEF, 0x1BF1); (0x1C2C, 0x1C33); (0x1C36, 0x1C37);
    (0x1C78, 0x1C7D); (0x1CD0, 0x1CD2); (0x1CD4, 0x1CE0); (0x1CE2, 0x1CE8);
    (0x1CED, 0x1CED); (0x1CF4, 0x1CF4); (0x1CF8, 0x1CF9); (0x1D2C, 0x1D6A);
    (0x1D78, 0x1D78); (0x1D9B, 0x1DFF); (0x1FBD, 0x1FBD); (0x1FBF, 0x1FC1);
    (0x1FCD, 0x1FCF); (0x1FDD, 0x1FDF); (0x1FED, 0x1FEF); (0x1FFD, 0x1FFE);
    (0x200B, 0x200F); (0x2018, 0x2019); (0x2024, 0x2024); (0x2027, 0x2027);
    (0x202A, 0x202E); (0x2060, 0x2064); (0x2066, 0x206F); (0x2071, 0x2071);
    (0x207F, 0x207F); (0x2090, 0x209C); (0x20D0, 0x20F0); (0x2C7C, 0x2C7D);
    (0x2CEF, 0x2CF1); (0x2D6F, 0x2D6F); (0x2D7F, 0x2D7F); (0x2DE0, 0x2DFF);
    (0x2E2F, 0x2E2F); (0x3005, 0x3005); (0x302A, 0x302D); (0x3031, 0x3035);
    (0x303B, 0x303B); (0x3099, 0x309E); (0x30FC, 0x30FE); (0xA015, 0xA015);
    (0xA4F8, 0xA4FD); (0xA60C, 0xA60C); (0xA66F, 0xA672); (0xA674, 0xA67D);
    (0xA67F, 0xA67F); (0xA69C, 0xA69F); (0xA6F0, 0xA6F1); (0xA700, 0xA721);
    (0xA770, 0xA770); (0xA788, 0xA78A); (0xA7F2, 0xA7F4); (0xA7F8, 0xA7F9);
    (0xA802, 0xA802); (0xA806, 0xA806); (0xA80B, 0xA80B); (0xA825, 0xA826);
    (0xA82C, 0xA82C); (0xA8C4, 0xA8C5); (0xA8E0, 0xA8F1); (0xA8FF, 0xA8FF);
    (0xA926, 0xA92D); (0xA947, 0xA951); (0xA980, 0xA982); (0xA9B3, 0xA9B3);
    (0xA9B6, 0xA9B9); (0xA9BC, 0xA9BD); (0xA9CF, 0xA9CF); (0xA9E5, 0xA9E6);
    (0xAA29, 0xAA2E); (0xAA31, 0xAA32); (0xAA35, 0xAA36); (0xAA43, 0xAA43);
    (0xAA4C, 0xAA4C); (0xAA70, 0xAA70); (0xAA7C, 0xAA7C); (0xAAB0, 0xAAB0);
    (0xAAB2, 0xAAB4); (0xAAB7, 0xAAB8); (0xAABE, 0xAABF); (0xAAC1, 0xAAC1);
    (0xAADD, 0xAADD); (0xAAEC, 0xAAED); (0xAAF3, 0xAAF4); (0xAAF6, 0xAAF6);
    (0xAB5B, 0xAB5F); (0xAB69, 0xAB6B); (0xABE5, 0xABE5); (0xABE8, 0xABE8);
    (0xABED, 0xABED); (0xFB1E, 0xFB1E); (0xFBB2, 0xFBC2); (0xFE00, 0xFE0F);
    (0xFE13, 0xFE13); (0xFE20, 0xFE2F); (0xFE52, 0xFE52); (0xFE55, 0xFE55);
    (0xFEFF, 0xFEFF); (0xFF07, 0xFF07); (0xFF0E, 0xFF0E); (0xFF1A, 0xFF1A);
    (0xFF3E, 0xFF3E); (0xFF40, 0xFF40); (0xFF70, 0xFF70); (0xFF9E, 0xFF9F);
    (0xFFE3, 0xFFE3); (0xFFF9, 0xFFFB); (0x101FD, 0x101FD);
    (0x102E0, 0x102E0); (0x10376, 0x1037A); (0x10780, 0x10785);
    (0x10787, 0x107B0); (0x107B2, 0x107BA); (0x10A01, 0x10A03);
    (0x10A05, 0x10A06); (0x10A0C, 0x10A0F); (0x10A38, 0x10A3A);
    (0x10A3F, 0x10A3F); (0x10AE5, 0x10AE6); (0x10D24, 0x10D27);
    (0x10EAB, 0x10EAC); (0x10F46, 0x10F50); (0x10F82, 0x10F85);
    (0x11001, 0x11001); (0x11038, 0x11046); (0x11070, 0x11070);
    (0x11073, 0x11074); (0x1107F, 0x11081); (0x110B3, 0x110B6);
    (0x110B9, 0x110BA); (0x110BD, 0x110BD); (0x110C2, 0x110C2);
    (0x110CD, 0x110CD); (0x11100, 0x11102); (0x11127, 0x1112B);
    (0x1112D, 0x11134); (0x11173, 0x11173); (0x11180, 0x11181);
    (0x111B6, 0x111BE); (0x111C9, 0x111CC); (0x111CF, 0x111CF);
    (0x1122F, 0x11231); (0x11234, 0x11234); (0x11236, 0x11237);
    (0x1123E, 0x1123E); (0x112DF, 0x112DF); (0x112E3, 0x112EA);
    (0x11300, 0x11301); (0x1133B, 0x1133C); (0x11340, 0x11340);
    (0x11366, 0x1136C); (0x11370, 0x11374); (0x11438, 0x1143F);
    (0x11442, 0x11444); (0x11446, 0x11446); (0x1145E, 0x1145E);
    (0x114B3, 0x114B8); (0x114BA, 0x114BA); (0x114BF, 0x114C0);
    (0x114C2, 0x114C3); (0x115B2, 0x115B5); (0x115BC, 0x115BD);
    (0x115BF, 0x115C0); (0x115DC, 0x115DD); (0x11633, 0x1163A);
    (0x1163D, 0x1163D); (0x1163F, 0x11640); (0x116AB, 0x116AB);
    (0x116AD, 0x116AD); (0x116B0, 0x116B5); (0x116B7, 0x116B7);
    (0x1171D, 0x1171F); (0x11722, 0x11725); (0x11727, 0x1172B);
    (0x1182F, 0x11837); (0x11839, 0x1183A); (0x1193B, 0x1193C);
    (0x1193E, 0x1193E); (0x11943, 0x11943); (0x119D4, 0x119D7);
    (0x119DA, 0x119DB); (0x119E0, 0x119E0); (0x11A01, 0x11A0A);
    (0x11A33, 0x11A38); (0x11A3B, 0x11A3E); (0x11A47, 0x11A47);
    (0x11A51, 0x11A56); (0x11A59, 0x11A5B); (0x11A8A, 0x11A96);
    (0x11A98, 0x11A99); (0x11C30, 0x11C36); (0x11C38, 0x11C3D);
    (0x11C3F, 0x11C3F); (0x11C92, 0x11CA7); (0x11CAA, 0x11CB0);
    (0x11CB2, 0x11CB3); (0x11CB5, 0x11CB6); (0x11D31, 0x11D36);
    (0x11D3A, 0x11D3A); (0x11D3C, 0x11D3D); (0x11D3F, 0x11D45);
    (0x11D47, 0x11D47); (0x11D90, 0x11D91); (0x11D95, 0x11D95);
    (0x11D97, 0x11D97); (0x11EF3, 0x11EF4); (0x13430, 0x13438);
    (0x16AF0, 0x16AF4); (0x16B30, 0x16B36); (0x16B40, 0x16B43);
    (0x16F4F, 0x16F4F); (0x16F8F, 0x16F9F); (0x16FE0, 0x16FE1);
    (0x16FE3, 0x16FE4); (0x1AFF0, 0x1AFF3); (0x1AFF5, 0x1AFFB);
    (0x1AFFD, 0x1AFFE); (0x1BC9D, 0x1BC9E); (0x1BCA0, 0x1BCA3);
    (0x1CF00, 0x1CF2D); (0x1CF30, 0x1CF46); (0x1D167, 0x1D169);
    (0x1D173, 0x1D182); (0x1D185, 0x1D18B); (0x1D1AA, 0x1D1AD);
    (0x1D242, 0x1D244); (0x1DA00, 0x1DA36); (0x1DA3B, 0x1DA6C);
    (0x1DA75, 0x1DA75); (0x1DA84, 0x1DA84); (0x1DA9B, 0x1DA9F);
    (0x1DAA1, 0x1DAAF); (0x1E000, 0x1E006); (0x1E008, 0x1E018);
    (0x1E01B, 0x1E021); (0x1E023, 0x1E024); (0x1E026, 0x1E02A);
    (0x1E130, 0x1E13D); (0x1E2AE, 0x1E2AE); (0x1E2EC, 0x1E2EF);
    (0x1E8D0, 0x1E8D6); (0x1E944, 0x1E94B); (0x1F3FB, 0x1F3FF);
    (0xE0001, 0xE0001); (0xE0020, 0xE007F); (0xE0100, 0xE01EF)
  ].

Definition is_whitespace (c : Z) : bool := in_ranges c whitespace.

Definition is_cased (c : Z) : bool := in_ranges c cased.

Definition is_case_ignorable (c : Z) : bool := in_ranges c case_ignorable.

(** The full lower-case mapping of one code point: one code point, but for
    the capital I with a dot above, which becomes an i and a combining
    dot. *)
Definition to_lower_full (c : Z) : list Z :=
  if c =? 0x130 then [0x69; 0x307] else [c + offset_in c lowercase].

(** *** UTF-8

    One to four bytes per code point, in the shortest form; the surrogates
    are read like any other code point of three bytes, as Python strings
    can hold them.  A byte that starts no well-formed sequence stands for
    itself: it is kept as the number [0x110000 + byte], above every code
    point, and written back as that byte. *)

Definition byte (a : ascii) : Z := Z.of_N (N_of_ascii a).

Definition chr (n : Z) : ascii := ascii_of_N (Z.to_N n).

Definition continuation (a : ascii) : bool :=
  (0x80 <=? byte a) && (byte a <=? 0xBF).

Definition stray (a : ascii) : Z := 0x110000 + byte a.

Definition point2 (a b : ascii) : Z :=
  (byte a - 0xC0) * 0x40 + (byte b - 0x80).

Definition point3 (a b c : ascii) : Z :=
  (byte a - 0xE0) * 0x1000 + (byte b - 0x80) * 0x40 + (byte c - 0x80).

Definition point4 (a b c d : ascii) : Z :=
  (byte a - 0xF0) * 0x40000 + (byte b - 0x80) * 0x1000
  + (byte c - 0x80) * 0x40 + (byte d - 0x80).

Definition two_bytes (a b : ascii) : bool :=
  (0xC2 <=? byte a) && (byte a <=? 0xDF) && continuation b.

Definition three_bytes (a b c : ascii) : bool :=
  (0xE0 <=? byte a) && (byte a <=? 0xEF) && continuation b
  && continuation c && (0x800 <=? point3 a b c).

Definition four_bytes (a b c d : ascii) : bool :=
  (0xF0 <=? byte a) && (byte a <=? 0xF4) && continuation b
  && continuation c && continuation d
  && (0x10000 <=? point4 a b c d) && (point4 a b c d <=? 0x10FFFF).

(** The code points of a string. *)
Fixpoint decode (s : string) : list Z :=
  match s with
  | EmptyString => []
  | String a s1 =>
      if byte a <? 0x80 then byte a :: decode s1
      else
        match s1 with
        | EmptyString => [stray a]
        | String b s2 =>
            if two_bytes a b then point2 a b :: decode s2
            else
              match s2 with
              | EmptyString => stray a :: decode s1
              | String c s3 =>
                  if three_bytes a b c then point3 a b c :: decode s3
                  else
                    match s3 with
                    | EmptyString => stray a :: decode s1
                    | String d s4 =>
                        if four_bytes a b c d
                        then point4 a b c d :: decode s4
                        else stray a :: decode s1
                    end
              end
        end
  end.

(** The bytes of one code point. *)
Definition encode_point (c : Z) : string :=
  if c <? 0x80 then String (chr c) EmptyString
  else if c <? 0x800 then
    String (chr (0xC0 + c / 0x40))
      (String (chr (0x80 + c mod 0x40)) EmptyString)
  else if c <? 0x10000 then
    String (chr (0xE0 + c / 0x1000))
      (String (chr (0x80 + (c / 0x40) mod 0x40))
         (String (chr (0x80 + c mod 0x40)) EmptyString))
  else if c <? 0x110000 then
    String (chr (0xF0 + c / 0x40000))
      (String (chr (0x80 + (c / 0x1000) mod 0x40))
         (String (chr (0x80 + (c / 0x40) mod 0x40))
            (String (chr (0x80 + c mod 0x40)) EmptyString)))
  else String (chr (c - 0x110000)) EmptyString.

(** The string of a sequence of code points. *)
Fixpoint encode (points : list Z) : string :=
  match points with
  | [] => EmptyString
  | c :: rest => (encode_point c ++ encode rest)%string
  end.

End Unicode.

(** ** Python strings and truth values *)

Module Py.

Local Open Scope string_scope.

(** A value that is either a Python [str] or Python [None]. *)
Definition pystr := option string.

(** [bool(s)] for a string. *)
Definition truthy (s : string) : bool :=
  match s with
  | EmptyString => false
  | String _ _ => true
  end.

(** [bool(v)] for a [str]-or-[None] value. *)
Definition truthy_pystr (v : pystr) : bool :=
  match v with
  | None => false
  | Some s => truthy s
  end.

(** [d.get(key, default)] where the key holds a [str] or [None]. *)
Definition dict_get (field : option pystr) (default : string) : pystr :=
  match field with
  | None => Some default
  | Some v => v
  end.

(** The first code point that counts for casing. *)
Fixpoint skip_case_ignorable (points : list Z) : option Z :=
  match points with
  | [] => None
  | c :: rest =>
      if Unicode.is_case_ignorable c then skip_case_ignorable rest
      else Some c
  end.

(** What a capital sigma becomes: the final form of the small sigma when
    it ends a word, that is when a cased letter comes before it and none
    after it, the code points that casing ignores not counting.  [before]
    holds the code points before the sigma, the nearest first. *)
Definition handle_capital_sigma (before after : list Z) : Z :=
  let final_sigma :=
    match skip_case_ignorable before with
    | Some c =>
        Unicode.is_cased c &&
        match skip_case_ignorable after with
        | Some d => negb (Unicode.is_cased d)
        | None => true
        end
    | None => false
    end in
  if final_sigma then 0x3C2%Z else 0x3C3%Z.

Fixpoint do_lower (before points : list Z) : list Z :=
  match points with
  | [] => []
  | c :: rest =>
      ((if (c =? 0x3A3)%Z then [handle_capital_sigma before rest]
        else Unicode.to_lower_full c)
       ++ do_lower (c :: before) rest)%list
  end.

(** [s.lower()]: every code point by its lower-case mapping. *)
Definition lower (s : string) : string :=
  Unicode.encode (do_lower [] (Unicode.decode s)).

(** [needle in hay] for two strings. *)
Fixpoint contains (hay needle : string) : bool :=
  prefix needle hay ||
  match hay with
  | EmptyString => false
  | String _ rest => contains rest needle
  end.

(** [c.isspace()] for one code point. *)
Definition isspace (c : Z) : bool := Unicode.is_whitespace c.

Definition push (tok : option (list Z)) (c : Z) : option (list Z) :=
  match tok with
  | None => Some [c]
  | Some t => Some (t ++ [c])%list
  end.

Definition flush (tok : option (list Z)) (rest : list (list Z))
    : list (list Z) :=
  match tok with
  | None => rest
  | Some t => t :: rest
  end.

Fixpoint split_from (tok : option (list Z)) (points : list Z)
    : list (list Z) :=
  match points with
  | [] => flush tok []
  | c :: rest =>
      if isspace c then flush tok (split_from None rest)
      else split_from (push tok c) rest
  end.

(** [s.split()]: the maximal runs of code points that are not white
    space. *)
Definition split (s : string) : list string :=
  map Unicode.encode (split_from None (Unicode.decode s)).

(** [sep.join(parts)] *)
Definition join (sep : string) (parts : list string) : string :=
  String.concat sep parts.

(** [str(n)] for an [int]. *)
Definition str_of_int (n : Z) : string :=
  NilZero.string_of_int (Z.to_int n).

(** [x in xs] for a string in a list of strings. *)
Definition mem (x : string) (xs : list string) : bool :=
  existsb (String.eqb x) xs.

(** [min(a, b)]: the first argument unless the second is smaller. *)
Definition min (a b : Q) : Q :=
  if Qle_bool a b then a else b.

(** Nearest integer, ties to the even neighbour. *)
Definition round_half_even (x : Q) : Z :=
  let f := Qfloor x in
  match (x - inject_Z f ?= 1 # 2)%Q with
  | Lt => f
  | Gt => (f + 1)%Z
  | Eq => if Z.even f then f else (f + 1)%Z
  end.

(** [round(x, 2)] *)
Definition round2 (x : Q) : Q :=
  Qmake (round_half_even (x * 100)) 100.

End Py.

(** ** Exceptions, the world and the monad *)

Inductive exn : Type :=
| ConnectionError
| HTTPError (status : Z)
| JSONDecodeError
| AttributeError
| TypeError
| IndexError.

Inductive outcome (A : Type) : Type :=
| Return (a : A)
| Raise (e : exn).

Arguments Return {A} a.
Arguments Raise {A} e.

(** The two upstream services, each with its own rate limiter. *)
Inductive service : Type := Orcid | PubMed.

Inductive request : Type :=
| OrcidSearch (q : string) (rows : Z)
| OrcidRecord (orcid : string)
| ESearch (term : string) (retmax : Z)
| EFetch (ids : list string).

(** What the program does to the outside, in order: a sleep, a visit to a
    rate limiter, a request; [EvInvoke] is the mark an instrumented
    operation leaves when it is invoked. *)
Inductive event : Type :=
| EvSleep (seconds : Q)
| EvRateWait (s : service)
| EvRequest (r : request)
| EvInvoke.

(** ** The permanent store ([permanent_db.py])

    The SQLite file is a record of its tables; only the tables that the
    mapping operations touch are kept, with the columns they read or write
    (and the name and source of a dataset).  [db_online] tells whether
    [sqlite3.connect] and the statements succeed, [db_clock] is the value
    [CURRENT_TIMESTAMP] has when a row is inserted. *)

Record dataset_row : Type := {
  ds_id : Z;
  ds_name : string;
  ds_source : option string;
  ds_orcid_linked : bool
}.

Record mapping_row : Type := {
  m_id : Z;
  m_dataset_id : Z;
  m_record_id : string;
  m_orcid : string;
  m_match_confidence : Q;
  m_match_date : Z
}.

Record database : Type := {
  db_online : bool;
  db_clock : Z;
  datasets : list dataset_row;
  orcid_mappings : list mapping_row;
  (** the AUTOINCREMENT counter of [orcid_mappings] *)
  orcid_mappings_seq : Z
}.

Record world : Type := {
  trace : list event;
  db : database
}.

Definition M (A : Type) : Type := world -> outcome A * world.

Definition ret {A : Type} (a : A) : M A := fun w => (Return a, w).

Definition raise {A : Type} (e : exn) : M A := fun w => (Raise e, w).

Definition bind {A B : Type} (m : M A) (k : A -> M B) : M B :=
  fun w =>
    match m w with
    | (Return a, w') => k a w'
    | (Raise e, w') => (Raise e, w')
    end.

(** [try: m  except Exception as e: handler e] *)
Definition try_except {A : Type} (m : M A) (handler : exn -> M A) : M A :=
  fun w =>
    match m w with
    | (Return a, w') => (Return a, w')
    | (Raise e, w') => handler e w'
    end.

(** A computation without effects that may raise. *)
Definition lift {A : Type} (o : outcome A) : M A := fun w => (o, w).

Declare Scope monad_scope.
Delimit Scope monad_scope with monad.
Notation "x <- m ;; k" := (bind m (fun x => k))
  (at level 61, m at next level, right associativity) : monad_scope.
Notation "m ;;; k" := (bind m (fun _ => k))
  (at level 61, right associativity) : monad_scope.
Open Scope monad_scope.

Definition emit (e : event) : M unit :=
  fun w => (Return tt, {| trace := trace w ++ [e]; db := db w |}).

(** [time.sleep(seconds)] *)
Definition sleep (seconds : Q) : M unit := emit (EvSleep seconds).

(** [APIRateLimiter.wait]: the pause itself is not measured, only that the
    limiter of the service was consulted. *)
Definition rate_limiter_wait (s : service) : M unit := emit (EvRateWait s).

Definition is_request (e : event) : bool :=
  match e with
  | EvRequest _ => true
  | _ => false
  end.

(** How many requests have gone out so far. *)
Definition requests_made (w : world) : nat :=
  List.length (filter is_request (trace w)).

(** ** The retry decorator ([data_collector.py], [retry])

    [mtries] counts down from [tries]; the loop body runs while it is
    positive, so the count is a natural number ([tries <= 0] skips the loop
    and runs the trailing [return func(...)]). *)

Fixpoint retry_while {A : Type} (mtries : nat) (mdelay backoff : Q)
    (func : M A) : M A :=
  match mtries with
  | O => func
  | S mtries' =>
      try_except func (fun e =>
        sleep mdelay ;;;
        match mtries' with
        | O => raise e
        | S _ => retry_while mtries' (mdelay * backoff) backoff func
        end)
  end.

Definition retry {A : Type} (tries : Z) (delay backoff : Q) (func : M A)
    : M A :=
  retry_while (Z.to_nat tries) delay backoff func.

(** [@retry()] with its defaults [tries=3, delay=1, backoff=2]. *)
Definition retry_default {A : Type} (func : M A) : M A :=
  retry 3 1 2 func.

(** ** [PermanentDatabase] *)

Module PermanentDatabase.

Definition mark_linked (dataset_id : Z) (d : dataset_row) : dataset_row :=
  if (ds_id d =? dataset_id)%Z
  then {| ds_id := ds_id d; ds_name := ds_name d; ds_source := ds_source d;
          ds_orcid_linked := true |}
  else d.

(** [INSERT INTO orcid_mappings (dataset_id, record_id, orcid,
    match_confidence) VALUES (?, ?, ?, ?)]: the table has no uniqueness
    constraint besides its AUTOINCREMENT key, so the statement always adds
    a row. *)
Definition insert_mapping (dataset_id : Z) (record_id orcid : string)
    (confidence : Q) (d : database) : database :=
  let new_id := (orcid_mappings_seq d + 1)%Z in
  {| db_online := db_online d;
     db_clock := db_clock d;
     datasets := datasets d;
     orcid_mappings :=
       orcid_mappings d ++
       [ {| m_id := new_id; m_dataset_id := dataset_id;
            m_record_id := record_id; m_orcid := orcid;
            m_match_confidence := confidence;
            m_match_date := db_clock d |} ];
     orcid_mappings_seq := new_id |}.

(** [UPDATE datasets SET orcid_linked = 1 WHERE id = ?] *)
Definition update_linked (dataset_id : Z) (d : database) : database :=
  {| db_online := db_online d;
     db_clock := db_clock d;
     datasets := map (mark_linked dataset_id) (datasets d);
     orcid_mappings := orcid_mappings d;
     orcid_mappings_seq := orcid_mappings_seq d |}.

(** [register_orcid_mapping]: both statements in one transaction; any
    exception is caught and reported as [False], nothing being written. *)
Definition register_orcid_mapping (dataset_id : Z) (record_id orcid : string)
    (confidence : Q) : M bool :=
  fun w =>
    if db_online (db w) then
      (Return true,
       {| trace := trace w;
          db := update_linked dataset_id
                  (insert_mapping dataset_id record_id orcid confidence
                     (db w)) |})
    else (Return false, w).

Definition by_dataset (dataset_id : Z) (r : mapping_row) : bool :=
  (m_dataset_id r =? dataset_id)%Z.

Definition by_orcid (orcid : string) (r : mapping_row) : bool :=
  String.eqb (m_orcid r) orcid.

Definition date_lt (a b : mapping_row) : bool :=
  (m_match_date a <? m_match_date b)%Z.

Fixpoint insert_by_date (r : mapping_row) (l : list mapping_row)
    : list mapping_row :=
  match l with
  | [] => [r]
  | x :: rest => if date_lt r x then x :: insert_by_date r rest else r :: l
  end.

(** [ORDER BY match_date DESC]; rows of one date keep their table order. *)
Definition order_by_date_desc (l : list mapping_row) : list mapping_row :=
  fold_right insert_by_date [] l.

(** [get_orcid_mappings]: one of four SELECTs by the filters given; the
    rows come back in table order unless ordered by date. *)
Definition get_orcid_mappings (dataset_id : option Z) (orcid : option string)
    : M (list mapping_row) :=
  fun w =>
    if db_online (db w) then
      let rows := orcid_mappings (db w) in
      (Return
         match dataset_id, orcid with
         | Some d, Some o =>
             filter (fun r => by_dataset d r && by_orcid o r) rows
         | Some d, None => filter (by_dataset d) rows
         | None, Some o => filter (by_orcid o) rows
         | None, None => order_by_date_desc rows
         end, w)
    else (Return [], w).

End PermanentDatabase.

(** ** The network

    What a server answers is not the program's to decide: a [network] gives
    the answer to each request, and may answer the same request differently
    as the number of requests made so far grows (transient failures).

    A JSON body is kept in the shape the parsing code reads it in.  A body
    that [response.json()] cannot decode is [None]; a decoded one is [JNull]
    for [null] (or another value that is not an object), [JEmpty] for the
    empty object, else the document. *)

Inductive json (A : Type) : Type :=
| JNull
| JEmpty
| JDoc (a : A).

Arguments JNull {A}.
Arguments JEmpty {A}.
Arguments JDoc {A} a.

Inductive reply (A : Type) : Type :=
| ConnectionFailed
| Response (status : Z) (body : A).

Arguments ConnectionFailed {A}.
Arguments Response {A} status body.

(** *** Registry payloads *)

(** The ["orcid-identifier"] of a search hit: absent, [null], or an object
    with its ["path"]. *)
Inductive oid_field : Type :=
| OidMissing
| OidNull
| OidDict (path : Py.pystr).

Record hit : Type := {
  h_orcid_identifier : oid_field;
  (** ["display-name"]: absent, or a string or [null] *)
  h_display_name : option Py.pystr;
  (** ["affiliation-name"] inside ["affiliation-path"], when both are there *)
  h_affiliation_name : option string
}.

(** The ["result"] key of a search answer. *)
Inductive result_field : Type :=
| ResultMissing
| ResultNotIterable
| ResultList (hits : list hit).

Record search_doc : Type := { sd_result : result_field }.

(** ["person"]["name"]; each part is [None] when its object is absent or
    empty, else the ["value"] it holds. *)
Record name_obj : Type := {
  n_given_names : option Py.pystr;
  n_family_name : option Py.pystr
}.

(** The ["services"] key of ["activities-summary"]: absent, [null], or an
    object. *)
Inductive services_field : Type :=
| ServicesMissing
| ServicesNull
| ServicesDict.

Record record_doc : Type := {
  (** [None] when ["name"] is absent, [null] or empty *)
  rd_name : option name_obj;
  (** the items of ["keywords"]["keyword"]: [Some content] for an object
      with a ["content"] key, [None] for anything else *)
  rd_keywords : list (option Py.pystr);
  (** the items of ["employment-summary"]: [Some name] for an object, with
      the name of its organization, [None] for anything else *)
  rd_employments : list (option Py.pystr);
  rd_services : services_field
}.

(** *** Bibliographic payloads *)

Record author_el : Type := {
  LastName : option string;
  ForeName : option string
}.

Record pubdate_el : Type := {
  Year : option string;
  Month : option string;
  Day : option string
}.

Record articleid_el : Type := {
  IdType : option string;
  id_text : string
}.

(** A [PubmedArticle] element: for each tag the text of its first
    occurrence, [None] when there is none. *)
Record pubmed_article : Type := {
  PMID : option string;
  ArticleTitle : option string;
  AbstractText : option string;
  AuthorList : option (list author_el);
  PubDate : option pubdate_el;
  (** [Journal], and inside it [Title] *)
  Journal : option (option string);
  ArticleIdList : option (list articleid_el)
}.

Record network : Type := {
  orcid_search : nat -> string -> Z -> reply (option (json search_doc));
  orcid_record : nat -> string -> reply (option (json record_doc));
  (** the ["idlist"] of ["esearchresult"] *)
  esearch : nat -> string -> Z -> reply (option (json (list string)));
  (** the [PubmedArticle] elements of the XML text *)
  efetch : nat -> list string -> reply (list pubmed_article)
}.

(** [requests.get]: the request goes out; a connection failure raises. *)
Definition requests_get {A : Type} (r : request) (answer : nat -> reply A)
    : M (Z * A) :=
  fun w =>
    let w' := {| trace := trace w ++ [EvRequest r]; db := db w |} in
    match answer (requests_made w) with
    | ConnectionFailed => (Raise ConnectionError, w')
    | Response status body => (Return (status, body), w')
    end.

(** The status codes of client and server errors. *)
Definition is_error (status : Z) : bool :=
  (400 <=? status)%Z && (status <? 600)%Z.

(** [response.raise_for_status()]: client and server errors raise. *)
Definition raise_for_status {A : Type} (response : Z * A) : M unit :=
  let status := fst response in
  if is_error status then raise (HTTPError status) else ret tt.

(** [response.json()] *)
Definition response_json {A : Type} (response : Z * option (json A))
    : M (json A) :=
  match snd response with
  | None => raise JSONDecodeError
  | Some data => ret data
  end.

(** ** [OrcidClient] *)

(** A researcher profile, the dict the client hands around.  Of its keys
    those are kept that [search_researchers], [match_researcher] and the
    batch job in [main.py] read or write; a key that is not set is [None]. *)
Record researcher : Type := {
  r_orcid_id : option string;
  r_orcid : option string;
  r_name : option Py.pystr;
  r_display_name : option Py.pystr;
  r_given_name : option Py.pystr;
  r_family_name : option Py.pystr;
  r_institution : option Py.pystr;
  r_keywords : option (list Py.pystr);
  r_match_confidence : option Q
}.

Module OrcidClient.

Import Py.
Local Open Scope string_scope.

Record t : Type := {
  network_of : network;
  debug_mode : bool
}.

(** *** Partial dates *)

(** What a ["value"] key can hold. *)
Inductive scalar : Type :=
| SNone
| SBool (b : bool)
| SInt (n : Z)
| SStr (s : string).

(** One of the keys ["year"], ["month"], ["day"] of a date object: absent,
    a bare scalar ([null] included), or an object with or without a
    ["value"] key.  The date object itself is [null] or an object; a date
    object of another kind (a bare string, a number) makes the function
    raise and has no place here. *)
Inductive part : Type :=
| Missing
| Atom (v : scalar)
| Obj (value : option scalar).

Record date_dict : Type := {
  d_year : part;
  d_month : part;
  d_day : part
}.

Definition truthy_scalar (v : scalar) : bool :=
  match v with
  | SNone => false
  | SBool b => b
  | SInt n => negb (n =? 0)%Z
  | SStr s => truthy s
  end.

(** How an f-string renders the value. *)
Definition format_scalar (v : scalar) : string :=
  match v with
  | SNone => "None"
  | SBool true => "True"
  | SBool false => "False"
  | SInt n => str_of_int n
  | SStr s => s
  end.

(** [not date_obj] for a dict: it has none of the three keys (a key the
    function never reads does not change what follows). *)
Definition empty_date (d : date_dict) : bool :=
  match d_year d, d_month d, d_day d with
  | Missing, Missing, Missing => true
  | _, _, _ => false
  end.

(** [obj = date_obj.get(key, {}) or {}] and then
    [obj.get("value") if isinstance(obj, dict) else None] *)
Definition part_value (p : part) : scalar :=
  match p with
  | Missing => SNone
  | Atom _ => SNone
  | Obj None => SNone
  | Obj (Some v) => v
  end.

Definition _format_date (date_obj : option date_dict) : option string :=
  match date_obj with
  | None => None
  | Some d =>
      if empty_date d then None
      else
        let year := part_value (d_year d) in
        let month := part_value (d_month d) in
        let day := part_value (d_day d) in
        if truthy_scalar year then
          if truthy_scalar month && truthy_scalar day then
            Some (format_scalar year ++ "-" ++ format_scalar month ++ "-"
                  ++ format_scalar day)
          else if truthy_scalar month then
            Some (format_scalar year ++ "-" ++ format_scalar month)
          else Some (format_scalar year)
        else None
  end.

(** *** Fetching one profile *)

Definition debug_profile (orcid : string) : researcher :=
  {| r_orcid_id := Some orcid;
     r_orcid := None;
     r_name := Some (Some "Debug Mode");
     r_display_name := None;
     r_given_name := Some (Some "Debug");
     r_family_name := Some (Some "Mode");
     r_institution := Some (Some "Debug Institution");
     r_keywords := None;
     r_match_confidence := None |}.

(** [researcher["name"]] from the two name parts. *)
Definition full_name (given_names family_name : pystr) : option pystr :=
  match given_names, family_name with
  | Some g, Some f =>
      if truthy g && truthy f then Some (Some (g ++ " " ++ f))
      else if truthy g then Some (Some g)
      else if truthy f then Some (Some f)
      else None
  | Some g, None => if truthy g then Some (Some g) else None
  | None, Some f => if truthy f then Some (Some f) else None
  | None, None => None
  end.

(** The contents of the keyword objects, in order. *)
Fixpoint keyword_contents (items : list (option pystr)) : list pystr :=
  match items with
  | [] => []
  | None :: rest => keyword_contents rest
  | Some content :: rest => content :: keyword_contents rest
  end.

(** The organization names of the employment objects, in order. *)
Fixpoint organizations (items : list (option pystr)) : list pystr :=
  match items with
  | [] => []
  | None :: rest => organizations rest
  | Some name :: rest => name :: organizations rest
  end.

(** The profile built from a decoded record. *)
Definition parse_record (orcid : string) (data : record_doc) : researcher :=
  let given_names :=
    match rd_name data with
    | Some n => Some (dict_get (n_given_names n) "")
    | None => None
    end in
  let family_name :=
    match rd_name data with
    | Some n => Some (dict_get (n_family_name n) "")
    | None => None
    end in
  {| r_orcid_id := Some orcid;
     r_orcid := None;
     r_name :=
       match given_names, family_name with
       | Some g, Some f => full_name g f
       | _, _ => None
       end;
     r_display_name := None;
     r_given_name := given_names;
     r_family_name := family_name;
     r_institution :=
       match organizations (rd_employments data) with
       | [] => None
       | first :: _ => Some first
       end;
     r_keywords :=
       match rd_keywords data with
       | [] => None
       | _ :: _ => Some (keyword_contents (rd_keywords data))
       end;
     r_match_confidence := None |}.

(** The part of [get_researcher_info] that reads a decoded record.  The
    keys that [include_details] adds to the profile are not kept in
    [researcher]; what the flag changes here is that the branch it selects
    reads ["services"] with [activities.get("services", {}) if "services"
    in activities else {}] and calls [.get] on the result, which raises
    when the key holds [null]. *)
Definition read_record (orcid : string) (include_details : bool)
    (data : record_doc) : outcome researcher :=
  if include_details then
    match rd_services data with
    | ServicesNull => Raise AttributeError
    | ServicesMissing | ServicesDict => Return (parse_record orcid data)
    end
  else Return (parse_record orcid data).

(** The body of [get_researcher_info]: every exception ends in [None]. *)
Definition get_researcher_info_body (self : t) (orcid : string)
    (include_details : bool) : M (option researcher) :=
  try_except
    (if debug_mode self then ret (Some (debug_profile orcid))
     else
       rate_limiter_wait Orcid ;;;
       response <- requests_get (OrcidRecord orcid)
                     (fun i => orcid_record (network_of self) i orcid) ;;
       raise_for_status response ;;;
       data <- response_json response ;;
       match data with
       | JNull | JEmpty => ret None
       | JDoc doc =>
           researcher <- lift (read_record orcid include_details doc) ;;
           ret (Some researcher)
       end)
    (fun _ => ret None).

Definition get_researcher_info (self : t) (orcid : string)
    (include_details : bool) : M (option researcher) :=
  retry_default (get_researcher_info_body self orcid include_details).

(** *** Free-text search *)

(** [result.get("orcid-identifier", {}).get("path")] *)
Definition hit_orcid_id (result : hit) : outcome pystr :=
  match h_orcid_identifier result with
  | OidMissing => Return None
  | OidNull => Raise AttributeError
  | OidDict path => Return path
  end.

(** The minimal profile made from a hit alone. *)
Definition stub (orcid_id : string) (result : hit) : researcher :=
  let institution :=
    match h_affiliation_name result with
    | Some affiliation_name =>
        if truthy affiliation_name then affiliation_name else ""
    | None => ""
    end in
  let display_name := dict_get (h_display_name result) "" in
  let names :=
    match display_name with
    | Some dn =>
        if truthy dn then
          match split dn with
          | first :: second :: more =>
              Some (first, join " " (second :: more))
          | _ => Some (dn, "")
          end
        else None
    | None => None
    end in
  {| r_orcid_id := Some orcid_id;
     r_orcid := Some orcid_id;
     r_name := Some display_name;
     r_display_name := Some display_name;
     r_given_name := option_map (fun p => Some (fst p)) names;
     r_family_name := option_map (fun p => Some (snd p)) names;
     r_institution := Some (Some institution);
     r_keywords := None;
     r_match_confidence := None |}.

(** [researcher_info["orcid_id"] = orcid_id; researcher_info["orcid"] =
    orcid_id] *)
Definition with_orcid (orcid_id : string) (r : researcher) : researcher :=
  {| r_orcid_id := Some orcid_id;
     r_orcid := Some orcid_id;
     r_name := r_name r;
     r_display_name := r_display_name r;
     r_given_name := r_given_name r;
     r_family_name := r_family_name r;
     r_institution := r_institution r;
     r_keywords := r_keywords r;
     r_match_confidence := r_match_confidence r |}.

(** The loop over the hits, [results] being the list built so far. *)
Fixpoint search_loop (self : t) (max_results : Z) (hits : list hit)
    (results : list researcher) : M (list researcher) :=
  match hits with
  | [] => ret results
  | result :: rest =>
      orcid_id <- lift (hit_orcid_id result) ;;
      match orcid_id with
      | None => search_loop self max_results rest results
      | Some oid =>
          if negb (truthy oid) then
            search_loop self max_results rest results
          else if (5 <? max_results)%Z then
            search_loop self max_results rest (results ++ [stub oid result])
          else
            researcher_info <- get_researcher_info self oid false ;;
            match researcher_info with
            | Some info =>
                search_loop self max_results rest
                  (results ++ [with_orcid oid info])
            | None => search_loop self max_results rest results
            end
      end
  end.

(** The body of [search_researchers]: every exception ends in the empty
    list.  A document without ["result"] gives no hits; a ["result"] that
    cannot be iterated ([null], as the registry sends it for no hits, or a
    number) raises. *)
Definition search_researchers_body (self : t) (query : string)
    (max_results : Z) : M (list researcher) :=
  try_except
    (if debug_mode self then ret []
     else
       rate_limiter_wait Orcid ;;;
       response <- requests_get (OrcidSearch query max_results)
                     (fun i => orcid_search (network_of self) i query
                                 max_results) ;;
       raise_for_status response ;;;
       data <- response_json response ;;
       match data with
       | JNull => raise AttributeError
       | JEmpty => ret []
       | JDoc doc =>
           match sd_result doc with
           | ResultMissing => ret []
           | ResultNotIterable => raise TypeError
           | ResultList hits => search_loop self max_results hits []
           end
       end)
    (fun _ => ret []).

Definition search_researchers (self : t) (query : string) (max_results : Z)
    : M (list researcher) :=
  retry_default (search_researchers_body self query max_results).

(** *** Matching *)

(** The double quote character. *)
Definition dquote : ascii := ascii_of_nat 34.

(** [s] between double quotes. *)
Definition quote (s : string) : string :=
  String dquote s ++ String dquote "".

(** The conjunctive query: the name, at most three keywords, the
    institution, each quoted. *)
Definition build_query (name : string) (keywords : option (list string))
    (institution : option string) : string :=
  let query_parts := [quote name] in
  let query_parts :=
    match keywords with
    | Some (k :: ks) =>
        (query_parts ++ map quote (firstn 3 (k :: ks)))%list
    | _ => query_parts
    end in
  let query_parts :=
    match institution with
    | Some i =>
        if truthy i then (query_parts ++ [quote i])%list else query_parts
    | None => query_parts
    end in
  join " AND " query_parts.

(** [v.lower()] raises on [None]. *)
Definition lower_py (v : pystr) : outcome string :=
  match v with
  | None => Raise AttributeError
  | Some s => Return (lower s)
  end.

(** [[k.lower() for k in ks]] *)
Fixpoint lower_all (ks : list pystr) : outcome (list string) :=
  match ks with
  | [] => Return []
  | k :: rest =>
      match lower_py k with
      | Raise e => Raise e
      | Return k' =>
          match lower_all rest with
          | Raise e => Raise e
          | Return rest' => Return (k' :: rest')
          end
      end
  end.

(** Name: 0.5 when the candidate's name contains the query name, 0.3 more
    when the two are equal. *)
Definition score_name (name : string) (candidate : researcher)
    (confidence : Q) : outcome Q :=
  match lower_py (dict_get (r_name candidate) "") with
  | Raise e => Raise e
  | Return full_name =>
      if truthy full_name && contains full_name (lower name) then
        let confidence := confidence + 0.5 in
        if String.eqb (lower name) full_name then Return (confidence + 0.3)
        else Return confidence
      else Return confidence
  end.

(** Keywords: 0.1 for each query keyword among the candidate's. *)
Definition score_keywords (keywords : option (list string))
    (candidate : researcher) (confidence : Q) : outcome Q :=
  match keywords, r_keywords candidate with
  | Some (k :: ks), Some candidate_keywords =>
      match lower_all candidate_keywords with
      | Raise e => Raise e
      | Return researcher_keywords =>
          Return
            (fold_left
               (fun confidence keyword =>
                  if mem (lower keyword) researcher_keywords
                  then confidence + 0.1 else confidence)
               (k :: ks) confidence)
      end
  | _, _ => Return confidence
  end.

(** Institution: 0.2 for each blank-separated part of the candidate's
    institution that contains the query institution. *)
Definition score_institution (institution : option string)
    (candidate : researcher) (confidence : Q) : outcome Q :=
  match institution, r_institution candidate with
  | Some i, Some candidate_institution =>
      if truthy i then
        match candidate_institution with
        | None => Raise AttributeError
        | Some ci =>
            let affiliations := map lower (split ci) in
            Return
              (fold_left
                 (fun confidence affiliation =>
                    if contains affiliation (lower i)
                    then confidence + 0.2 else confidence)
                 affiliations confidence)
        end
      else Return confidence
  | _, _ => Return confidence
  end.

(** The confidence one candidate gets in the loop over several. *)
Definition score (name : string) (keywords : option (list string))
    (institution : option string) (candidate : researcher) : outcome Q :=
  match score_name name candidate 0.0 with
  | Raise e => Raise e
  | Return confidence =>
      match score_keywords keywords candidate confidence with
      | Raise e => Raise e
      | Return confidence =>
          match score_institution institution candidate confidence with
          | Raise e => Raise e
          | Return confidence => Return (round2 (min confidence 1.0))
          end
      end
  end.

Definition with_confidence (c : Q) (r : researcher) : researcher :=
  {| r_orcid_id := r_orcid_id r;
     r_orcid := r_orcid r;
     r_name := r_name r;
     r_display_name := r_display_name r;
     r_given_name := r_given_name r;
     r_family_name := r_family_name r;
     r_institution := r_institution r;
     r_keywords := r_keywords r;
     r_match_confidence := Some c |}.

(** [for researcher in researchers: ... researcher["match_confidence"] =
    ...]; an exception leaves the loop. *)
Fixpoint score_all (name : string) (keywords : option (list string))
    (institution : option string) (researchers : list researcher)
    : outcome (list researcher) :=
  match researchers with
  | [] => Return []
  | candidate :: rest =>
      match score name keywords institution candidate with
      | Raise e => Raise e
      | Return c =>
          match score_all name keywords institution rest with
          | Raise e => Raise e
          | Return rest' => Return (with_confidence c candidate :: rest')
          end
      end
  end.

(** [x.get("match_confidence", 0)] *)
Definition sort_key (r : researcher) : Q :=
  match r_match_confidence r with
  | Some c => c
  | None => 0
  end.

Definition key_lt (a b : researcher) : bool :=
  negb (Qle_bool (sort_key b) (sort_key a)).

Fixpoint insert_desc (r : researcher) (l : list researcher)
    : list researcher :=
  match l with
  | [] => [r]
  | x :: rest => if key_lt r x then x :: insert_desc r rest else r :: l
  end.

(** [researchers.sort(key=..., reverse=True)]: descending, and stable. *)
Definition sort_desc (l : list researcher) : list researcher :=
  fold_right insert_desc [] l.

(** [if "match_confidence" not in researchers[0]:
    researchers[0]["match_confidence"] = 0.7] *)
Definition default_confidence (r : researcher) : researcher :=
  match r_match_confidence r with
  | Some _ => r
  | None => with_confidence 0.7 r
  end.

(** [match_researcher]: [None] when nothing is found, and on every
    exception. *)
Definition match_researcher (self : t) (name : string)
    (keywords : option (list string)) (institution : option string)
    : M (option researcher) :=
  try_except
    (let query := build_query name keywords institution in
     researchers <- search_researchers self query 5 ;;
     match researchers with
     | [] => ret None
     | _ :: _ =>
         researchers <-
           (if (1 <? List.length researchers)%nat then
              scored <- lift (score_all name keywords institution
                                researchers) ;;
              ret (sort_desc scored)
            else ret researchers) ;;
         match researchers with
         | [] => raise IndexError
         | first :: _ => ret (Some (default_confidence first))
         end
     end)
    (fun _ => ret None).

End OrcidClient.

(** ** [PubMedCollector] *)

(** A publication record, the dict [search_articles] builds per article. *)
Record article : Type := {
  a_pmid : option string;
  a_title : option string;
  a_abstract : option string;
  a_authors : option (list string);
  a_publication_date : option string;
  a_journal : option string;
  a_doi : option string;
  a_authors_str : option string
}.

Module PubMedCollector.

Import Py.
Local Open Scope string_scope.

(** [author_name]: the last name, then the fore name, each when its
    element is there. *)
Definition author_name (author : author_el) : list string :=
  (match LastName author with
   | Some last_name => [last_name]
   | None => []
   end ++
   match ForeName author with
   | Some fore_name => [fore_name]
   | None => []
   end)%list.

(** The loop over the [Author] elements. *)
Fixpoint authors_of (author_list : list author_el) : list string :=
  match author_list with
  | [] => []
  | author :: rest =>
      match author_name author with
      | [] => authors_of rest
      | part :: parts => join " " (part :: parts) :: authors_of rest
      end
  end.

Definition date_parts (pub_date : pubdate_el) : list string :=
  (match Year pub_date with Some y => [y] | None => [] end ++
   match Month pub_date with Some m => [m] | None => [] end ++
   match Day pub_date with Some d => [d] | None => [] end)%list.

(** The text of the last [ArticleId] whose [IdType] is ["doi"]. *)
Definition doi_of (ids : list articleid_el) : option string :=
  fold_left
    (fun doi article_id =>
       match IdType article_id with
       | Some ty => if String.eqb ty "doi" then Some (id_text article_id)
                    else doi
       | None => doi
       end)
    ids None.

Definition parse_article (x : pubmed_article) : article :=
  {| a_pmid := PMID x;
     a_title := ArticleTitle x;
     a_abstract := AbstractText x;
     a_authors :=
       Some match AuthorList x with
            | Some author_list => authors_of author_list
            | None => []
            end;
     a_publication_date :=
       option_map (fun pub_date => join "-" (date_parts pub_date))
         (PubDate x);
     a_journal :=
       match Journal x with
       | Some (Some journal_title) => Some journal_title
       | _ => None
       end;
     a_doi :=
       match ArticleIdList x with
       | Some ids => doi_of ids
       | None => None
       end;
     a_authors_str := None |}.

(** The body of [search_articles]: ids first, then the records of those
    ids in one request; an exception is logged and raised again. *)
Definition search_articles_body (net : network) (query : string)
    (max_results : Z) : M (list article) :=
  try_except
    (rate_limiter_wait PubMed ;;;
     response <- requests_get (ESearch query max_results)
                   (fun i => esearch net i query max_results) ;;
     raise_for_status response ;;;
     search_results <- response_json response ;;
     id_list <- match search_results with
                | JNull => raise AttributeError
                | JEmpty => ret []
                | JDoc ids => ret ids
                end ;;
     match id_list with
     | [] => ret []
     | _ :: _ =>
         rate_limiter_wait PubMed ;;;
         response <- requests_get (EFetch id_list)
                       (fun i => efetch net i id_list) ;;
         raise_for_status response ;;;
         ret (map parse_article (snd response))
     end)
    (fun e => raise e).

Definition search_articles (net : network) (query : string)
    (max_results : Z) : M (list article) :=
  retry_default (search_articles_body net query max_results).

(** [search_by_orcid] *)
Definition search_by_orcid (net : network) (orcid : string)
    (max_results : Z) : M (list article) :=
  search_articles net (orcid ++ "[auid]") max_results.

Definition flatten_authors (a : article) : article :=
  match a_authors a with
  | Some authors =>
      {| a_pmid := a_pmid a; a_title := a_title a;
         a_abstract := a_abstract a; a_authors := a_authors a;
         a_publication_date := a_publication_date a;
         a_journal := a_journal a; a_doi := a_doi a;
         a_authors_str := Some (join ", " authors) |}
  | None => a
  end.

(** [to_dataframe]: the rows of the frame, one per article. *)
Definition to_dataframe (articles : list article) : list article :=
  map flatten_authors articles.

End PubMedCollector.

(** ** The batch job ([main.py], [match_researchers_with_orcid]) *)

Module Main.

Import Py.

(** One row of a dataset, as the loop body sees it once the columns are
    read: the record id it will be stored under, the name, and the
    keywords and institution when their columns are given. *)
Record row : Type := {
  row_record_id : string;
  row_name : string;
  row_keywords : option (list string);
  row_institution : option string
}.

(** The loop body from the call of [match_researcher] on: a mapping is
    registered when a researcher came back and has an ["orcid"]; the
    result is what the row adds to [match_count]. *)
Definition match_row (client : OrcidClient.t) (dataset_id : Z) (r : row)
    : M nat :=
  researcher <- OrcidClient.match_researcher client (row_name r)
                  (row_keywords r) (row_institution r) ;;
  match researcher with
  | Some found =>
      match r_orcid found with
      | Some orcid =>
          if truthy orcid then
            let confidence :=
              match r_match_confidence found with
              | Some c => c
              | None => 0.5
              end in
            success <- PermanentDatabase.register_orcid_mapping dataset_id
                         (row_record_id r) orcid confidence ;;
            if success then ret 1%nat else ret 0%nat
          else ret 0%nat
      | None => ret 0%nat
      end
  | None => ret 0%nat
  end.

(** The loop over the rows of one dataset; the result is [match_count]. *)
Fixpoint match_rows (client : OrcidClient.t) (dataset_id : Z)
    (rows : list row) (match_count : nat) : M nat :=
  match rows with
  | [] => ret match_count
  | r :: rest =>
      n <- match_row client dataset_id r ;;
      match_rows client dataset_id rest (match_count + n)
  end.

End Main.

(** ** An operation that fails every time

    The test double of the retry decorator: it leaves a mark in the trace
    for each invocation and raises the error [errors k] at its invocation
    number [k] (counted from the marks already there). *)

Definition is_invoke (e : event) : bool :=
  match e with
  | EvInvoke => true
  | _ => false
  end.

Definition invocations (w : world) : nat :=
  List.length (filter is_invoke (trace w)).

Definition failing_operation (A : Type) (errors : nat -> exn) : M A :=
  fun w =>
    (Raise (errors (invocations w)),
     {| trace := trace w ++ [EvInvoke]; db := db w |}).

(** ** An operation that follows a script

    A second test double: its invocation number [k] (counted from the
    marks already in the trace) ends as [script k] says, by returning or by
    raising. *)

Definition scripted_operation (A : Type) (script : nat -> outcome A) : M A :=
  fun w =>
    (script (invocations w),
     {| trace := trace w ++ [EvInvoke]; db := db w |}).

(** ** [APIRateLimiter] ([data_collector.py])

    The limiter with the clock made explicit: [wait] is given the two
    readings of [time.time()] it takes, the one on entry and the one after
    the pause, and tells how long it sleeps in between. *)

Module APIRateLimiter.

Record t : Type := {
  period : Q;
  last_call_time : Q
}.

(** [__init__]: the period is [1.0 / calls_per_second]; a rate of zero
    raises [ZeroDivisionError], here [None]. *)
Definition init (calls_per_second : Q) : option t :=
  if Qeq_bool calls_per_second 0 then None
  else Some {| period := 1 / calls_per_second; last_call_time := 0 |}.

(** The argument of [time.sleep] in [wait], [None] when it does not
    sleep. *)
Definition time_to_wait (self : t) (current_time : Q) : option Q :=
  let time_since_last_call := current_time - last_call_time self in
  if negb (Qle_bool (period self) time_since_last_call)
  then Some (period self - time_since_last_call)
  else None.

(** [wait]: the pause, and the limiter with the second reading of the
    clock as the time of the last call. *)
Definition wait (self : t) (current_time time_after : Q) : option Q * t :=
  (time_to_wait self current_time,
   {| period := period self; last_call_time := time_after |}).

End APIRateLimiter.

(** ** Dataset relationships ([permanent_db.py])

    The table [dataset_relationships] on its own: the two operations on it
    take the table and give it back.  [online] tells whether the store can
    be reached, [clock] is the value of [CURRENT_TIMESTAMP]. *)

Record relationship_row : Type := {
  rel_id : Z;
  source_dataset_id : Z;
  target_dataset_id : Z;
  relationship_type : string;
  created_date : Z
}.

Record relationships_table : Type := {
  relationships : list relationship_row;
  (** the AUTOINCREMENT counter of the table *)
  relationships_seq : Z
}.

Module DatasetRelationships.

(** [register_dataset_relationship]: one INSERT; [False] and nothing
    written when the store cannot be reached. *)
Definition register_dataset_relationship (online : bool) (clock : Z)
    (source_id target_id : Z) (relationship_type : string)
    (table : relationships_table) : bool * relationships_table :=
  if online then
    let new_id := (relationships_seq table + 1)%Z in
    (true,
     {| relationships :=
          relationships table ++
          [ {| rel_id := new_id; source_dataset_id := source_id;
               target_dataset_id := target_id;
               relationship_type := relationship_type;
               created_date := clock |} ];
        relationships_seq := new_id |})
  else (false, table).

(** [get_dataset_relationships]: the rows that have the dataset at either
    end, or all rows when no dataset is given; the empty list when the
    store cannot be reached. *)
Definition get_dataset_relationships (online : bool) (dataset_id : option Z)
    (table : relationships_table) : list relationship_row :=
  if online then
    match dataset_id with
    | Some d =>
        filter (fun r => (source_dataset_id r =? d)%Z
                         || (target_dataset_id r =? d)%Z)
          (relationships table)
    | None => relationships table
    end
  else [].

End DatasetRelationships.

(** ** The dashboard ([app.py]) *)

Module App.

Import Py OrcidClient.
Local Open Scope string_scope.

(** What [_format_date] of the dashboard can be given: [None], a dict, a
    string, or a value of another kind. *)
Inductive date_input : Type :=
| DateNone
| DateDict (d : date_dict)
| DateStr (s : string)
| DateOther.

(** [x = date_obj.get(key, {}) if isinstance(date_obj.get(key, {}), dict)
    else date_obj.get(key)] and then [x.get('value') if isinstance(x, dict)
    else x]: a bare scalar counts as the value. *)
Definition component (p : part) : scalar :=
  match p with
  | Missing => SNone
  | Atom v => v
  | Obj None => SNone
  | Obj (Some v) => v
  end.

Definition _format_date (date_obj : date_input) : option string :=
  match date_obj with
  | DateNone => None
  | DateDict d =>
      let year := component (d_year d) in
      let month := component (d_month d) in
      let day := component (d_day d) in
      let date_str := "" in
      let date_str :=
        if truthy_scalar year then
          let date_str := date_str ++ format_scalar year in
          if truthy_scalar month then
            let date_str := date_str ++ "-" ++ format_scalar month in
            if truthy_scalar day then date_str ++ "-" ++ format_scalar day
            else date_str
          else date_str
        else date_str in
      if truthy date_str then Some date_str else None
  | DateStr s => Some s
  | DateOther => None
  end.

(** [search_orcid]: the identifier of the first researcher a search for
    the three words returns, the empty string when there is none and on
    every exception. *)
Definition search_orcid (orcid_client : OrcidClient.t)
    (firstname lastname institution : string) : M string :=
  try_except
    (let query := firstname ++ " " ++ lastname ++ " " ++ institution in
     researchers <- search_researchers orcid_client query 1 ;;
     match researchers with
     | first :: _ =>
         match r_orcid_id first with
         | Some orcid_id => ret orcid_id
         | None => ret ""
         end
     | [] => ret ""
     end)
    (fun _ => ret "").

End App.

(** * Vocabulary of the statements

    Sample data, closed forms and observations that the properties below
    are stated with.  Nothing here is part of the program. *)

Section Vocabulary.

Import Py PermanentDatabase OrcidClient PubMedCollector.
Local Open Scope string_scope.

(** The world after [time.sleep(seconds)]. *)
Definition slept (seconds : Q) (w : world) : world :=
  {| trace := trace w ++ [EvSleep seconds]; db := db w |}.

(** The date object with the three keys as given. *)
Definition date_of (year month day : part) : option date_dict :=
  Some {| d_year := year; d_month := month; d_day := day |}.

(** The component that carries the value [n], as the registry sends it. *)
Definition value_of (n : Z) : part := Obj (Some (SInt n)).

(** The world when the clock of the store reads [t]. *)
Definition at_time (t : Z) (w : world) : world :=
  {| trace := trace w;
     db := {| db_online := db_online (db w);
              db_clock := t;
              datasets := datasets (db w);
              orcid_mappings := orcid_mappings (db w);
              orcid_mappings_seq := orcid_mappings_seq (db w) |} |}.

(** A store with one dataset and no mapping yet. *)
Definition fresh_store : world :=
  {| trace := [];
     db := {| db_online := true;
              db_clock := 0;
              datasets := [ {| ds_id := 1; ds_name := "forskare";
                               ds_source := None;
                               ds_orcid_linked := false |} ];
              orcid_mappings := [];
              orcid_mappings_seq := 0 |} |}.

(** Writing the mapping of record [X] twice and asking for it. *)
Definition written_twice (dataset_id : Z) (X C : string) (c1 c2 : Q)
    (t1 t2 : Z) (w : world) : world :=
  let w1 := snd (register_orcid_mapping dataset_id X C c1 (at_time t1 w)) in
  snd (register_orcid_mapping dataset_id X C c2 (at_time t2 w1)).

(** Record 17 matched to the same identifier twice, first with
    confidence 0.7 and later with 0.9. *)
Definition rematched_store : world :=
  written_twice 1 "17" "0000-0002-1825-0097" 0.7 0.9 10 20 fresh_store.

(** The rows of one local record among the rows of a query. *)
Definition for_record (record_id : string) (rows : list mapping_row)
    : list mapping_row :=
  filter (fun r => String.eqb (m_record_id r) record_id) rows.

(** The mappings of record [X] to [C] in a dataset, as a caller gets them
    from [get_orcid_mappings]. *)
Definition mappings_of (dataset_id : Z) (X C : string) (w : world)
    : outcome (list mapping_row) :=
  match fst (get_orcid_mappings (Some dataset_id) (Some C) w) with
  | Return rows => Return (for_record X rows)
  | Raise e => Raise e
  end.

(** The blank that does not break a line, U+00A0. *)
Definition no_break_space : string := Unicode.encode [0xA0%Z].

(** A candidate with a Swedish name and employer. *)
Definition bjorn : researcher :=
  {| r_orcid_id := Some "0000-0001-5109-3700";
     r_orcid := Some "0000-0001-5109-3700";
     r_name := Some (Some "Björn Öberg");
     r_display_name := None;
     r_given_name := Some (Some "Björn");
     r_family_name := Some (Some "Öberg");
     r_institution := Some (Some "Örebro universitet");
     r_keywords := None;
     r_match_confidence := None |}.

(** The three contributions of the scoring function in closed form: the
    name, the keywords, the institution. *)
Definition name_contribution (name : string) (candidate : researcher) : Q :=
  match dict_get (r_name candidate) "" with
  | Some n =>
      if truthy (lower n) && contains (lower n) (lower name) then
        if String.eqb (lower name) (lower n) then 0.5 + 0.3 else 0.5
      else 0
  | None => 0
  end.

(** How many of the query keywords are among the candidate's. *)
Definition keyword_matches (keywords : option (list string))
    (candidate : researcher) : nat :=
  match keywords, r_keywords candidate with
  | Some ks, Some candidate_keywords =>
      match lower_all candidate_keywords with
      | Return researcher_keywords =>
          List.length
            (filter (fun k => mem (lower k) researcher_keywords) ks)
      | Raise _ => 0%nat
      end
  | _, _ => 0%nat
  end.

(** How many blank-separated parts of the candidate's institution contain
    the query institution. *)
Definition institution_matches (institution : option string)
    (candidate : researcher) : nat :=
  match institution, r_institution candidate with
  | Some i, Some (Some ci) =>
      if truthy i then
        List.length
          (filter (fun a => contains a (lower i)) (map lower (split ci)))
      else 0%nat
  | _, _ => 0%nat
  end.

(** [n] times the weight. *)
Definition times (weight : Q) (n : nat) : Q :=
  weight * inject_Z (Z.of_nat n).

(** The sum of the contributions, before the cap. *)
Definition total_contribution (name : string)
    (keywords : option (list string)) (institution : option string)
    (candidate : researcher) : Q :=
  name_contribution name candidate
  + times 0.1 (keyword_matches keywords candidate)
  + times 0.2 (institution_matches institution candidate).

(** The candidate's name, institution and keywords are strings where they
    are there at all (none of them is [None]). *)
Definition string_valued (candidate : researcher) : bool :=
  match r_name candidate with Some None => false | _ => true end
  && match r_institution candidate with Some None => false | _ => true end
  && match r_keywords candidate with
     | Some ks =>
         forallb (fun k => match k with Some _ => true | None => false end) ks
     | None => true
     end.

(** Two profiles that differ at most in the confidence they carry. *)
Definition same_profile (a b : researcher) : Prop :=
  r_orcid_id a = r_orcid_id b /\ r_orcid a = r_orcid b /\
  r_name a = r_name b /\ r_display_name a = r_display_name b /\
  r_given_name a = r_given_name b /\ r_family_name a = r_family_name b /\
  r_institution a = r_institution b /\ r_keywords a = r_keywords b.

(** The confidence on a profile lies in the unit interval. *)
Definition confidence_in_unit_interval (r : researcher) : Prop :=
  exists c, r_match_confidence r = Some c /\ 0 <= c /\ c <= 1.

(** A candidate profile with the given name, institution and keywords. *)
Definition profile (name institution : string) (keywords : list string)
    : researcher :=
  {| r_orcid_id := Some "0000-0002-1825-0097";
     r_orcid := Some "0000-0002-1825-0097";
     r_name := Some (Some name);
     r_display_name := None;
     r_given_name := None;
     r_family_name := None;
     r_institution := Some (Some institution);
     r_keywords := Some (map Some keywords);
     r_match_confidence := None |}.

(** A candidate that matches on everything: the name exactly, three
    keywords, the institution. *)
Definition full_match : researcher :=
  profile "John Smith" "MIT" ["physics"; "quantum"; "optics"].

(** A candidate whose institution names the query institution in two of
    its parts. *)
Definition twice_named : researcher :=
  profile "Jon Smith" "MIT Media Lab MIT" [].

(** A computation that leaves the store alone. *)
Definition keeps_db (A : Type) (m : M A) : Prop :=
  forall w, db (snd (m w)) = db w.

(** A profile that no scoring loop has touched. *)
Definition unscored (r : researcher) : Prop := r_match_confidence r = None.

(** What the registry's answer to a record request decodes to. *)
Definition fetched (self : t) (i : nat) (orcid : string)
    : option researcher :=
  match orcid_record (network_of self) i orcid with
  | Response status (Some (JDoc doc)) =>
      if is_error status then None else Some (parse_record orcid doc)
  | _ => None
  end.

(** The record has [null] under ["services"]. *)
Definition services_null (doc : record_doc) : bool :=
  match rd_services doc with
  | ServicesNull => true
  | _ => false
  end.

(** The same when the details are asked for. *)
Definition fetched_as (include_details : bool) (self : t) (i : nat)
    (orcid : string) : option researcher :=
  match orcid_record (network_of self) i orcid with
  | Response status (Some (JDoc doc)) =>
      if is_error status || (include_details && services_null doc)
      then None else Some (parse_record orcid doc)
  | _ => None
  end.

(** A researcher of the registry: her identifier, the hit that names her
    in a search answer, her record, and her profile as a search with few
    results returns it. *)
Definition jane_id : string := "0000-0002-1825-0097".

Definition jane_hit : hit :=
  {| h_orcid_identifier := OidDict (Some jane_id);
     h_display_name := None;
     h_affiliation_name := None |}.

Definition jane_doc : record_doc :=
  {| rd_name := Some {| n_given_names := Some (Some "Jane");
                        n_family_name := Some (Some "Doe") |};
     rd_keywords := [Some (Some "Physics")];
     rd_employments := [Some (Some "Uppsala universitet")];
     rd_services := ServicesMissing |}.

Definition jane : researcher :=
  with_orcid jane_id (parse_record jane_id jane_doc).

(** A registry that answers every search with the given hits and every
    record request with the profile of Jane Doe. *)
Definition registry_with (hits : list hit) : network :=
  {| orcid_search := fun _ _ _ =>
       Response 200 (Some (JDoc {| sd_result := ResultList hits |}));
     orcid_record := fun _ _ => Response 200 (Some (JDoc jane_doc));
     esearch := fun _ _ _ => ConnectionFailed;
     efetch := fun _ _ => ConnectionFailed |}.

(** A registry that cannot be reached. *)
Definition unreachable : network :=
  {| orcid_search := fun _ _ _ => ConnectionFailed;
     orcid_record := fun _ _ => ConnectionFailed;
     esearch := fun _ _ _ => ConnectionFailed;
     efetch := fun _ _ => ConnectionFailed |}.

(** A client of the given network, not in debug mode. *)
Definition client_of (net : network) : t :=
  {| network_of := net; debug_mode := false |}.

(** A store without rows, and the world before anything has happened. *)
Definition empty_store : database :=
  {| db_online := true; db_clock := 0; datasets := [];
     orcid_mappings := []; orcid_mappings_seq := 0 |}.

Definition start : world := {| trace := []; db := empty_store |}.

(** The world after one search request for [query]. *)
Definition searched (query : string) (max_results : Z) (w : world) : world :=
  {| trace := trace w ++ [EvRateWait Orcid;
                          EvRequest (OrcidSearch query max_results)];
     db := db w |}.

(** A row of a dataset that names Jane Doe. *)
Definition sample_row : Main.row :=
  {| Main.row_record_id := "17"; Main.row_name := "Jane Doe";
     Main.row_keywords := None; Main.row_institution := None |}.

(** The answer is a hard failure: no connection, an error status, or a
    body that is not JSON. *)
Definition hard_failure (A : Type) (r : reply (option A)) : bool :=
  match r with
  | ConnectionFailed => true
  | Response status body =>
      is_error status || match body with None => true | Some _ => false end
  end.

(** The identifier of a hit, when it has a usable one. *)
Definition usable_id (h : hit) : option string :=
  match h_orcid_identifier h with
  | OidDict (Some oid) => if truthy oid then Some oid else None
  | _ => None
  end.

(** No hit has [null] for its identifier object. *)
Definition well_formed (hits : list hit) : Prop :=
  Forall (fun h => h_orcid_identifier h <> OidNull) hits.

(** The usable identifiers of the hits, and the stubs of those hits. *)
Fixpoint hit_ids (hits : list hit) : list string :=
  match hits with
  | [] => []
  | h :: rest =>
      match usable_id h with
      | Some oid => oid :: hit_ids rest
      | None => hit_ids rest
      end
  end.

Fixpoint stubs_of (hits : list hit) : list researcher :=
  match hits with
  | [] => []
  | h :: rest =>
      match usable_id h with
      | Some oid => stub oid h :: stubs_of rest
      | None => stubs_of rest
      end
  end.

(** The events of one fetch per identifier. *)
Fixpoint fetch_events (ids : list string) : list event :=
  match ids with
  | [] => []
  | oid :: rest =>
      EvRateWait Orcid :: EvRequest (OrcidRecord oid) :: fetch_events rest
  end.

(** The profiles the registry gives for the identifiers, asked one after
    the other from request number [i] on; an identifier whose fetch fails
    is left out. *)
Fixpoint fetch_all (self : t) (i : nat) (ids : list string)
    : list researcher :=
  match ids with
  | [] => []
  | oid :: rest =>
      match fetched self i oid with
      | Some info => with_orcid oid info :: fetch_all self (S i) rest
      | None => fetch_all self (S i) rest
      end
  end.

(** The identifiers of the record requests in a trace. *)
Fixpoint record_requests (events : list event) : list string :=
  match events with
  | [] => []
  | EvRequest (OrcidRecord oid) :: rest => oid :: record_requests rest
  | _ :: rest => record_requests rest
  end.

(** One hit, asked for with room for ten. *)
Definition one_hit_of_ten : outcome (list researcher) * world :=
  search_researchers (client_of (registry_with [jane_hit])) "Jane Doe" 10
    start.

(** The hits that have a usable identifier, each with its identifier. *)
Fixpoint identified_hits (hits : list hit) : list (string * hit) :=
  match hits with
  | [] => []
  | h :: rest =>
      match usable_id h with
      | Some oid => (oid, h) :: identified_hits rest
      | None => identified_hits rest
      end
  end.

(** The display name a hit gives, the empty string when it has none, and
    the institution it names, empty as well when it names none. *)
Definition display_name_of (h : hit) : pystr :=
  match h_display_name h with
  | Some v => v
  | None => Some ""
  end.

Definition institution_of (h : hit) : string :=
  match h_affiliation_name h with
  | Some affiliation_name => affiliation_name
  | None => ""
  end.

(** [r] is the summary of the hit [h] with identifier [oid]: the
    identifier under both of its keys, the display name under both of its
    keys, the institution, and the name parts split from a non-empty
    display name at white space, the first part as the given name and the
    others, joined by blanks, as the family name; a display name of one
    part is the given name as it is, with an empty family name.  It has no
    keywords and no confidence. *)
Definition summarises (r : researcher) (oid : string) (h : hit) : Prop :=
  r_orcid_id r = Some oid /\ r_orcid r = Some oid /\
  r_name r = Some (display_name_of h) /\
  r_display_name r = Some (display_name_of h) /\
  r_institution r = Some (Some (institution_of h)) /\
  r_keywords r = None /\ r_match_confidence r = None /\
  match display_name_of h with
  | Some (String c dn) =>
      match split (String c dn) with
      | given :: family :: more =>
          r_given_name r = Some (Some given) /\
          r_family_name r = Some (Some (join " " (family :: more)))
      | _ =>
          r_given_name r = Some (Some (String c dn)) /\
          r_family_name r = Some (Some "")
      end
  | _ => r_given_name r = None /\ r_family_name r = None
  end.

(** A hit that names Jane Doe with her display name and her university. *)
Definition jane_summary : hit :=
  {| h_orcid_identifier := OidDict (Some jane_id);
     h_display_name := Some (Some "Jane Doe");
     h_affiliation_name := Some "Uppsala universitet" |}.

(** An author, and a paper of his. *)
Definition john_smith : author_el :=
  {| LastName := Some "Smith"; ForeName := Some "John" |}.

Definition one_author_paper : pubmed_article :=
  {| PMID := Some "12345"; ArticleTitle := Some "On tests";
     AbstractText := None; AuthorList := Some [john_smith];
     PubDate := None; Journal := None; ArticleIdList := None |}.

(** A bibliographic source with one record, the paper of John Smith. *)
Definition one_paper : network :=
  {| orcid_search := fun _ _ _ => ConnectionFailed;
     orcid_record := fun _ _ => ConnectionFailed;
     esearch := fun _ _ _ => Response 200 (Some (JDoc ["12345"]));
     efetch := fun _ _ => Response 200 [one_author_paper] |}.

(** The [Author] elements of an article, none when it has no list. *)
Definition author_elements (x : pubmed_article) : list author_el :=
  match AuthorList x with
  | Some author_list => author_list
  | None => []
  end.

(** The name of one author as the code joins it. *)
Definition family_first (author : author_el) : list string :=
  match LastName author, ForeName author with
  | Some family, Some given => [family ++ " " ++ given]
  | Some family, None => [family]
  | None, Some given => [given]
  | None, None => []
  end.

(** The events of [n] failed attempts in a row: an invocation and then a
    sleep, the sleep growing by the factor [backoff] each time. *)
Fixpoint failed_attempts (n : nat) (delay backoff : Q) : list event :=
  match n with
  | O => []
  | S n' => EvInvoke :: EvSleep delay :: failed_attempts n' (delay * backoff)
                                           backoff
  end.

(** A script that raises [error] on its first [k] invocations and returns
    [a] from then on. *)
Definition fails_then_returns (A : Type) (k : nat) (error : exn) (a : A)
    : nat -> outcome A :=
  fun i => if (i <? k)%nat then Raise error else Return a.

(** The exception a hard failure of a request ends in. *)
Definition failure_of (A : Type) (r : reply (option A)) : exn :=
  match r with
  | ConnectionFailed => ConnectionError
  | Response status _ =>
      if is_error status then HTTPError status else JSONDecodeError
  end.

(** The events of one id search: the limiter, then the request. *)
Definition esearch_events (query : string) (max_results : Z) : list event :=
  [EvRateWait PubMed; EvRequest (ESearch query max_results)].

(** The events of one batch fetch. *)
Definition efetch_events (ids : list string) : list event :=
  [EvRateWait PubMed; EvRequest (EFetch ids)].

(** The world with some more events in its trace. *)
Definition after (events : list event) (w : world) : world :=
  {| trace := trace w ++ events; db := db w |}.

(** A client in debug mode, of a registry that cannot be reached. *)
Definition debug_client : t :=
  {| network_of := unreachable; debug_mode := true |}.

(** The events of one profile fetch. *)
Definition record_events (orcid : string) : list event :=
  [EvRateWait Orcid; EvRequest (OrcidRecord orcid)].

(** A hit whose identifier object is [null]. *)
Definition null_hit : hit :=
  {| h_orcid_identifier := OidNull;
     h_display_name := Some (Some "Nobody");
     h_affiliation_name := None |}.

(** The profile names its researcher: it has the same non-empty identifier
    under ["orcid"] and under ["orcid_id"]. *)
Definition identified (r : researcher) : Prop :=
  exists oid, truthy oid = true /\ r_orcid r = Some oid /\
              r_orcid_id r = Some oid.

(** The candidate a descending stable sort puts first: the earliest one
    among those with the greatest key. *)
Fixpoint first_best (l : list researcher) : option researcher :=
  match l with
  | [] => None
  | r :: rest =>
      match first_best rest with
      | None => Some r
      | Some b => if key_lt r b then Some b else Some r
      end
  end.

(** A registry that answers every search with the given hits and every
    record request with the given document. *)
Definition registry_of (hits : list hit) (doc : record_doc) : network :=
  {| orcid_search := fun _ _ _ =>
       Response 200 (Some (JDoc {| sd_result := ResultList hits |}));
     orcid_record := fun _ _ => Response 200 (Some (JDoc doc));
     esearch := fun _ _ _ => ConnectionFailed;
     efetch := fun _ _ => ConnectionFailed |}.

(** A record whose one employment has [null] for the name of the
    organization. *)
Definition nameless_employer_doc : record_doc :=
  {| rd_name := Some {| n_given_names := Some (Some "Jane");
                        n_family_name := Some (Some "Doe") |};
     rd_keywords := [];
     rd_employments := [Some None];
     rd_services := ServicesMissing |}.

(** The record of Jane Doe as the registry sends it when it has no
    services to report: [null] under ["services"]. *)
Definition unserviced_doc : record_doc :=
  {| rd_name := Some {| n_given_names := Some (Some "Jane");
                        n_family_name := Some (Some "Doe") |};
     rd_keywords := [Some (Some "Physics")];
     rd_employments := [Some (Some "Uppsala universitet")];
     rd_services := ServicesNull |}.

(** The keys of the mapping table are in order: no id occurs twice, and
    none is above the AUTOINCREMENT counter. *)
Definition well_keyed (d : database) : Prop :=
  NoDup (map m_id (orcid_mappings d)) /\
  Forall (fun r => (m_id r <= orcid_mappings_seq d)%Z) (orcid_mappings d).

(** The row a successful registration adds to a store. *)
Definition registered_row (dataset_id : Z) (record_id orcid : string)
    (confidence : Q) (d : database) : mapping_row :=
  {| m_id := orcid_mappings_seq d + 1; m_dataset_id := dataset_id;
     m_record_id := record_id; m_orcid := orcid;
     m_match_confidence := confidence; m_match_date := db_clock d |}.

(** Later rows are not newer than earlier ones. *)
Definition newest_first (a b : mapping_row) : Prop :=
  (m_match_date b <= m_match_date a)%Z.

(** A store with three mappings written at different times. *)
Definition three_mappings : world :=
  {| trace := [];
     db := {| db_online := true; db_clock := 40;
              datasets := [];
              orcid_mappings :=
                [ {| m_id := 1; m_dataset_id := 1; m_record_id := "a";
                     m_orcid := "0000-0002-1825-0097";
                     m_match_confidence := 0.7; m_match_date := 20 |};
                  {| m_id := 2; m_dataset_id := 1; m_record_id := "b";
                     m_orcid := "0000-0001-5109-3700";
                     m_match_confidence := 0.8; m_match_date := 30 |};
                  {| m_id := 3; m_dataset_id := 2; m_record_id := "c";
                     m_orcid := "0000-0002-1825-0097";
                     m_match_confidence := 1; m_match_date := 10 |} ];
              orcid_mappings_seq := 3 |} |}.

(** How long [wait] sleeps, zero when it does not. *)
Definition pause (self : APIRateLimiter.t) (current_time : Q) : Q :=
  match APIRateLimiter.time_to_wait self current_time with
  | Some seconds => seconds
  | None => 0
  end.

(** A limiter of two calls per second whose last call was at time 10. *)
Definition two_per_second : APIRateLimiter.t :=
  {| APIRateLimiter.period := 1 / 2; APIRateLimiter.last_call_time := 10 |}.

(** No key of the date object holds a bare scalar that is true in a
    condition: the shape the registry sends. *)
Definition nested (d : date_dict) : Prop :=
  forall p, In p [d_year d; d_month d; d_day d] ->
            match p with
            | Atom v => truthy_scalar v = false
            | _ => True
            end.

(** The relationship that a registration adds to a table. *)
Definition registered_relationship (clock source_id target_id : Z)
    (relationship_type : string) (table : relationships_table)
    : relationship_row :=
  {| rel_id := relationships_seq table + 1; source_dataset_id := source_id;
     target_dataset_id := target_id; relationship_type := relationship_type;
     created_date := clock |}.

(** A table without relationships. *)
Definition no_relationships : relationships_table :=
  {| relationships := []; relationships_seq := 0 |}.

End Vocabulary.

(** * Properties *)

(** ** UTF-8 *)

Section Utf8Facts.

Import Unicode.
Local Open Scope string_scope.
Local Open Scope Z_scope.

Lemma byte_bounds (a : ascii) : 0 <= byte a < 256.
Proof. unfold byte. pose proof (N_ascii_bounded a). lia. Qed.

Lemma chr_byte (a : ascii) : chr (byte a) = a.
Proof. unfold chr, byte. rewrite N2Z.id. apply ascii_N_embedding. Qed.

Lemma continuation_bounds (a : ascii) :
  continuation a = true -> 0x80 <= byte a <= 0xBF.
Proof. unfold continuation. intros H. apply andb_prop in H. lia. Qed.

Lemma encode_point_ascii (a : ascii) :
  byte a < 0x80 -> encode_point (byte a) = String a "".
Proof.
  intros H. unfold encode_point.
  destruct (byte a <? 0x80) eqn:E; [now rewrite chr_byte | lia].
Qed.

Lemma encode_point_stray (a : ascii) : encode_point (stray a) = String a "".
Proof.
  unfold encode_point, stray. pose proof (byte_bounds a) as Hb.
  repeat match goal with
         | |- context [?x <? ?y] => destruct (Z.ltb_spec x y); try lia
         end.
  replace (0x110000 + byte a - 0x110000) with (byte a) by lia.
  now rewrite chr_byte.
Qed.

Lemma encode_point2 (a b : ascii) :
  two_bytes a b = true -> encode_point (point2 a b) = String a (String b "").
Proof.
  unfold two_bytes. intros H.
  apply andb_prop in H. destruct H as [H Hb].
  apply andb_prop in H. destruct H as [Hlo Hhi].
  apply continuation_bounds in Hb.
  unfold encode_point, point2.
  repeat match goal with
         | |- context [?x <? ?y] => destruct (Z.ltb_spec x y); try lia
         end.
  replace (0xC0 + ((byte a - 0xC0) * 0x40 + (byte b - 0x80)) / 0x40)
    with (byte a) by (Z.div_mod_to_equations; lia).
  replace (0x80 + ((byte a - 0xC0) * 0x40 + (byte b - 0x80)) mod 0x40)
    with (byte b) by (Z.div_mod_to_equations; lia).
  now rewrite !chr_byte.
Qed.

Lemma encode_point3 (a b c : ascii) :
  three_bytes a b c = true ->
  encode_point (point3 a b c) = String a (String b (String c "")).
Proof.
  unfold three_bytes. intros H.
  apply andb_prop in H. destruct H as [H Hmin].
  apply andb_prop in H. destruct H as [H Hc].
  apply andb_prop in H. destruct H as [H Hb].
  apply andb_prop in H. destruct H as [Hlo Hhi].
  apply continuation_bounds in Hb. apply continuation_bounds in Hc.
  revert Hmin. unfold encode_point, point3. intros Hmin.
  repeat match goal with
         | |- context [?x <? ?y] => destruct (Z.ltb_spec x y); try lia
         end.
  set (p := (byte a - 0xE0) * 0x1000 + (byte b - 0x80) * 0x40
            + (byte c - 0x80)).
  replace (0xE0 + p / 0x1000) with (byte a)
    by (subst p; Z.div_mod_to_equations; lia).
  replace (0x80 + (p / 0x40) mod 0x40) with (byte b)
    by (subst p; Z.div_mod_to_equations; lia).
  replace (0x80 + p mod 0x40) with (byte c)
    by (subst p; Z.div_mod_to_equations; lia).
  now rewrite !chr_byte.
Qed.

Lemma encode_point4 (a b c d : ascii) :
  four_bytes a b c d = true ->
  encode_point (point4 a b c d)
  = String a (String b (String c (String d ""))).
Proof.
  unfold four_bytes. intros H.
  apply andb_prop in H. destruct H as [H Hmax].
  apply andb_prop in H. destruct H as [H Hmin].
  apply andb_prop in H. destruct H as [H Hd].
  apply andb_prop in H. destruct H as [H Hc].
  apply andb_prop in H. destruct H as [H Hb].
  apply andb_prop in H. destruct H as [Hlo Hhi].
  apply continuation_bounds in Hb. apply continuation_bounds in Hc.
  apply continuation_bounds in Hd.
  revert Hmin Hmax. unfold encode_point, point4. intros Hmin Hmax.
  repeat match goal with
         | |- context [?x <? ?y] => destruct (Z.ltb_spec x y); try lia
         end.
  set (p := (byte a - 0xF0) * 0x40000 + (byte b - 0x80) * 0x1000
            + (byte c - 0x80) * 0x40 + (byte d - 0x80)).
  replace (0xF0 + p / 0x40000) with (byte a)
    by (subst p; Z.div_mod_to_equations; lia).
  replace (0x80 + (p / 0x1000) mod 0x40) with (byte b)
    by (subst p; Z.div_mod_to_equations; lia).
  replace (0x80 + (p / 0x40) mod 0x40) with (byte c)
    by (subst p; Z.div_mod_to_equations; lia).
  replace (0x80 + p mod 0x40) with (byte d)
    by (subst p; Z.div_mod_to_equations; lia).
  now rewrite !chr_byte.
Qed.

Lemma decode_step (a : ascii) (s1 : string) :
  decode (String a s1) =
  if byte a <? 0x80 then byte a :: decode s1
  else
    match s1 with
    | EmptyString => [stray a]
    | String b s2 =>
        if two_bytes a b then point2 a b :: decode s2
        else
          match s2 with
          | EmptyString => stray a :: decode s1
          | String c s3 =>
              if three_bytes a b c then point3 a b c :: decode s3
              else
                match s3 with
                | EmptyString => stray a :: decode s1
                | String d s4 =>
                    if four_bytes a b c d
                    then point4 a b c d :: decode s4
                    else stray a :: decode s1
                end
          end
    end.
Proof. reflexivity. Qed.

Lemma encode_decode_upto (n : nat) :
  forall s, (String.length s <= n)%nat -> encode (decode s) = s.
Proof.
  induction n as [|n IH]; intros s Hlen.
  - destruct s; [reflexivity | simpl in Hlen; lia].
  - destruct s as [|a s1]; [reflexivity|].
    assert (Hstray : encode (stray a :: decode s1) = String a s1).
    { cbn [encode]. rewrite encode_point_stray. cbn [append]. f_equal.
      apply IH. simpl in Hlen. lia. }
    rewrite decode_step.
    destruct (byte a <? 0x80) eqn:Ha.
    { cbn [encode]. rewrite encode_point_ascii by lia. cbn [append].
      f_equal. apply IH. simpl in Hlen. lia. }
    destruct s1 as [|b s2].
    { cbn [encode]. now rewrite encode_point_stray. }
    destruct (two_bytes a b) eqn:H2.
    { cbn [encode]. rewrite (@encode_point2 _ _ H2). cbn [append].
      do 2 f_equal. apply IH. simpl in Hlen. lia. }
    destruct s2 as [|c s3]; [exact Hstray|].
    destruct (three_bytes a b c) eqn:H3.
    { cbn [encode]. rewrite (@encode_point3 _ _ _ H3). cbn [append].
      do 3 f_equal. apply IH. simpl in Hlen. lia. }
    destruct s3 as [|d s4]; [exact Hstray|].
    destruct (four_bytes a b c d) eqn:H4; [|exact Hstray].
    cbn [encode]. rewrite (@encode_point4 _ _ _ _ H4). cbn [append].
    do 4 f_equal. apply IH. simpl in Hlen. lia.
Qed.

(** Decoding loses nothing: the code points of a string encode to the
    string. *)
Lemma encode_decode (s : string) : encode (decode s) = s.
Proof. exact (@encode_decode_upto (String.length s) s (le_n _)). Qed.

End Utf8Facts.

(** ** Strings *)

Section StringFacts.

Import Py.
Local Open Scope string_scope.

Lemma prefix_spec (p s : string) :
  prefix p s = true <-> exists rest, s = p ++ rest.
Proof.
  revert s. induction p as [|c p IH]; intros s.
  - split; [intros _; now exists s | intros _; now destruct s].
  - destruct s as [|d s]; simpl.
    + split; [discriminate | intros [rest H]; discriminate H].
    + destruct (ascii_dec c d) as [->|Hcd].
      * rewrite IH. split; intros [rest H]; exists rest.
        -- now rewrite H.
        -- now injection H.
      * split; [discriminate|]. intros [rest H]. injection H as H _.
        congruence.
Qed.

(** [contains] is Python's [in] on strings: the needle occurs somewhere in
    the hay. *)
Lemma contains_spec (hay needle : string) :
  contains hay needle = true <->
  exists before after, hay = before ++ needle ++ after.
Proof.
  split.
  - induction hay as [|c hay IH]; cbn [contains]; intros H.
    + rewrite orb_false_r in H. apply prefix_spec in H.
      destruct H as [rest H]. now exists "", rest.
    + apply orb_prop in H. destruct H as [H|H].
      * apply prefix_spec in H. destruct H as [rest H]. now exists "", rest.
      * destruct (IH H) as [before [after ->]].
        now exists (String c before), after.
  - intros [before [after ->]].
    induction before as [|c before IH].
    + assert (H : prefix needle (needle ++ after) = true)
        by (apply prefix_spec; now exists after).
      cbn [append]. destruct (needle ++ after); cbn [contains];
        now rewrite H.
    + cbn [append contains]. rewrite IH. apply orb_true_r.
Qed.

Lemma encode_point_nonempty (c : Z) : Unicode.encode_point c <> "".
Proof.
  unfold Unicode.encode_point.
  repeat match goal with
         | |- context [if ?b then _ else _] => destruct b
         end; discriminate.
Qed.

Lemma encode_nonempty (points : list Z) :
  points <> [] -> Unicode.encode points <> "".
Proof.
  destruct points as [|c rest]; [congruence|]. intros _. cbn [Unicode.encode].
  pose proof (encode_point_nonempty c) as Hc.
  destruct (Unicode.encode_point c); [congruence | discriminate].
Qed.

Lemma decode_nonempty (s : string) : s <> "" -> Unicode.decode s <> [].
Proof.
  destruct s as [|a s1]; [congruence|]. intros _. cbn [Unicode.decode].
  repeat match goal with
         | |- context [if ?b then _ else _] => destruct b
         | |- context [match ?x with EmptyString => _ | String _ _ => _ end] =>
             destruct x
         end; discriminate.
Qed.

Lemma do_lower_nonempty (before points : list Z) :
  points <> [] -> do_lower before points <> [].
Proof.
  destruct points as [|c rest]; [congruence|]. intros _. cbn [do_lower].
  unfold Unicode.to_lower_full.
  repeat match goal with
         | |- context [if ?b then _ else _] => destruct b
         end; discriminate.
Qed.

(** Lowering never empties a string. *)
Lemma lower_nonempty (s : string) : s <> "" -> truthy (lower s) = true.
Proof.
  intros Hs. unfold lower.
  pose proof (encode_nonempty
                (do_lower_nonempty [] (decode_nonempty Hs))) as H.
  destruct (Unicode.encode _); [congruence | reflexivity].
Qed.

Lemma split_from_nonempty (points : list Z) :
  forall tok,
    (forall t, tok = Some t -> t <> []) ->
    Forall (fun t => t <> []) (split_from tok points).
Proof.
  induction points as [|c points IH]; intros tok Htok; simpl.
  - destruct tok as [t|]; simpl; [|constructor].
    constructor; [now apply Htok | constructor].
  - destruct (isspace c).
    + destruct tok as [t|]; simpl.
      * constructor; [now apply Htok|]. apply IH. discriminate.
      * apply IH. discriminate.
    + apply IH. intros t. destruct tok as [t0|]; simpl;
        intros H; injection H as <-; [destruct t0|]; discriminate.
Qed.

(** [split] never yields an empty part. *)
Lemma split_nonempty (s : string) : Forall (fun t => t <> "") (split s).
Proof.
  unfold split. apply Forall_map.
  apply (Forall_impl _ encode_nonempty).
  apply split_from_nonempty. discriminate.
Qed.

(** Letters beyond ASCII are lowered, a capital sigma at the end of a
    word takes its final form, and a string is split at every kind of
    white space. *)
Lemma lower_and_split_examples :
  lower "BJÖRN ÖBERG" = "björn öberg" /\
  lower "Örebro Universitet" = "örebro universitet" /\
  lower "ΟΔΟΣ ΣΟΦΙΑΣ" = "οδος σοφιας" /\
  split ("Jane" ++ no_break_space ++ "Doe") = ["Jane"; "Doe"] /\
  split "  Uppsala   universitet " = ["Uppsala"; "universitet"] /\
  split "" = [].
Proof. repeat split; vm_compute; reflexivity. Qed.

End StringFacts.

(** ** The monad and the retry decorator *)

Section RetryFacts.

Variable A : Type.

Lemma try_except_return (m : M A) (h : exn -> M A) (w w' : world) (a : A) :
  m w = (Return a, w') -> try_except m h w = (Return a, w').
Proof. intros H. unfold try_except. now rewrite H. Qed.

Lemma try_except_raise (m : M A) (h : exn -> M A) (w w' : world) (e : exn) :
  m w = (Raise e, w') -> try_except m h w = h e w'.
Proof. intros H. unfold try_except. now rewrite H. Qed.

(** A handler that returns makes the whole block return. *)
Lemma try_except_total (m : M A) (d : A) (w : world) :
  exists a w', try_except m (fun _ => ret d) w = (Return a, w').
Proof.
  unfold try_except. destruct (m w) as [[a|e] w'].
  - now exists a, w'.
  - now exists d, w'.
Qed.

(** An operation that returns at once is run once, whatever the policy. *)
Lemma retry_while_return (n : nat) (delay backoff : Q) (func : M A)
    (w w' : world) (a : A) :
  func w = (Return a, w') ->
  retry_while n delay backoff func w = (Return a, w').
Proof.
  intros H. destruct n as [|n]; simpl.
  - exact H.
  - now apply try_except_return.
Qed.

Lemma retry_return (tries : Z) (delay backoff : Q) (func : M A)
    (w w' : world) (a : A) :
  func w = (Return a, w') -> retry tries delay backoff func w = (Return a, w').
Proof. apply retry_while_return. Qed.

(** One failed attempt: sleep, then either give up or go on. *)
Lemma retry_while_raise (n : nat) (delay backoff : Q) (func : M A)
    (w w' : world) (e : exn) :
  func w = (Raise e, w') ->
  retry_while (S n) delay backoff func w =
  let w'' := {| trace := trace w' ++ [EvSleep delay]; db := db w' |} in
  match n with
  | O => (Raise e, w'')
  | S _ => retry_while n (delay * backoff) backoff func w''
  end.
Proof.
  intros H. simpl. rewrite (try_except_raise _ _ _ H).
  unfold bind, sleep, emit. now destruct n.
Qed.

(** Three failed attempts of any operation: the third error is raised,
    after a sleep that follows each failure. *)
Lemma retry_three_failures (delay backoff : Q) (func : M A)
    (w w1 w2 w3 : world) (e1 e2 e3 : exn) :
  func w = (Raise e1, w1) ->
  func (slept delay w1) = (Raise e2, w2) ->
  func (slept (delay * backoff) w2) = (Raise e3, w3) ->
  retry 3 delay backoff func w
  = (Raise e3, slept (delay * backoff * backoff) w3).
Proof.
  intros H1 H2 H3. unfold retry. change (Z.to_nat 3) with 3%nat.
  rewrite (retry_while_raise 2 delay backoff _ _ H1). cbv zeta.
  fold (slept delay w1).
  rewrite (retry_while_raise 1 (delay * backoff) backoff _ _ H2). cbv zeta.
  fold (slept (delay * backoff) w2).
  rewrite (retry_while_raise 0 (delay * backoff * backoff) backoff _ _ H3).
  reflexivity.
Qed.

End RetryFacts.

Lemma invocations_app (t : list event) (d : database) (l : list event) :
  invocations {| trace := t ++ l; db := d |} =
  (invocations {| trace := t; db := d |} + List.length (filter is_invoke l))%nat.
Proof. unfold invocations. simpl. now rewrite filter_app, length_app. Qed.

(** C9. A retry-wrapped operation configured for 3 tries whose operation
    fails on every attempt invokes the operation exactly 3 times, sleeps
    after each failure for a delay that is multiplied by the backoff factor
    each time, and then raises the error of the last attempt. *)
Theorem retry_exhaustion_three_tries :
  forall (A : Type) (errors : nat -> exn) (delay backoff : Q) (w : world),
    let run := retry 3 delay backoff (failing_operation A errors) w in
    fst run = Raise (errors (invocations w + 2)%nat) /\
    invocations (snd run) = (invocations w + 3)%nat /\
    trace (snd run) =
      trace w ++ [EvInvoke; EvSleep delay;
                  EvInvoke; EvSleep (delay * backoff);
                  EvInvoke; EvSleep (delay * backoff * backoff)] /\
    db (snd run) = db w.
Proof.
  intros A errors delay backoff [t d]. cbv zeta.
  unfold retry. change (Z.to_nat 3) with 3%nat.
  unfold retry_while, try_except, bind, sleep, emit, raise, failing_operation.
  cbn [fst snd trace db].
  repeat rewrite <- app_assoc. cbn [app].
  repeat split.
  - do 2 f_equal. rewrite !invocations_app. simpl. lia.
  - rewrite invocations_app. simpl. lia.
Qed.

(** ** Partial dates *)

Section FormatDate.

Import Py OrcidClient.
Local Open Scope string_scope.

Lemma append_nonempty (a b : string) : a <> "" -> a ++ b <> "".
Proof. destruct a; [congruence | discriminate]. Qed.

Lemma str_of_int_nonempty (n : Z) : n <> 0%Z -> str_of_int n <> "".
Proof.
  intros Hn. unfold str_of_int. destruct n as [|p|p]; [congruence| |].
  - simpl. pose proof (Unsigned.to_uint_nonnil p) as Hp.
    destruct (Pos.to_uint p); [congruence | discriminate..].
  - simpl. discriminate.
Qed.

(** What is true in a condition never prints as the empty string. *)
Lemma format_scalar_nonempty (v : scalar) :
  truthy_scalar v = true -> format_scalar v <> "".
Proof.
  destruct v as [|b|n|s]; simpl; intros H.
  - discriminate.
  - destruct b; discriminate.
  - apply str_of_int_nonempty. intros ->. discriminate.
  - destruct s; [discriminate | discriminate].
Qed.

(** C8. The partial-date formatter gives "2020" for a year alone,
    "2020-5" for a year and a month, "2020-5-1" for all three, and [None]
    for an empty or null date object; its result is never the empty
    string; and for every date object, when the month is not there the
    result has no day in it: it is the year alone, or [None]. *)
Theorem format_date_partial_dates :
  _format_date (date_of (value_of 2020) Missing Missing) = Some "2020" /\
  _format_date (date_of (value_of 2020) (value_of 5) Missing)
    = Some "2020-5" /\
  _format_date (date_of (value_of 2020) (value_of 5) (value_of 1))
    = Some "2020-5-1" /\
  _format_date (date_of Missing Missing Missing) = None /\
  _format_date None = None /\
  (forall date_obj, _format_date date_obj <> Some "") /\
  (forall d,
      truthy_scalar (part_value (d_month d)) = false ->
      _format_date (Some d) = None \/
      _format_date (Some d) = Some (format_scalar (part_value (d_year d)))).
Proof.
  repeat split; try reflexivity.
  - intros [d|]; simpl; [|discriminate].
    destruct (empty_date d); [discriminate|].
    destruct (truthy_scalar (part_value (d_year d))) eqn:Hy; [|discriminate].
    pose proof (format_scalar_nonempty _ Hy) as Hne.
    destruct (truthy_scalar (part_value (d_month d)) &&
              truthy_scalar (part_value (d_day d)));
      [|destruct (truthy_scalar (part_value (d_month d)))];
      intros H; injection H as H; revert H;
      try (apply append_nonempty; exact Hne); exact Hne.
  - intros d Hm. simpl. rewrite Hm. simpl.
    destruct (empty_date d); [now left|].
    destruct (truthy_scalar (part_value (d_year d))); [now right | now left].
Qed.

Lemma format_date_witness :
  _format_date
    (Some {| d_year := value_of 2020; d_month := Missing;
             d_day := value_of 1 |}) = None \/
  _format_date
    (Some {| d_year := value_of 2020; d_month := Missing;
             d_day := value_of 1 |})
  = Some (format_scalar (part_value (value_of 2020))).
Proof.
  exact (proj2 (proj2 (proj2 (proj2 (proj2 (proj2
           format_date_partial_dates)))))
           {| d_year := value_of 2020; d_month := Missing;
              d_day := value_of 1 |} eq_refl).
Defined.

End FormatDate.

(** ** The mapping table *)

Section Mappings.

Import PermanentDatabase.
Local Open Scope string_scope.
Local Open Scope list_scope.

(** C2, as the code has it. Each write adds a row: after the mapping of
    record [X] to [C] is written with confidence [c1] and again with
    [c2], the query for [X] returns the rows it returned before followed
    by two new rows, the first with [c1] and the second with [c2]. *)
Theorem register_twice_appends_two_rows :
  forall (w : world) (dataset_id : Z) (X C : string) (c1 c2 : Q)
         (t1 t2 : Z),
    db_online (db w) = true ->
    let seq := orcid_mappings_seq (db w) in
    exists before,
      mappings_of dataset_id X C w = Return before /\
      mappings_of dataset_id X C
        (written_twice dataset_id X C c1 c2 t1 t2 w) =
      Return
        (before ++
         [ {| m_id := seq + 1; m_dataset_id := dataset_id;
              m_record_id := X; m_orcid := C;
              m_match_confidence := c1; m_match_date := t1 |};
           {| m_id := seq + 1 + 1; m_dataset_id := dataset_id;
              m_record_id := X; m_orcid := C;
              m_match_confidence := c2; m_match_date := t2 |} ]).
Proof.
  intros [t [online clock ds rows seq0]] dataset_id X C c1 c2 t1 t2 Hon.
  simpl in Hon. subst online. cbv zeta.
  exists (for_record X
            (filter (fun r => by_dataset dataset_id r && by_orcid C r) rows)).
  split; [reflexivity|].
  unfold mappings_of, written_twice, get_orcid_mappings,
    register_orcid_mapping, at_time, update_linked, insert_mapping.
  cbn [fst snd db trace db_online db_clock datasets orcid_mappings
       orcid_mappings_seq].
  f_equal. unfold for_record.
  rewrite <- app_assoc. cbn [app].
  rewrite !filter_app. f_equal.
  unfold by_dataset, by_orcid.
  cbn [filter m_dataset_id m_orcid m_record_id].
  rewrite Z.eqb_refl, !String.eqb_refl.
  cbn [andb filter m_record_id]. rewrite !String.eqb_refl. reflexivity.
Qed.

Lemma register_twice_witness :
  exists before,
    mappings_of 1 "17" "0000-0002-1825-0097" fresh_store = Return before /\
    mappings_of 1 "17" "0000-0002-1825-0097"
      (written_twice 1 "17" "0000-0002-1825-0097" 0.7 0.9 10 20
         fresh_store) =
    Return
      (before ++
       [ {| m_id := 0 + 1; m_dataset_id := 1; m_record_id := "17";
            m_orcid := "0000-0002-1825-0097";
            m_match_confidence := 0.7; m_match_date := 10 |};
         {| m_id := 0 + 1 + 1; m_dataset_id := 1; m_record_id := "17";
            m_orcid := "0000-0002-1825-0097";
            m_match_confidence := 0.9; m_match_date := 20 |} ]).
Proof.
  exact (@register_twice_appends_two_rows fresh_store 1 "17"
           "0000-0002-1825-0097" 0.7 0.9 10 20 eq_refl).
Defined.

(** C2, as the spec words it, fails: after the two writes the query for
    the record does not return exactly one row with the last confidence;
    it returns two rows, the older confidence first. *)
Lemma upsert_duplicates_counterexample :
  ~ (exists r, mappings_of 1 "17" "0000-0002-1825-0097" rematched_store
               = Return [r]
               /\ m_match_confidence r == 0.9) /\
  (exists r1 r2,
      mappings_of 1 "17" "0000-0002-1825-0097" rematched_store
      = Return [r1; r2] /\
      m_match_confidence r1 = 0.7 /\ m_match_confidence r2 = 0.9).
Proof.
  split.
  - intros [r [H _]]. vm_compute in H. discriminate H.
  - eexists. eexists. split; [vm_compute; reflexivity|]. split; reflexivity.
Qed.

End Mappings.

(** ** The registry client never raises and never writes *)

Section ClientFacts.

Import Py OrcidClient.

Lemma keeps_db_ret (A : Type) (a : A) : keeps_db (ret a).
Proof. intros w. reflexivity. Qed.

Lemma keeps_db_raise (A : Type) (e : exn) : keeps_db (@raise A e).
Proof. intros w. reflexivity. Qed.

Lemma keeps_db_lift (A : Type) (o : outcome A) : keeps_db (lift o).
Proof. intros w. reflexivity. Qed.

Lemma keeps_db_emit (e : event) : keeps_db (emit e).
Proof. intros w. reflexivity. Qed.

Lemma keeps_db_bind (A B : Type) (m : M A) (k : A -> M B) :
  keeps_db m -> (forall a, keeps_db (k a)) -> keeps_db (bind m k).
Proof.
  intros Hm Hk w. unfold bind. specialize (Hm w).
  destruct (m w) as [[a|e] w1]; simpl in *.
  - now rewrite Hk.
  - exact Hm.
Qed.

Lemma keeps_db_try_except (A : Type) (m : M A) (h : exn -> M A) :
  keeps_db m -> (forall e, keeps_db (h e)) -> keeps_db (try_except m h).
Proof.
  intros Hm Hh w. unfold try_except. specialize (Hm w).
  destruct (m w) as [[a|e] w1]; simpl in *.
  - exact Hm.
  - now rewrite Hh.
Qed.

Lemma keeps_db_requests_get (A : Type) (r : request)
    (answer : nat -> reply A) :
  keeps_db (requests_get r answer).
Proof.
  intros w. unfold requests_get.
  now destruct (answer (requests_made w)).
Qed.

Lemma keeps_db_raise_for_status (A : Type) (response : Z * A) :
  keeps_db (raise_for_status response).
Proof.
  intros w. unfold raise_for_status.
  now destruct (is_error (fst response)).
Qed.

Lemma keeps_db_response_json (A : Type) (response : Z * option (json A)) :
  keeps_db (response_json response).
Proof. intros w. unfold response_json. now destruct (snd response). Qed.

Lemma keeps_db_retry_while (A : Type) (n : nat) (delay backoff : Q)
    (func : M A) :
  keeps_db func -> keeps_db (retry_while n delay backoff func).
Proof.
  intros Hf. revert delay. induction n as [|n IH]; intros delay; simpl.
  - exact Hf.
  - apply keeps_db_try_except; [exact Hf|]. intros e.
    apply keeps_db_bind; [apply keeps_db_emit|]. intros _.
    destruct n; [apply keeps_db_raise | apply IH].
Qed.

Create HintDb keeps.

#[local] Hint Resolve keeps_db_ret keeps_db_raise keeps_db_lift keeps_db_emit
  keeps_db_requests_get keeps_db_raise_for_status keeps_db_response_json
  : keeps.

Lemma keeps_db_get_researcher_info (self : t) (orcid : string) (b : bool) :
  keeps_db (get_researcher_info self orcid b).
Proof.
  apply keeps_db_retry_while. unfold get_researcher_info_body.
  apply keeps_db_try_except; [|auto with keeps].
  destruct (debug_mode self); [auto with keeps|].
  apply keeps_db_bind; [apply keeps_db_emit|]. intros _.
  apply keeps_db_bind; [apply keeps_db_requests_get|]. intros response.
  apply keeps_db_bind; [apply keeps_db_raise_for_status|]. intros _.
  apply keeps_db_bind; [apply keeps_db_response_json|].
  intros [| |doc]; auto with keeps.
  apply keeps_db_bind; auto with keeps.
Qed.

Lemma keeps_db_search_loop (self : t) (max_results : Z) (hits : list hit) :
  forall results, keeps_db (search_loop self max_results hits results).
Proof.
  induction hits as [|h hits IH]; intros results; simpl.
  - auto with keeps.
  - apply keeps_db_bind; [auto with keeps|]. intros [oid|]; [|apply IH].
    destruct (negb (truthy oid)); [apply IH|].
    destruct (5 <? max_results)%Z; [apply IH|].
    apply keeps_db_bind; [apply keeps_db_get_researcher_info|].
    intros [info|]; apply IH.
Qed.

Lemma keeps_db_search_researchers (self : t) (query : string)
    (max_results : Z) :
  keeps_db (search_researchers self query max_results).
Proof.
  apply keeps_db_retry_while. unfold search_researchers_body.
  apply keeps_db_try_except; [|auto with keeps].
  destruct (debug_mode self); [auto with keeps|].
  apply keeps_db_bind; [apply keeps_db_emit|]. intros _.
  apply keeps_db_bind; [apply keeps_db_requests_get|]. intros response.
  apply keeps_db_bind; [apply keeps_db_raise_for_status|]. intros _.
  apply keeps_db_bind; [apply keeps_db_response_json|].
  intros [| |doc]; auto with keeps.
  destruct (sd_result doc); auto with keeps.
  apply keeps_db_search_loop.
Qed.

Lemma keeps_db_match_researcher (self : t) (name : string)
    (keywords : option (list string)) (institution : option string) :
  keeps_db (match_researcher self name keywords institution).
Proof.
  unfold match_researcher.
  apply keeps_db_try_except; [|auto with keeps].
  apply keeps_db_bind; [apply keeps_db_search_researchers|].
  intros [|r rs]; [auto with keeps|].
  apply keeps_db_bind.
  - destruct (1 <? List.length (r :: rs))%nat; [|auto with keeps].
    apply keeps_db_bind; auto with keeps.
  - intros [|first rest]; auto with keeps.
Qed.

(** The three public operations of the client end every exception in an
    empty result: none of them raises. *)

Lemma get_researcher_info_body_returns (self : t) (orcid : string)
    (b : bool) (w : world) :
  exists o w', get_researcher_info_body self orcid b w = (Return o, w').
Proof. apply try_except_total. Qed.

Lemma get_researcher_info_unfold (self : t) (orcid : string) (b : bool)
    (w : world) :
  get_researcher_info self orcid b w = get_researcher_info_body self orcid b w.
Proof.
  destruct (get_researcher_info_body_returns self orcid b w) as [o [w' H]].
  unfold get_researcher_info, retry_default.
  rewrite (retry_return 3 1 2 _ _ H). now rewrite H.
Qed.

Lemma search_researchers_body_returns (self : t) (query : string)
    (max_results : Z) (w : world) :
  exists rs w', search_researchers_body self query max_results w
                = (Return rs, w').
Proof. apply try_except_total. Qed.

(** The retry decorator around [search_researchers] never retries. *)
Lemma search_researchers_unfold (self : t) (query : string)
    (max_results : Z) (w : world) :
  search_researchers self query max_results w
  = search_researchers_body self query max_results w.
Proof.
  destruct (search_researchers_body_returns self query max_results w)
    as [rs [w' H]].
  unfold search_researchers, retry_default.
  rewrite (retry_return 3 1 2 _ _ H). now rewrite H.
Qed.

Lemma match_researcher_returns (self : t) (name : string)
    (keywords : option (list string)) (institution : option string)
    (w : world) :
  exists o w', match_researcher self name keywords institution w
               = (Return o, w').
Proof. apply try_except_total. Qed.

End ClientFacts.

(** ** What a search returns *)

Section SearchFacts.

Import Py OrcidClient.

Lemma requests_made_snoc_wait (w : world) (s : service) :
  requests_made {| trace := trace w ++ [EvRateWait s]; db := db w |}
  = requests_made w.
Proof.
  unfold requests_made. simpl. rewrite filter_app, length_app. simpl. lia.
Qed.

(** One fetch: the limiter, one request, and the decoded profile or
    [None]; never a second attempt. *)
Lemma get_researcher_info_run_as (self : t) (orcid : string) (b : bool)
    (w : world) :
  debug_mode self = false ->
  get_researcher_info self orcid b w =
  (Return (fetched_as b self (requests_made w) orcid),
   {| trace := trace w ++ [EvRateWait Orcid; EvRequest (OrcidRecord orcid)];
      db := db w |}).
Proof.
  intros Hd. rewrite get_researcher_info_unfold.
  unfold get_researcher_info_body, fetched_as. rewrite Hd.
  unfold try_except, bind, rate_limiter_wait, emit, requests_get.
  rewrite requests_made_snoc_wait. cbn [trace db].
  rewrite <- app_assoc. cbn [app].
  destruct (orcid_record (network_of self) (requests_made w) orcid)
    as [|status body]; [reflexivity|].
  unfold raise_for_status, response_json. cbn [fst snd].
  destruct (is_error status); [now destruct body as [[| |]|]|].
  destruct body as [[| |doc]|]; try reflexivity.
  unfold ret, lift, read_record, services_null. cbn beta iota.
  destruct b; cbn [andb]; [|reflexivity].
  destruct (rd_services doc); reflexivity.
Qed.

Lemma fetched_as_default (self : t) (i : nat) (orcid : string) :
  fetched_as false self i orcid = fetched self i orcid.
Proof.
  unfold fetched_as, fetched.
  destruct (orcid_record (network_of self) i orcid)
    as [|status [[| |doc]|]]; try reflexivity.
  cbn [andb]. now rewrite orb_false_r.
Qed.

Lemma get_researcher_info_run (self : t) (orcid : string) (w : world) :
  debug_mode self = false ->
  get_researcher_info self orcid false w =
  (Return (fetched self (requests_made w) orcid),
   {| trace := trace w ++ [EvRateWait Orcid; EvRequest (OrcidRecord orcid)];
      db := db w |}).
Proof.
  intros Hd. rewrite (get_researcher_info_run_as _ _ _ _ Hd).
  now rewrite fetched_as_default.
Qed.

Lemma get_researcher_info_debug (self : t) (orcid : string) (b : bool)
    (w : world) :
  debug_mode self = true ->
  get_researcher_info self orcid b w
  = (Return (Some (debug_profile orcid)), w).
Proof.
  intros Hd. rewrite get_researcher_info_unfold.
  unfold get_researcher_info_body. rewrite Hd. reflexivity.
Qed.

Lemma get_researcher_info_unscored (self : t) (orcid : string) (b : bool)
    (w w' : world) (r : researcher) :
  get_researcher_info self orcid b w = (Return (Some r), w') -> unscored r.
Proof.
  destruct (debug_mode self) eqn:Hd.
  - rewrite (get_researcher_info_debug _ _ _ _ Hd).
    intros H; injection H as <- _. reflexivity.
  - rewrite (get_researcher_info_run_as _ _ _ _ Hd). unfold fetched_as.
    intros H; injection H as H _. revert H.
    destruct (orcid_record _ _ _) as [|status [[| |doc]|]];
      try discriminate.
    destruct (is_error status || (b && services_null doc)); [discriminate|].
    intros H; injection H as <-. reflexivity.
Qed.

Lemma search_loop_unscored (self : t) (max_results : Z) (hits : list hit) :
  forall (results rs : list researcher) (w w' : world),
    Forall unscored results ->
    search_loop self max_results hits results w = (Return rs, w') ->
    Forall unscored rs.
Proof.
  induction hits as [|h hits IH]; intros results rs w w' Hres; simpl.
  - intros H; injection H as <- _. exact Hres.
  - unfold bind at 1, lift.
    destruct (hit_orcid_id h) as [[oid|]|e]; [| |discriminate].
    + destruct (negb (truthy oid)); [now apply IH|].
      destruct (5 <? max_results)%Z.
      * apply IH. apply Forall_app. split; [exact Hres|].
        constructor; [reflexivity | constructor].
      * unfold bind.
        destruct (get_researcher_info self oid false w)
          as [[[info|]|e] w1] eqn:Hg; [| |discriminate].
        -- apply IH. apply Forall_app. split; [exact Hres|].
           constructor; [|constructor].
           apply get_researcher_info_unscored in Hg. exact Hg.
        -- now apply IH.
    + now apply IH.
Qed.

(** No profile comes out of a search with a confidence on it. *)
Lemma search_researchers_unscored (self : t) (query : string)
    (max_results : Z) (w w' : world) (rs : list researcher) :
  search_researchers self query max_results w = (Return rs, w') ->
  Forall unscored rs.
Proof.
  rewrite search_researchers_unfold. unfold search_researchers_body.
  unfold try_except.
  destruct (debug_mode self).
  - intros H; injection H as <- _. constructor.
  - match goal with
    | |- context [match ?m w with _ => _ end] =>
        destruct (m w) as [[rs0|e] w0] eqn:Hrun
    end.
    2: { intros H; injection H as <- _. constructor. }
    intros H; injection H as <- <-. revert Hrun.
    unfold bind, rate_limiter_wait, emit, requests_get.
    destruct (orcid_search _ _ _ _) as [|status body]; [discriminate|].
    unfold raise_for_status. cbn [fst snd].
    destruct (is_error status); [discriminate|].
    unfold ret at 1. unfold response_json. cbn [snd].
    destruct body as [[| |doc]|]; try discriminate.
    + intros H; injection H as <- _. constructor.
    + unfold ret at 1. destruct (sd_result doc) as [| |hits].
      * intros H; injection H as <- _. constructor.
      * discriminate.
      * apply search_loop_unscored. constructor.
Qed.

End SearchFacts.

(** ** Scoring *)

Section Scoring.

Import Py OrcidClient.
Local Open Scope string_scope.

(** A loop that adds [weight] for each element passing a test. *)
Lemma fold_left_weight (X : Type) (p : X -> bool) (weight : Q)
    (l : list X) (c : Q) :
  fold_left (fun acc x => if p x then acc + weight else acc) l c
  == c + times weight (List.length (filter p l)).
Proof.
  revert c. induction l as [|x l IH]; intros c; simpl.
  - unfold times. simpl. ring.
  - rewrite IH. destruct (p x); simpl List.length.
    + unfold times. rewrite Nat2Z.inj_succ, <- Z.add_1_r, inject_Z_plus.
      ring.
    + reflexivity.
Qed.

Lemma score_name_adds (name : string) (candidate : researcher) (c c' : Q) :
  score_name name candidate c = Return c' ->
  c' == c + name_contribution name candidate.
Proof.
  unfold score_name, name_contribution, lower_py.
  destruct (dict_get (r_name candidate) "") as [n|]; [|discriminate].
  destruct (truthy (lower n) && contains (lower n) (lower name)).
  - destruct (String.eqb (lower name) (lower n));
      intros H; injection H as <-; ring.
  - intros H; injection H as <-; ring.
Qed.

Lemma score_keywords_adds (keywords : option (list string))
    (candidate : researcher) (c c' : Q) :
  score_keywords keywords candidate c = Return c' ->
  c' == c + times 0.1 (keyword_matches keywords candidate).
Proof.
  unfold score_keywords, keyword_matches.
  destruct keywords as [[|k ks]|]; destruct (r_keywords candidate) as [cks|];
    try (intros H; injection H as <-; unfold times; simpl; ring).
  - destruct (lower_all cks); intros H; injection H as <-;
      unfold times; simpl; ring.
  - destruct (lower_all cks) as [rk|e]; [|discriminate].
    intros H; injection H as <-.
    exact (fold_left_weight (fun x => mem (lower x) rk) 0.1 (k :: ks) c).
Qed.

(** The institution loop adds 0.2 for every matching part. *)
Lemma score_institution_adds (institution : option string)
    (candidate : researcher) (c c' : Q) :
  score_institution institution candidate c = Return c' ->
  c' == c + times 0.2 (institution_matches institution candidate).
Proof.
  unfold score_institution, institution_matches.
  destruct institution as [i|]; destruct (r_institution candidate) as [ci|];
    try (intros H; injection H as <-; unfold times; simpl; ring).
  destruct (truthy i).
  - destruct ci as [ci|]; [|discriminate].
    intros H; injection H as <-.
    apply (fold_left_weight (fun a => contains a (lower i))).
  - destruct ci; intros H; injection H as <-; unfold times; simpl; ring.
Qed.

(** *** Capping and rounding *)

Lemma min_compat (a b c : Q) : a == b -> min a c == min b c.
Proof.
  intros H. unfold min.
  destruct (Qle_bool a c) eqn:Ha; destruct (Qle_bool b c) eqn:Hb;
    try assumption; try reflexivity.
  - apply Qle_bool_iff in Ha. rewrite H in Ha. apply Qle_bool_iff in Ha.
    congruence.
  - apply Qle_bool_iff in Hb. rewrite <- H in Hb. apply Qle_bool_iff in Hb.
    congruence.
Qed.

Lemma round_half_even_compat (x y : Q) :
  x == y -> round_half_even x = round_half_even y.
Proof.
  intros H. unfold round_half_even.
  rewrite (Qfloor_comp _ _ H).
  assert (Hc : (x - inject_Z (Qfloor y) ?= 1 # 2)%Q
               = (y - inject_Z (Qfloor y) ?= 1 # 2)%Q).
  { apply Qcompare_comp; [now rewrite H | reflexivity]. }
  now rewrite Hc.
Qed.

Lemma round2_compat (x y : Q) : x == y -> round2 x == round2 y.
Proof.
  intros H. unfold round2.
  rewrite (round_half_even_compat (x := x * 100) (y := y * 100)).
  - reflexivity.
  - now rewrite H.
Qed.

Lemma min_bounds (c : Q) : 0 <= c -> 0 <= min c 1.0 /\ min c 1.0 <= 1.
Proof.
  intros Hc. unfold min. destruct (Qle_bool c 1.0) eqn:H.
  - apply Qle_bool_iff in H. split; [exact Hc|].
    now apply (Qle_trans _ _ _ H).
  - split; now compute.
Qed.

(** Rounding keeps a value of the unit interval inside it. *)
Lemma round2_bounds (x : Q) :
  0 <= x -> x <= 1 -> 0 <= round2 x /\ round2 x <= 1.
Proof.
  intros H0 H1.
  assert (Hlo : (0 <= Qfloor (x * 100))%Z).
  { change 0%Z with (Qfloor 0). apply Qfloor_resp_le.
    apply Qmult_le_0_compat; [exact H0 | now compute]. }
  assert (Hhi : (Qfloor (x * 100) <= 100)%Z).
  { rewrite <- (Qfloor_Z 100). apply Qfloor_resp_le.
    change (inject_Z 100) with (1 * 100).
    apply Qmult_le_compat_r; [exact H1 | now compute]. }
  assert (Hr : (0 <= round_half_even (x * 100) <= 100)%Z).
  { unfold round_half_even.
    destruct (Z.eq_dec (Qfloor (x * 100)) 100) as [E|NE].
    - assert (Hx : x * 100 == inject_Z 100).
      { apply Qle_antisym.
        - change (inject_Z 100) with (1 * 100).
          apply Qmult_le_compat_r; [exact H1 | now compute].
        - pose proof (Qfloor_le (x * 100)) as Hf.
          rewrite E in Hf. exact Hf. }
      rewrite E.
      assert (Hc : (x * 100 - inject_Z 100 ?= 1 # 2)%Q = Lt).
      { assert (Hz : x * 100 - inject_Z 100 == 0) by (rewrite Hx; ring).
        rewrite (Qcompare_comp _ _ Hz _ _ (Qeq_refl (1 # 2))). reflexivity. }
      rewrite Hc. lia.
    - destruct (x * 100 - inject_Z (Qfloor (x * 100)) ?= 1 # 2)%Q;
        [destruct (Z.even (Qfloor (x * 100)))| |]; lia. }
  unfold round2, Qle. simpl. lia.
Qed.

Lemma times_nonneg (weight : Q) (n : nat) : 0 <= weight -> 0 <= times weight n.
Proof.
  intros H. unfold times. apply Qmult_le_0_compat; [exact H|].
  change 0 with (inject_Z 0). rewrite <- Zle_Qle. lia.
Qed.

Lemma name_contribution_nonneg (name : string) (candidate : researcher) :
  0 <= name_contribution name candidate.
Proof.
  unfold name_contribution.
  destruct (dict_get (r_name candidate) "") as [n|]; [|now compute].
  destruct (truthy (lower n) && contains (lower n) (lower name));
    [destruct (String.eqb (lower name) (lower n))|]; now compute.
Qed.

Lemma total_contribution_nonneg (name : string)
    (keywords : option (list string)) (institution : option string)
    (candidate : researcher) :
  0 <= total_contribution name keywords institution candidate.
Proof.
  unfold total_contribution.
  pose proof (name_contribution_nonneg name candidate) as Hn.
  assert (Hk : 0 <= times 0.1 (keyword_matches keywords candidate))
    by (apply times_nonneg; now compute).
  assert (Hi : 0 <= times 0.2 (institution_matches institution candidate))
    by (apply times_nonneg; now compute).
  pose proof (Qplus_le_compat _ _ _ _ Hn Hk) as H1.
  pose proof (Qplus_le_compat _ _ _ _ H1 Hi) as H2.
  exact H2.
Qed.

(** *** The confidence of a scored candidate *)

Lemma score_sum (name : string) (keywords : option (list string))
    (institution : option string) (candidate : researcher) (c : Q) :
  score name keywords institution candidate = Return c ->
  exists sum,
    sum == total_contribution name keywords institution candidate /\
    c = round2 (min sum 1.0).
Proof.
  unfold score.
  destruct (score_name name candidate 0.0) as [c1|] eqn:H1; [|discriminate].
  destruct (score_keywords keywords candidate c1) as [c2|] eqn:H2;
    [|discriminate].
  destruct (score_institution institution candidate c2) as [c3|] eqn:H3;
    [|discriminate].
  intros H; injection H as <-. exists c3. split; [|reflexivity].
  apply score_name_adds in H1. apply score_keywords_adds in H2.
  apply score_institution_adds in H3.
  unfold total_contribution. rewrite H3, H2, H1. ring.
Qed.

Lemma lower_all_returns (ks : list pystr) :
  forallb (fun k => match k with Some _ => true | None => false end) ks = true ->
  exists l, lower_all ks = Return l.
Proof.
  induction ks as [|[k|] ks IH]; simpl; intros H.
  - now exists [].
  - destruct (IH H) as [l ->]. now eexists.
  - discriminate.
Qed.

(** A candidate whose fields are strings is given a confidence. *)
Lemma score_returns (name : string) (keywords : option (list string))
    (institution : option string) (candidate : researcher) :
  string_valued candidate = true ->
  exists c, score name keywords institution candidate = Return c.
Proof.
  unfold string_valued. intros H.
  apply andb_prop in H. destruct H as [H Hk].
  apply andb_prop in H. destruct H as [Hn Hi].
  unfold score.
  assert (H1 : exists c1, score_name name candidate 0.0 = Return c1).
  { unfold score_name, lower_py, dict_get.
    destruct (r_name candidate) as [[n|]|]; [|discriminate|];
      match goal with
      | |- context [if ?b then _ else _] => destruct b
      end;
      try match goal with
          | |- context [if ?b then _ else _] => destruct b
          end; now eexists. }
  destruct H1 as [c1 ->].
  assert (H2 : exists c2, score_keywords keywords candidate c1 = Return c2).
  { unfold score_keywords.
    destruct keywords as [[|k ks]|]; try now eexists.
    destruct (r_keywords candidate) as [cks|]; [|now eexists].
    destruct (lower_all_returns _ Hk) as [l ->]. now eexists. }
  destruct H2 as [c2 ->].
  assert (H3 : exists c3,
             score_institution institution candidate c2 = Return c3).
  { unfold score_institution.
    destruct institution as [i|]; [|now eexists].
    destruct (r_institution candidate) as [[ci|]|];
      [|discriminate|now eexists].
    destruct (truthy i); now eexists. }
  destruct H3 as [c3 ->]. now eexists.
Qed.

Lemma score_bounds (name : string) (keywords : option (list string))
    (institution : option string) (candidate : researcher) (c : Q) :
  score name keywords institution candidate = Return c -> 0 <= c /\ c <= 1.
Proof.
  intros H. destruct (score_sum _ _ _ _ H) as [sum [Hsum ->]].
  assert (H0 : 0 <= sum).
  { rewrite Hsum. apply total_contribution_nonneg. }
  destruct (min_bounds H0) as [Hlo Hhi].
  exact (round2_bounds Hlo Hhi).
Qed.

(** The loop over the candidates puts a confidence of the unit interval on
    each of them. *)
Lemma score_all_bounds (name : string) (keywords : option (list string))
    (institution : option string) (researchers scored : list researcher) :
  score_all name keywords institution researchers = Return scored ->
  Forall confidence_in_unit_interval scored.
Proof.
  revert scored. induction researchers as [|r rs IH]; intros scored; simpl.
  - intros H; injection H as <-. constructor.
  - destruct (score name keywords institution r) as [c|] eqn:Hc;
      [|discriminate].
    destruct (score_all name keywords institution rs) as [rest|];
      [|discriminate].
    intros H; injection H as <-. constructor; [|now apply IH].
    exists c. split; [reflexivity|]. exact (score_bounds _ _ _ _ Hc).
Qed.

Lemma insert_desc_In (x r : researcher) (l : list researcher) :
  In x (insert_desc r l) -> x = r \/ In x l.
Proof.
  induction l as [|y l IH]; simpl.
  - intros [<-|[]]. now left.
  - destruct (key_lt r y); simpl.
    + intros [<-|H]; [right; now left|].
      destruct (IH H) as [->|H']; [now left | right; now right].
    + intros [<-|[<-|H]]; [now left | right; now left | right; now right].
Qed.

(** Sorting brings in no candidate that was not there. *)
Lemma sort_desc_In (x : researcher) (l : list researcher) :
  In x (sort_desc l) -> In x l.
Proof.
  induction l as [|r l IH]; simpl; [tauto|].
  intros H. destruct (insert_desc_In _ _ _ H) as [->|H'];
    [now left | right; now apply IH].
Qed.

(** Whatever candidate the match operation returns carries a confidence of
    the unit interval. *)
Lemma match_researcher_bounds (self : t) (name : string)
    (keywords : option (list string)) (institution : option string)
    (w w' : world) (r : researcher) :
  match_researcher self name keywords institution w = (Return (Some r), w') ->
  confidence_in_unit_interval r.
Proof.
  unfold match_researcher, try_except, bind at 1.
  destruct (search_researchers self (build_query name keywords institution)
              5 w) as [[rs|e] w1] eqn:Hs.
  2: { unfold ret. intros H; discriminate H. }
  destruct rs as [|r0 rs]; [unfold ret; intros H; discriminate H|].
  unfold bind.
  destruct (1 <? List.length (r0 :: rs))%nat eqn:Hlen.
  - unfold lift.
    destruct (score_all name keywords institution (r0 :: rs))
      as [scored|e] eqn:Hsc; [|unfold ret; intros H; discriminate H].
    unfold ret at 1.
    pose proof (score_all_bounds _ _ _ _ Hsc) as Hall.
    destruct (sort_desc scored) as [|first rest] eqn:Hsort;
      [unfold raise, ret; intros H; discriminate H|].
    unfold ret. intros H; injection H as <- _.
    assert (Hin : In first scored).
    { apply sort_desc_In. rewrite Hsort. now left. }
    rewrite Forall_forall in Hall. specialize (Hall _ Hin).
    destruct Hall as [c [Hc Hb]].
    unfold default_confidence. rewrite Hc. exists c. now split.
  - unfold ret. intros H; injection H as <- _.
    unfold default_confidence.
    destruct (r_match_confidence r0) as [c|] eqn:Hc.
    + pose proof (search_researchers_unscored _ _ _ _ Hs) as Hu.
      inversion Hu as [|x l Hr _]; subst. unfold unscored in Hr. congruence.
    + exists 0.7. split; [reflexivity|]. split; now compute.
Qed.

(** What the loop has done to each candidate. *)
Lemma score_all_scored (name : string) (keywords : option (list string))
    (institution : option string) :
  forall researchers scored,
    score_all name keywords institution researchers = Return scored ->
    Forall2
      (fun candidate s =>
         exists c, score name keywords institution candidate = Return c /\
                   s = with_confidence c candidate)
      researchers scored.
Proof.
  induction researchers as [|r rs IH]; intros scored; simpl.
  - intros H; injection H as <-. constructor.
  - destruct (score name keywords institution r) as [c|] eqn:Hc;
      [|discriminate].
    destruct (score_all name keywords institution rs) as [rest|];
      [|discriminate].
    intros H; injection H as <-. constructor; [now exists c | now apply IH].
Qed.

Lemma Forall2_In_r (X Y : Type) (R : X -> Y -> Prop) (xs : list X)
    (ys : list Y) (y : Y) :
  Forall2 R xs ys -> In y ys -> exists x, In x xs /\ R x y.
Proof.
  induction 1 as [|x0 y0 xs ys HR _ IH]; [intros []|].
  intros [<-|Hin].
  - exists x0. split; [now left | exact HR].
  - destruct (IH Hin) as [x [Hx Hxy]]. exists x. split; [now right | exact Hxy].
Qed.

Lemma score_closed_form (name : string) (keywords : option (list string))
    (institution : option string) (candidate : researcher) (c : Q) :
  score name keywords institution candidate = Return c ->
  c == round2
         (min (total_contribution name keywords institution candidate) 1.0).
Proof.
  intros H. destruct (score_sum _ _ _ _ H) as [sum [Hsum ->]].
  apply round2_compat. now apply min_compat.
Qed.

(** C7. Every confidence assigned in the loop over several candidates is
    the sum of the contributions, none of them negative, capped at 1.0 and
    rounded to 2 decimal places, so it lies between 0 and 1.  The loop
    puts that value under ["match_confidence"] of every candidate and
    changes nothing else in the profile, and the candidate that the match
    operation returns from several is one of those, carrying the value
    computed for it; a candidate whose contributions sum to 1.3 (0.8 for
    the name, 0.3 for three keywords, 0.2 for the institution) gets 1; a
    candidate whose fields are strings does get a confidence. *)
Theorem confidence_capped_and_rounded :
  (forall (name : string) (keywords : option (list string))
          (institution : option string) (researchers scored : list researcher),
      score_all name keywords institution researchers = Return scored ->
      Forall2
        (fun candidate s =>
           same_profile candidate s /\
           exists c,
             r_match_confidence s = Some c /\
             c == round2
                    (min (total_contribution name keywords institution
                            candidate) 1.0) /\
             0 <= c /\ c <= 1)
        researchers scored) /\
  (forall (self : t) (name : string) (keywords : option (list string))
          (institution : option string) (w w' : world)
          (rs : list researcher) (r : researcher),
      search_researchers self (build_query name keywords institution) 5 w
      = (Return rs, w') ->
      (2 <= List.length rs)%nat ->
      match_researcher self name keywords institution w
      = (Return (Some r), w') ->
      exists candidate c,
        In candidate rs /\ same_profile candidate r /\
        r_match_confidence r = Some c /\
        c == round2
               (min (total_contribution name keywords institution candidate)
                  1.0) /\
        0 <= c /\ c <= 1) /\
  (forall (name : string) (keywords : option (list string))
          (institution : option string) (candidate : researcher),
      0 <= name_contribution name candidate /\
      0 <= times 0.1 (keyword_matches keywords candidate) /\
      0 <= times 0.2 (institution_matches institution candidate)) /\
  (forall (name : string) (keywords : option (list string))
          (institution : option string) (candidate : researcher) (c : Q),
      score name keywords institution candidate = Return c ->
      c == round2
             (min (total_contribution name keywords institution candidate)
                1.0) /\
      0 <= c /\ c <= 1) /\
  (exists s1 s2 c,
      score_all "John Smith" (Some ["physics"; "quantum"; "optics"])
        (Some "MIT") [full_match; twice_named] = Return [s1; s2] /\
      total_contribution "John Smith"
        (Some ["physics"; "quantum"; "optics"]) (Some "MIT")
        full_match == 1.3 /\
      r_match_confidence s1 = Some c /\ c == 1) /\
  (forall (name : string) (keywords : option (list string))
          (institution : option string) (candidate : researcher),
      string_valued candidate = true ->
      exists c, score name keywords institution candidate = Return c) /\
  (forall (self : t) (name : string) (keywords : option (list string))
          (institution : option string) (w w' : world) (r : researcher),
      match_researcher self name keywords institution w
      = (Return (Some r), w') ->
      confidence_in_unit_interval r).
Proof.
  assert (Hloop :
    forall (name : string) (keywords : option (list string))
           (institution : option string) (researchers scored : list researcher),
      score_all name keywords institution researchers = Return scored ->
      Forall2
        (fun candidate s =>
           same_profile candidate s /\
           exists c,
             r_match_confidence s = Some c /\
             c == round2
                    (min (total_contribution name keywords institution
                            candidate) 1.0) /\
             0 <= c /\ c <= 1)
        researchers scored).
  { intros name keywords institution researchers scored H.
    apply score_all_scored in H. revert H. apply Forall2_impl.
    intros candidate s Hs. cbv beta in Hs. destruct Hs as [c [Hc ->]].
    split; [now repeat split|].
    exists c. split; [reflexivity|].
    split; [exact (score_closed_form _ _ _ _ Hc)|].
    exact (score_bounds _ _ _ _ Hc). }
  split; [exact Hloop|]. split; [|split; [|split; [|split; [|split]]]].
  - intros self name keywords institution w w' rs r Hs Hlen.
    unfold match_researcher, try_except, bind. rewrite Hs.
    destruct rs as [|r0 [|r1 rs]]; [simpl in Hlen; lia | simpl in Hlen; lia|].
    cbn [List.length Nat.ltb Nat.leb]. unfold lift.
    destruct (score_all name keywords institution (r0 :: r1 :: rs))
      as [scored|e] eqn:Hsc; [|unfold ret; intros H; discriminate H].
    unfold ret at 1.
    destruct (sort_desc scored) as [|first rest] eqn:Hsort;
      [unfold raise, ret; intros H; discriminate H|].
    unfold ret. intros H; injection H as <-.
    assert (Hin : In first scored).
    { apply sort_desc_In. rewrite Hsort. now left. }
    destruct (@Forall2_In_r _ _ _ _ _ first (Hloop _ _ _ _ _ Hsc) Hin)
      as [candidate [Hcand [Hsame [c [Hc Hrest]]]]].
    exists candidate, c. unfold default_confidence. rewrite Hc.
    split; [exact Hcand|]. split; [exact Hsame|]. split; [exact Hc|].
    exact Hrest.
  - intros name keywords institution candidate.
    split; [apply name_contribution_nonneg|].
    split; apply times_nonneg; now compute.
  - intros name keywords institution candidate c H.
    split; [exact (score_closed_form _ _ _ _ H)|].
    exact (score_bounds _ _ _ _ H).
  - eexists. eexists. eexists.
    split; [vm_compute; reflexivity|]. split; [reflexivity|].
    split; reflexivity.
  - intros name keywords institution candidate.
    apply score_returns.
  - intros self name keywords institution w w' r.
    apply match_researcher_bounds.
Qed.

Lemma confidence_capped_and_rounded_witness :
  Forall2
    (fun candidate s =>
       same_profile candidate s /\
       exists c,
         r_match_confidence s = Some c /\
         c == round2
                (min (total_contribution "John Smith" (Some ["physics"])
                        (Some "MIT") candidate) 1.0) /\
         0 <= c /\ c <= 1)
    [full_match; twice_named]
    [with_confidence 1.00 full_match; with_confidence 0.40 twice_named] /\
  (exists candidate c,
      In candidate [jane; jane] /\
      same_profile candidate (with_confidence 0.80 jane) /\
      r_match_confidence (with_confidence 0.80 jane) = Some c /\
      c == round2 (min (total_contribution "Jane Doe" None None candidate)
                     1.0) /\
      0 <= c /\ c <= 1) /\
  (1.00 == round2
             (min (total_contribution "John Smith" (Some ["physics"])
                     (Some "MIT") full_match)
                1.0) /\
   0 <= 1.00 /\ 1.00 <= 1) /\
  (exists c,
      score "John Smith" (Some ["physics"]) (Some "MIT") full_match
      = Return c) /\
  confidence_in_unit_interval (with_confidence 0.7 jane).
Proof.
  split; [|split; [|split; [|split]]].
  - exact (proj1 confidence_capped_and_rounded "John Smith"
             (Some ["physics"]) (Some "MIT") [full_match; twice_named]
             [with_confidence 1.00 full_match; with_confidence 0.40 twice_named]
             eq_refl).
  - exact (proj1 (proj2 confidence_capped_and_rounded)
             (client_of (registry_with [jane_hit; jane_hit])) "Jane Doe"
             None None start _ [jane; jane] (with_confidence 0.80 jane)
             eq_refl (le_n 2) eq_refl).
  - exact (proj1 (proj2 (proj2 (proj2 confidence_capped_and_rounded)))
             "John Smith" (Some ["physics"]) (Some "MIT") full_match 1.00
             eq_refl).
  - exact (proj1 (proj2 (proj2 (proj2 (proj2 (proj2
             confidence_capped_and_rounded))))) "John Smith"
             (Some ["physics"]) (Some "MIT") full_match eq_refl).
  - exact (proj2 (proj2 (proj2 (proj2 (proj2 (proj2
             confidence_capped_and_rounded)))))
             (client_of (registry_with [jane_hit])) "Jane Doe" None None
             start _ (with_confidence 0.7 jane) eq_refl).
Defined.

(** *** The institution weight *)

(** C3, as the code has it. The institution loop adds 0.2 for every
    blank-separated part of the candidate's lower-cased institution that
    contains the lower-cased query institution: the contribution is 0.2
    times the number of such parts (before the cap), not a flat 0.2. *)
Theorem institution_weight_per_matching_part :
  forall (i ci : string) (candidate : researcher) (c : Q),
    truthy i = true ->
    r_institution candidate = Some (Some ci) ->
    exists c',
      score_institution (Some i) candidate c = Return c' /\
      c' == c + times 0.2
                  (List.length
                     (filter (fun part => contains part (lower i))
                        (map lower (split ci)))).
Proof.
  intros i ci candidate c Hi Hci.
  unfold score_institution. rewrite Hci, Hi.
  eexists. split; [reflexivity|].
  exact (fold_left_weight (fun part => contains part (lower i)) 0.2
           (map lower (split ci)) c).
Qed.

Lemma institution_weight_witness :
  exists c',
    score_institution (Some "MIT") twice_named 0 = Return c' /\
    c' == 0 + times 0.2
                (List.length
                   (filter (fun part => contains part (lower "MIT"))
                      (map lower (split "MIT Media Lab MIT")))).
Proof.
  exact (@institution_weight_per_matching_part "MIT" "MIT Media Lab MIT"
           twice_named 0 eq_refl eq_refl).
Defined.

(** C3, as the spec words it, fails: for a candidate two of whose
    institution parts contain the query institution the loop adds 0.4,
    and the candidate's confidence is 0.4. *)
Lemma institution_flat_weight_counterexample :
  (exists part, In part (map lower (split "MIT Media Lab MIT")) /\
                contains part (lower "MIT") = true) /\
  ~ (exists c', score_institution (Some "MIT") twice_named 0 = Return c' /\
                c' == 0 + 0.2) /\
  (exists c', score_institution (Some "MIT") twice_named 0 = Return c' /\
              c' == 0.4) /\
  (exists c, score "John Smith" None (Some "MIT") twice_named = Return c /\
             c == 0.4).
Proof.
  split; [|split; [|split]].
  - exists "mit". split; [left|]; reflexivity.
  - intros [c' [H Hc]]. vm_compute in H. injection H as <-.
    vm_compute in Hc. discriminate Hc.
  - eexists. split; [vm_compute; reflexivity|reflexivity].
  - eexists. split; [vm_compute; reflexivity|reflexivity].
Qed.

(** The same count on an institution with letters beyond ASCII and a
    no-break space between its parts. *)
Lemma institution_weight_examples :
  score_institution (Some "örebro") bjorn 0 = Return 0.2 /\
  score_institution (Some "mit")
    (profile "Jon Smith" ("MIT" ++ no_break_space ++ "MIT") []) 0
  = Return 0.40.
Proof. split; vm_compute; reflexivity. Qed.

End Scoring.

(** ** Matching *)

Section Matching.

Import Py OrcidClient.
Local Open Scope string_scope.

(** *** One candidate *)

(** C5. When the registry search yields exactly one candidate the match
    operation returns that candidate with confidence 0.7, whatever the
    candidate's name, keywords or institution: the profile returned has
    0.7 under ["match_confidence"] and every other key as the search gave
    it, and nothing happens after the search. *)
Theorem single_candidate_default_confidence :
  forall (self : t) (name : string) (keywords : option (list string))
         (institution : option string) (w w' : world) (r : researcher),
    search_researchers self (build_query name keywords institution) 5 w
    = (Return [r], w') ->
    match_researcher self name keywords institution w
    = (Return
         (Some {| r_orcid_id := r_orcid_id r;
                  r_orcid := r_orcid r;
                  r_name := r_name r;
                  r_display_name := r_display_name r;
                  r_given_name := r_given_name r;
                  r_family_name := r_family_name r;
                  r_institution := r_institution r;
                  r_keywords := r_keywords r;
                  r_match_confidence := Some 0.7 |}), w').
Proof.
  intros self name keywords institution w w' r H.
  pose proof (search_researchers_unscored _ _ _ _ H) as Hu.
  inversion Hu as [|x l Hr _]; subst.
  unfold match_researcher, try_except, bind. rewrite H.
  cbn [List.length Nat.ltb Nat.leb ret]. unfold default_confidence.
  unfold unscored in Hr. rewrite Hr. reflexivity.
Qed.

Lemma single_candidate_witness :
  match_researcher (client_of (registry_with [jane_hit])) "Jane Doe" None
    None start
  = (Return
       (Some {| r_orcid_id := r_orcid_id jane;
                r_orcid := r_orcid jane;
                r_name := r_name jane;
                r_display_name := r_display_name jane;
                r_given_name := r_given_name jane;
                r_family_name := r_family_name jane;
                r_institution := r_institution jane;
                r_keywords := r_keywords jane;
                r_match_confidence := Some 0.7 |}),
     {| trace := [EvRateWait Orcid;
                  EvRequest (OrcidSearch (build_query "Jane Doe" None None)
                               5);
                  EvRateWait Orcid; EvRequest (OrcidRecord jane_id)];
        db := empty_store |}).
Proof.
  exact (@single_candidate_default_confidence
           (client_of (registry_with [jane_hit])) "Jane Doe" None None
           start _ jane eq_refl).
Defined.

(** *** No candidate *)

(** C6. When the registry search yields no candidate the match operation
    returns [None], and the batch job writes nothing for the row: it ends
    in the world the search left, with the store as it was. *)
Theorem no_candidate_no_match_no_write :
  forall (client : t) (dataset_id : Z) (r : Main.row) (w w' : world),
    search_researchers client
      (build_query (Main.row_name r) (Main.row_keywords r)
         (Main.row_institution r)) 5 w
    = (Return [], w') ->
    match_researcher client (Main.row_name r) (Main.row_keywords r)
      (Main.row_institution r) w = (Return None, w') /\
    Main.match_row client dataset_id r w = (Return 0%nat, w') /\
    db w' = db w.
Proof.
  intros client dataset_id r w w' H.
  assert (Hm : match_researcher client (Main.row_name r)
                 (Main.row_keywords r) (Main.row_institution r) w
               = (Return None, w')).
  { unfold match_researcher, try_except, bind. now rewrite H. }
  split; [exact Hm|]. split.
  - unfold Main.match_row, bind. now rewrite Hm.
  - pose proof (keeps_db_search_researchers client
                  (build_query (Main.row_name r) (Main.row_keywords r)
                     (Main.row_institution r)) 5 w) as Hk.
    now rewrite H in Hk.
Qed.

Lemma no_candidate_witness :
  match_researcher (client_of (registry_with [])) "Jane Doe" None None start
  = (Return None, searched (build_query "Jane Doe" None None) 5 start) /\
  Main.match_row (client_of (registry_with [])) 1 sample_row start
  = (Return 0%nat, searched (build_query "Jane Doe" None None) 5 start) /\
  db (searched (build_query "Jane Doe" None None) 5 start) = db start.
Proof.
  exact (@no_candidate_no_match_no_write (client_of (registry_with [])) 1
           sample_row start _ eq_refl).
Defined.

End Matching.

(** ** Failures of the registry *)

Section Failures.

Import Py OrcidClient.
Local Open Scope string_scope.

(** A search whose request fails hard returns the empty list after that
    one request. *)
Lemma search_researchers_failure (self : t) (query : string)
    (max_results : Z) (w : world) :
  debug_mode self = false ->
  hard_failure
    (orcid_search (network_of self) (requests_made w) query max_results)
  = true ->
  search_researchers self query max_results w
  = (Return [], searched query max_results w).
Proof.
  intros Hd Hf. rewrite search_researchers_unfold.
  unfold search_researchers_body. rewrite Hd.
  unfold try_except, bind, rate_limiter_wait, emit, requests_get, searched.
  rewrite requests_made_snoc_wait. cbn [trace db].
  rewrite <- app_assoc. cbn [app].
  destruct (orcid_search _ _ _ _) as [|status body]; [reflexivity|].
  unfold raise_for_status, response_json. cbn [fst snd].
  simpl in Hf. destruct (is_error status); [reflexivity|].
  destruct body; [discriminate|reflexivity].
Qed.

(** A search whose request succeeds runs the loop over the hits. *)
Lemma search_researchers_hits (self : t) (query : string)
    (max_results : Z) (w : world) (status : Z) (hits : list hit) :
  debug_mode self = false ->
  orcid_search (network_of self) (requests_made w) query max_results
  = Response status (Some (JDoc {| sd_result := ResultList hits |})) ->
  is_error status = false ->
  search_researchers self query max_results w
  = try_except (search_loop self max_results hits []) (fun _ => ret [])
      (searched query max_results w).
Proof.
  intros Hd Hr He. rewrite search_researchers_unfold.
  unfold search_researchers_body. rewrite Hd.
  unfold try_except, bind, rate_limiter_wait, emit, requests_get, searched.
  rewrite requests_made_snoc_wait. cbn [trace db].
  rewrite <- app_assoc. cbn [app]. rewrite Hr.
  unfold raise_for_status, response_json. cbn [fst snd]. rewrite He.
  reflexivity.
Qed.

(** C1, what the code does where the claim has the failure propagate.
    When the search request fails hard, [search_researchers] catches the
    failure itself and returns the empty list after that single request:
    the retry decorator around it sees no exception and retries nothing
    (the publication search under the same decorator raises again and is
    retried).
    [match_researcher] then returns [None] in the same world: the value
    and the world it also gives when the registry answers with an empty
    hit list, so a caller cannot tell the two apart. *)
Theorem adapter_failure_masked_as_no_match :
  forall (self : t) (name : string) (keywords : option (list string))
         (institution : option string) (w : world),
    let query := build_query name keywords institution in
    debug_mode self = false ->
    hard_failure (orcid_search (network_of self) (requests_made w) query 5)
    = true ->
    search_researchers self query 5 w = (Return [], searched query 5 w) /\
    match_researcher self name keywords institution w
    = (Return None, searched query 5 w) /\
    (forall other : t,
        debug_mode other = false ->
        orcid_search (network_of other) (requests_made w) query 5
        = Response 200 (Some (JDoc {| sd_result := ResultList [] |})) ->
        match_researcher other name keywords institution w
        = match_researcher self name keywords institution w).
Proof.
  intros self name keywords institution w query Hd Hf.
  pose proof (@search_researchers_failure self query 5 w Hd Hf) as Hs.
  assert (Hm : match_researcher self name keywords institution w
               = (Return None, searched query 5 w)).
  { unfold match_researcher, try_except, bind. fold query. now rewrite Hs. }
  split; [exact Hs|]. split; [exact Hm|].
  intros other Hod Hor. rewrite Hm.
  unfold match_researcher, try_except, bind. fold query.
  rewrite (@search_researchers_hits other query 5 w 200 [] Hod Hor eq_refl).
  reflexivity.
Qed.

Lemma adapter_failure_witness :
  search_researchers (client_of unreachable)
    (build_query "Jane Doe" None None) 5 start
  = (Return [], searched (build_query "Jane Doe" None None) 5 start) /\
  match_researcher (client_of unreachable) "Jane Doe" None None start
  = (Return None, searched (build_query "Jane Doe" None None) 5 start) /\
  (forall other : t,
      debug_mode other = false ->
      orcid_search (network_of other) (requests_made start)
        (build_query "Jane Doe" None None) 5
      = Response 200 (Some (JDoc {| sd_result := ResultList [] |})) ->
      match_researcher other "Jane Doe" None None start
      = match_researcher (client_of unreachable) "Jane Doe" None None start).
Proof.
  exact (@adapter_failure_masked_as_no_match (client_of unreachable)
           "Jane Doe" None None start eq_refl eq_refl).
Defined.

(** C1 at a registry that cannot be reached: the match operation does
    not raise; it returns [None] after a single request. *)
Lemma adapter_failure_counterexample :
  hard_failure
    (orcid_search unreachable 0 (build_query "Jane Doe" None None) 5)
  = true /\
  ~ (exists e,
        fst (match_researcher (client_of unreachable) "Jane Doe" None None
               start) = Raise e) /\
  match_researcher (client_of unreachable) "Jane Doe" None None start
  = (Return None, searched (build_query "Jane Doe" None None) 5 start).
Proof.
  split; [reflexivity|]. split.
  - intros [e H]. vm_compute in H. discriminate H.
  - vm_compute. reflexivity.
Qed.

End Failures.

(** ** Stubs or full profiles *)

Section Enrichment.

Import Py OrcidClient.
Local Open Scope string_scope.

Lemma hit_orcid_id_usable (h : hit) :
  h_orcid_identifier h <> OidNull ->
  exists v, hit_orcid_id h = Return v /\
            usable_id h = match v with
                          | Some oid => if truthy oid then Some oid else None
                          | None => None
                          end.
Proof.
  unfold hit_orcid_id, usable_id.
  destruct (h_orcid_identifier h) as [| |path]; intros H.
  - now exists None.
  - congruence.
  - exists path. split; [reflexivity|]. now destruct path.
Qed.

Lemma requests_made_fetch (w : world) (oid : string) :
  requests_made
    {| trace := trace w ++ [EvRateWait Orcid; EvRequest (OrcidRecord oid)];
       db := db w |}
  = S (requests_made w).
Proof.
  unfold requests_made. simpl. rewrite filter_app, length_app. simpl. lia.
Qed.

(** Above the threshold the loop makes a stub of every usable hit and
    touches nothing. *)
Lemma search_loop_stubs (self : t) (max_results : Z) (hits : list hit) :
  (5 < max_results)%Z ->
  well_formed hits ->
  forall (results : list researcher) (w : world),
    search_loop self max_results hits results w
    = (Return (results ++ stubs_of hits)%list, w).
Proof.
  intros Hmax. apply Z.ltb_lt in Hmax.
  induction hits as [|h hits IH]; intros Hwf results w.
  - simpl. now rewrite app_nil_r.
  - inversion Hwf as [|x l Hh Hrest]; subst.
    destruct (@hit_orcid_id_usable h Hh) as [v [Hv Hu]].
    cbn [search_loop stubs_of]. unfold bind at 1, lift. rewrite Hv, Hu.
    destruct v as [oid|]; [|now apply IH].
    destruct (truthy oid); cbn [negb]; [|now apply IH].
    rewrite Hmax. rewrite (IH Hrest). now rewrite <- app_assoc.
Qed.

(** At or below the threshold the loop fetches every usable hit once, in
    order. *)
Lemma search_loop_fetches (self : t) (max_results : Z) (hits : list hit) :
  debug_mode self = false ->
  (max_results <= 5)%Z ->
  well_formed hits ->
  forall (results : list researcher) (w : world),
    search_loop self max_results hits results w
    = (Return (results ++ fetch_all self (requests_made w) (hit_ids hits))%list,
       {| trace := (trace w ++ fetch_events (hit_ids hits))%list;
          db := db w |}).
Proof.
  intros Hd Hmax. apply Z.ltb_ge in Hmax.
  induction hits as [|h hits IH]; intros Hwf results w.
  - simpl. rewrite !app_nil_r. now destruct w.
  - inversion Hwf as [|x l Hh Hrest]; subst.
    destruct (@hit_orcid_id_usable h Hh) as [v [Hv Hu]].
    cbn [search_loop hit_ids]. unfold bind at 1, lift. rewrite Hv, Hu.
    destruct v as [oid|]; [|now apply IH].
    destruct (truthy oid); cbn [negb]; [|now apply IH].
    rewrite Hmax. unfold bind.
    rewrite (@get_researcher_info_run self oid _ Hd).
    cbn [fetch_all fetch_events].
    destruct (fetched self (requests_made w) oid) as [info|];
      rewrite (IH Hrest); rewrite requests_made_fetch;
      cbn [trace db]; now rewrite <- !app_assoc.
Qed.

Lemma requests_made_searched (query : string) (max_results : Z)
    (w : world) :
  requests_made (searched query max_results w) = S (requests_made w).
Proof.
  unfold requests_made, searched. simpl.
  rewrite filter_app, length_app. simpl. lia.
Qed.

(** The stub the loop makes of a hit is its summary. *)
Lemma stub_summarises (oid : string) (h : hit) : summarises (stub oid h) oid h.
Proof.
  unfold summarises, stub, display_name_of, institution_of, dict_get.
  cbn [r_orcid_id r_orcid r_name r_display_name r_institution r_keywords
       r_match_confidence r_given_name r_family_name].
  repeat split.
  - destruct (h_affiliation_name h) as [[|c a]|]; reflexivity.
  - destruct (h_display_name h) as [[[|c dn]|]|]; cbn [truthy option_map];
      try (split; reflexivity).
    destruct (split (String c dn)) as [|given [|family more]];
      cbn [option_map fst snd]; split; reflexivity.
Qed.

Lemma stubs_of_summarise (hits : list hit) :
  Forall2 (fun p r => summarises r (fst p) (snd p)) (identified_hits hits)
    (stubs_of hits).
Proof.
  induction hits as [|h hits IH]; cbn [identified_hits stubs_of];
    [constructor|].
  destruct (usable_id h) as [oid|]; [|exact IH].
  constructor; [apply stub_summarises | exact IH].
Qed.

(** Every fetched profile carries the identifier of its hit under both
    keys. *)
Lemma fetch_all_identified (self : t) (ids : list string) :
  forall i,
    Forall (fun r => exists oid, In oid ids /\ r_orcid_id r = Some oid /\
                                 r_orcid r = Some oid)
      (fetch_all self i ids).
Proof.
  induction ids as [|oid ids IH]; intros i; cbn [fetch_all]; [constructor|].
  assert (Hrest : Forall (fun r => exists o, In o (oid :: ids) /\
                                    r_orcid_id r = Some o /\
                                    r_orcid r = Some o)
                    (fetch_all self (S i) ids)).
  { eapply Forall_impl; [|apply IH]. intros r [o [Hin Ho]].
    exists o. split; [now right | exact Ho]. }
  destruct (fetched self i oid) as [info|]; [|exact Hrest].
  constructor; [|exact Hrest].
  exists oid. split; [now left | now split].
Qed.

(** C4, as the code has it. The choice between stubs and full profiles
    is made on the [max_results] the caller asked for, not on the number
    of hits that came back. With [max_results] above 5 the search
    returns, for every hit that has an identifier and in their order, the
    summary of the hit (identifier, display name, institution, and the
    name parts split from the display name), and makes no request besides
    the search itself; with [max_results] at most 5 it fetches every such
    hit once, in order, and returns the profiles of the fetches that
    succeeded, each under the identifier of its hit. *)
Theorem search_branches_on_max_results :
  forall (self : t) (query : string) (max_results : Z) (w : world)
         (status : Z) (hits : list hit),
    debug_mode self = false ->
    orcid_search (network_of self) (requests_made w) query max_results
    = Response status (Some (JDoc {| sd_result := ResultList hits |})) ->
    is_error status = false ->
    well_formed hits ->
    let run := search_researchers self query max_results w in
    let after_search := searched query max_results w in
    ((5 < max_results)%Z ->
     exists stubs,
       run = (Return stubs, after_search) /\
       Forall2 (fun p r => summarises r (fst p) (snd p))
         (identified_hits hits) stubs /\
       record_requests (trace (snd run)) = record_requests (trace w)) /\
    ((max_results <= 5)%Z ->
     run = (Return (fetch_all self (S (requests_made w)) (hit_ids hits)),
            {| trace := (trace after_search
                         ++ fetch_events (hit_ids hits))%list;
               db := db w |}) /\
     record_requests (fetch_events (hit_ids hits)) = hit_ids hits /\
     Forall (fun r => exists oid, In oid (hit_ids hits) /\
                                  r_orcid_id r = Some oid /\
                                  r_orcid r = Some oid)
       (fetch_all self (S (requests_made w)) (hit_ids hits))).
Proof.
  intros self query max_results w status hits Hd Hr He Hwf run after_search.
  subst run after_search.
  rewrite (@search_researchers_hits self query max_results w status hits Hd Hr He).
  unfold try_except. split; intros Hmax.
  - rewrite (@search_loop_stubs self max_results hits Hmax Hwf). cbn [app fst snd].
    exists (stubs_of hits).
    split; [reflexivity|]. split; [apply stubs_of_summarise|].
    unfold searched. cbn [trace].
    induction (trace w) as [|e tr IH]; [reflexivity|].
    destruct e as [| |[]|]; cbn [app record_requests]; now rewrite ?IH.
  - rewrite (@search_loop_fetches self max_results hits Hd Hmax Hwf).
    rewrite requests_made_searched. cbn [app]. split; [reflexivity|].
    split; [|apply fetch_all_identified].
    induction (hit_ids hits) as [|oid ids IH]; [reflexivity|].
    cbn [fetch_events record_requests]. now rewrite IH.
Qed.

Lemma search_branches_witness :
  (exists stubs,
      search_researchers (client_of (registry_with [jane_summary]))
        "Jane Doe" 10 start
      = (Return stubs, searched "Jane Doe" 10 start) /\
      Forall2 (fun p r => summarises r (fst p) (snd p))
        (identified_hits [jane_summary]) stubs /\
      record_requests
        (trace (snd (search_researchers
                       (client_of (registry_with [jane_summary]))
                       "Jane Doe" 10 start)))
      = record_requests (trace start)) /\
  (search_researchers (client_of (registry_with [jane_hit])) "Jane Doe" 5
     start
   = (Return (fetch_all (client_of (registry_with [jane_hit]))
                (S (requests_made start)) (hit_ids [jane_hit])),
      {| trace := (trace (searched "Jane Doe" 5 start)
                   ++ fetch_events (hit_ids [jane_hit]))%list;
         db := db start |}) /\
   record_requests (fetch_events (hit_ids [jane_hit]))
   = hit_ids [jane_hit] /\
   Forall (fun r => exists oid, In oid (hit_ids [jane_hit]) /\
                                r_orcid_id r = Some oid /\
                                r_orcid r = Some oid)
     (fetch_all (client_of (registry_with [jane_hit]))
        (S (requests_made start)) (hit_ids [jane_hit]))).
Proof.
  split.
  - apply (@search_branches_on_max_results
             (client_of (registry_with [jane_summary])) "Jane Doe" 10 start
             200 [jane_summary]); try reflexivity.
    repeat constructor. discriminate.
  - apply (@search_branches_on_max_results
             (client_of (registry_with [jane_hit])) "Jane Doe" 5 start 200
             [jane_hit]); try reflexivity; try discriminate.
    repeat constructor. discriminate.
Defined.

(** C4, as the spec words it, fails. A result set of one hit, which is
    not larger than 5, asked for with [max_results = 10], comes back as a
    summary: no profile is fetched for it, although the hit has an
    identifier to fetch. *)
Lemma threshold_on_hits_counterexample :
  fst one_hit_of_ten
  = Return [ {| r_orcid_id := Some jane_id;
                r_orcid := Some jane_id;
                r_name := Some (Some "");
                r_display_name := Some (Some "");
                r_given_name := None;
                r_family_name := None;
                r_institution := Some (Some "");
                r_keywords := None;
                r_match_confidence := None |} ] /\
  hit_ids [jane_hit] = [jane_id] /\
  record_requests (trace (snd one_hit_of_ten)) = [] /\
  record_requests (trace (snd one_hit_of_ten)) <> hit_ids [jane_hit].
Proof.
  split; [vm_compute; reflexivity|].
  split; [reflexivity|].
  split; [vm_compute; reflexivity|]. vm_compute. discriminate.
Qed.

End Enrichment.

(** ** Author lists *)

Section Authors.

Import Py PubMedCollector.
Local Open Scope string_scope.

(** What holds of every result of a retried operation once it holds of
    every result of the operation. *)
Lemma retry_while_result (A : Type) (P : A -> Prop) (func : M A) :
  (forall w a w', func w = (Return a, w') -> P a) ->
  forall (n : nat) (delay backoff : Q) (w w' : world) (a : A),
    retry_while n delay backoff func w = (Return a, w') -> P a.
Proof.
  intros Hf. induction n as [|n IH]; intros delay backoff w w' a; simpl.
  - apply Hf.
  - unfold try_except. destruct (func w) as [[a0|e] w0] eqn:Hrun.
    + intros H; injection H as <- _. exact (Hf _ _ _ Hrun).
    + unfold bind, sleep, emit. destruct n; [discriminate|]. apply IH.
Qed.

(** The articles of a search are the readings of the [PubmedArticle]
    elements of one answer of the source, or there are none. *)
Lemma search_articles_parsed (net : network) (query : string)
    (max_results : Z) (w w' : world) (articles : list article) :
  search_articles net query max_results w = (Return articles, w') ->
  articles = [] \/
  exists i ids status elements,
    efetch net i ids = Response status elements /\
    articles = map parse_article elements.
Proof.
  unfold search_articles, retry_default, retry.
  apply (@retry_while_result _
           (fun found =>
              found = [] \/
              exists i ids status elements,
                efetch net i ids = Response status elements /\
                found = map parse_article elements)).
  clear. intros w articles w'.
  unfold search_articles_body, try_except, bind, rate_limiter_wait, emit,
    requests_get, raise_for_status, response_json, ret, raise.
  cbn [fst snd trace db].
  match goal with
  | |- context [esearch net ?k query max_results] =>
      destruct (esearch net k query max_results) as [|status body]
  end; [discriminate|].
  cbn [fst snd]. destruct (is_error status); [discriminate|].
  destruct body as [[| |ids]|]; try discriminate.
  - intros H; injection H as <- _. now left.
  - destruct ids as [|i ids].
    + intros H; injection H as <- _. now left.
    + cbn [fst snd trace db].
      match goal with
      | |- context [efetch net ?k (i :: ids)] =>
          destruct (efetch net k (i :: ids)) as [|status2 elements] eqn:Hf;
          [discriminate|];
          cbn [fst snd]; destruct (is_error status2); [discriminate|];
          intros H; injection H as <- _; right;
          now exists k, (i :: ids), status2, elements
      end.
Qed.

Lemma authors_of_family_first (author_list : list author_el) :
  authors_of author_list = flat_map family_first author_list.
Proof.
  induction author_list as [|a l IH]; [reflexivity|].
  cbn [authors_of flat_map]. rewrite IH. unfold author_name, family_first.
  destruct (LastName a), (ForeName a); reflexivity.
Qed.

(** C10, as the code has it. In every publication-search result each
    author is the family name followed by the given name, joined by one
    blank (the part that is there, when only one is; an author with
    neither is left out), and [to_dataframe] joins the entries by a comma
    and a blank into the single string field.  This holds of the reading
    of every [PubmedArticle] element, and the articles of a search are the
    readings of the elements the source answered with. *)
Theorem authors_family_name_first :
  (forall x : pubmed_article,
      a_authors (parse_article x)
      = Some (flat_map family_first (author_elements x)) /\
      a_authors_str (flatten_authors (parse_article x))
      = Some (join ", " (flat_map family_first (author_elements x)))) /\
  (forall (family given : string) (rest : list author_el),
      authors_of ({| LastName := Some family; ForeName := Some given |}
                  :: rest)
      = (family ++ " " ++ given) :: authors_of rest) /\
  (forall (net : network) (query : string) (max_results : Z)
          (w w' : world) (articles : list article),
      search_articles net query max_results w = (Return articles, w') ->
      articles = [] \/
      exists i ids status elements,
        efetch net i ids = Response status elements /\
        articles = map parse_article elements /\
        map a_authors articles
        = map (fun x => Some (flat_map family_first (author_elements x)))
            elements /\
        map a_authors_str (to_dataframe articles)
        = map (fun x =>
                 Some (join ", "
                         (flat_map family_first (author_elements x))))
            elements).
Proof.
  assert (Hone : forall x : pubmed_article,
      a_authors (parse_article x)
      = Some (flat_map family_first (author_elements x)) /\
      a_authors_str (flatten_authors (parse_article x))
      = Some (join ", " (flat_map family_first (author_elements x)))).
  { intros x. unfold flatten_authors, author_elements.
    cbn [parse_article a_authors a_authors_str].
    destruct (AuthorList x); [|now split].
    now rewrite authors_of_family_first. }
  split; [exact Hone|]. split; [reflexivity|].
  intros net query max_results w w' articles H.
  destruct (search_articles_parsed _ _ _ _ H)
    as [->|[i [ids [status [elements [Hf ->]]]]]]; [now left|].
  right. exists i, ids, status, elements. split; [exact Hf|].
  split; [reflexivity|].
  unfold to_dataframe. rewrite !map_map.
  split; apply map_ext; intros x; apply Hone.
Qed.

Lemma authors_family_name_first_witness :
  [parse_article one_author_paper] = [] \/
  exists i ids status elements,
    efetch one_paper i ids = Response status elements /\
    [parse_article one_author_paper] = map parse_article elements /\
    map a_authors [parse_article one_author_paper]
    = map (fun x => Some (flat_map family_first (author_elements x)))
        elements /\
    map a_authors_str (to_dataframe [parse_article one_author_paper])
    = map (fun x =>
             Some (join ", " (flat_map family_first (author_elements x))))
        elements.
Proof.
  exact (proj2 (proj2 authors_family_name_first) one_paper "tests" 10%Z
           start _ [parse_article one_author_paper] eq_refl).
Defined.

(** C10, as the spec words it, fails on the order of the two names: the
    author John Smith of a search result is "Smith John", not "John
    Smith". *)
Lemma given_name_first_counterexample :
  fst (search_articles one_paper "tests" 10 start)
  = Return [parse_article one_author_paper] /\
  a_authors (parse_article one_author_paper) = Some ["Smith John"] /\
  a_authors (parse_article one_author_paper) <> Some ["John Smith"] /\
  a_authors_str (flatten_authors (parse_article one_author_paper))
  = Some "Smith John".
Proof.
  split; [vm_compute; reflexivity|].
  split; [reflexivity|]. split; [discriminate|reflexivity].
Qed.

End Authors.

(** ** More on the retry decorator *)

Section RetryScripts.

Variable A : Type.

Lemma invocations_snoc_invoke (w : world) :
  invocations {| trace := trace w ++ [EvInvoke]; db := db w |}
  = S (invocations w).
Proof.
  unfold invocations. simpl. rewrite filter_app, length_app. simpl. lia.
Qed.

Lemma invocations_snoc_sleep (w : world) (d : Q) :
  invocations {| trace := trace w ++ [EvSleep d]; db := db w |}
  = invocations w.
Proof.
  unfold invocations. simpl. rewrite filter_app, length_app. simpl. lia.
Qed.

(** One failed attempt of a scripted operation. *)
Lemma scripted_attempt_fails (script : nat -> outcome A) (n : nat)
    (delay backoff : Q) (w : world) (e : exn) :
  script (invocations w) = Raise e ->
  retry_while (S n) delay backoff (scripted_operation script) w =
  let w' := {| trace := trace w ++ [EvInvoke; EvSleep delay]; db := db w |} in
  match n with
  | O => (Raise e, w')
  | S _ => retry_while n (delay * backoff) backoff
             (scripted_operation script) w'
  end.
Proof.
  intros H.
  rewrite (@retry_while_raise A n delay backoff (scripted_operation script) w
             {| trace := trace w ++ [EvInvoke]; db := db w |} e).
  - cbv zeta. cbn [trace db]. now rewrite <- app_assoc.
  - unfold scripted_operation. now rewrite H.
Qed.

Lemma invocations_after_attempt (w : world) (d : Q) :
  invocations {| trace := trace w ++ [EvInvoke; EvSleep d]; db := db w |}
  = S (invocations w).
Proof.
  unfold invocations. simpl. rewrite filter_app, length_app. simpl. lia.
Qed.

(** The loop of the decorator on a script whose first [k] invocations
    raise, with tries to spare: [k] failed attempts, then the answer of
    invocation [k]. *)
Lemma retry_while_script (script : nat -> outcome A) (k : nat) :
  forall (n : nat) (delay backoff : Q) (w : world) (a : A),
    (k < n)%nat ->
    (forall i, (i < k)%nat ->
               exists e, script (invocations w + i)%nat = Raise e) ->
    script (invocations w + k)%nat = Return a ->
    retry_while n delay backoff (scripted_operation script) w
    = (Return a,
       {| trace := trace w ++ failed_attempts k delay backoff ++ [EvInvoke];
          db := db w |}).
Proof.
  induction k as [|k IH]; intros n delay backoff w a Hkn Hfail Hret.
  - rewrite Nat.add_0_r in Hret. cbn [failed_attempts app].
    apply retry_while_return. unfold scripted_operation. now rewrite Hret.
  - destruct n as [|[|n]]; [lia | lia |].
    destruct (Hfail 0%nat ltac:(lia)) as [e He].
    rewrite Nat.add_0_r in He.
    rewrite (scripted_attempt_fails script (S n) delay backoff w He).
    cbv zeta.
    rewrite (IH (S n) (delay * backoff) backoff _ a).
    + cbn [trace db failed_attempts]. rewrite <- app_assoc. reflexivity.
    + lia.
    + intros i Hi. rewrite invocations_after_attempt.
      destruct (Hfail (S i) ltac:(lia)) as [e' He'].
      exists e'. rewrite <- He'. f_equal. lia.
    + rewrite invocations_after_attempt. rewrite <- Hret. f_equal. lia.
Qed.

(** The loop of the decorator on a script all of whose invocations raise:
    as many failed attempts as there are tries, then the last error. *)
Lemma retry_while_exhausted (script : nat -> outcome A) (n : nat) :
  forall (delay backoff : Q) (w : world),
    (forall i, (i <= n)%nat ->
               exists e, script (invocations w + i)%nat = Raise e) ->
    retry_while (S n) delay backoff (scripted_operation script) w
    = (script (invocations w + n)%nat,
       {| trace := trace w ++ failed_attempts (S n) delay backoff;
          db := db w |}).
Proof.
  induction n as [|n IH]; intros delay backoff w Hfail.
  - destruct (Hfail 0%nat ltac:(lia)) as [e He].
    rewrite He. rewrite Nat.add_0_r in He.
    now rewrite (scripted_attempt_fails script 0 delay backoff w He).
  - destruct (Hfail 0%nat ltac:(lia)) as [e He].
    rewrite Nat.add_0_r in He.
    rewrite (scripted_attempt_fails script (S n) delay backoff w He).
    cbv zeta. rewrite IH.
    + rewrite invocations_after_attempt. cbn [trace db].
      f_equal; [f_equal; lia|].
      cbn [failed_attempts]. now rewrite <- app_assoc.
    + intros i Hi. rewrite invocations_after_attempt.
      destruct (Hfail (S i) ltac:(lia)) as [e' He'].
      exists e'. rewrite <- He'. f_equal. lia.
Qed.

Lemma invocations_failed_attempts (n : nat) :
  forall (delay backoff : Q),
    List.length (filter is_invoke (failed_attempts n delay backoff)) = n.
Proof.
  induction n as [|n IH]; intros delay backoff; [reflexivity|].
  cbn [failed_attempts filter is_invoke List.length]. now rewrite IH.
Qed.

(** X1. For every positive number of tries, a retry-wrapped operation that
    fails on every attempt is invoked exactly that many times, each failure
    is followed by a sleep that is [backoff] times the one before, and the
    error of the last attempt is raised. *)
Theorem retry_exhaustion_any_tries :
  forall (errors : nat -> exn) (tries : Z) (delay backoff : Q) (w : world),
    (0 < tries)%Z ->
    let n := Z.to_nat tries in
    let run := retry tries delay backoff (failing_operation A errors) w in
    fst run = Raise (errors (invocations w + (n - 1))%nat) /\
    trace (snd run) = trace w ++ failed_attempts n delay backoff /\
    invocations (snd run) = (invocations w + n)%nat /\
    db (snd run) = db w.
Proof.
  intros errors tries delay backoff w Htries n run. subst run. unfold retry.
  fold n. assert (Hn : (0 < n)%nat) by (subst n; lia).
  destruct n as [|m] eqn:En; [lia|].
  change (failing_operation A errors)
    with (scripted_operation (fun i => @Raise A (errors i))).
  rewrite retry_while_exhausted by (intros i _; now eexists).
  cbn [fst snd trace db]. replace (S m - 1)%nat with m by lia.
  repeat split.
  rewrite invocations_app, invocations_failed_attempts.
  destruct w; reflexivity.
Qed.

(** X2. A retry-wrapped operation that fails on its first [k] attempts and
    then succeeds, [k] being less than the number of tries, returns the
    result of the successful attempt: it is invoked [k + 1] times and
    sleeps after each of the [k] failures, not after the success. *)
Theorem retry_recovers_from_transient_failures :
  forall (script : nat -> outcome A) (tries : Z) (k : nat)
         (delay backoff : Q) (w : world) (a : A),
    (Z.of_nat k < tries)%Z ->
    (forall i, (i < k)%nat ->
               exists e, script (invocations w + i)%nat = Raise e) ->
    script (invocations w + k)%nat = Return a ->
    let run := retry tries delay backoff (scripted_operation script) w in
    fst run = Return a /\
    trace (snd run)
    = trace w ++ failed_attempts k delay backoff ++ [EvInvoke] /\
    invocations (snd run) = (invocations w + k + 1)%nat.
Proof.
  intros script tries k delay backoff w a Hk Hfail Hret run. subst run.
  unfold retry.
  rewrite (@retry_while_script script k (Z.to_nat tries) delay backoff w a)
    by (try lia; assumption).
  cbn [fst snd trace]. repeat split.
  rewrite app_assoc, invocations_app, invocations_app.
  rewrite invocations_failed_attempts. simpl. destruct w; simpl. lia.
Qed.

End RetryScripts.

Lemma retry_exhaustion_any_tries_witness :
  fst (retry 5 1 2 (failing_operation unit (fun _ => ConnectionError)) start)
  = Raise ConnectionError /\
  trace (snd (retry 5 1 2 (failing_operation unit (fun _ => ConnectionError))
                start))
  = trace start ++ failed_attempts (Z.to_nat 5) 1 2 /\
  invocations (snd (retry 5 1 2
                      (failing_operation unit (fun _ => ConnectionError))
                      start))
  = (invocations start + Z.to_nat 5)%nat /\
  db (snd (retry 5 1 2 (failing_operation unit (fun _ => ConnectionError))
             start))
  = db start.
Proof.
  exact (@retry_exhaustion_any_tries unit (fun _ => ConnectionError) 5 1 2 start
           eq_refl).
Defined.

Lemma retry_recovers_witness :
  fst (retry 3 1 2
         (scripted_operation (fails_then_returns 2 ConnectionError 7%Z))
         start) = Return 7%Z /\
  trace (snd (retry 3 1 2
                (scripted_operation (fails_then_returns 2 ConnectionError 7%Z))
                start))
  = trace start ++ failed_attempts 2 1 2 ++ [EvInvoke] /\
  invocations (snd (retry 3 1 2
                      (scripted_operation
                         (fails_then_returns 2 ConnectionError 7%Z))
                      start))
  = (invocations start + 2 + 1)%nat.
Proof.
  apply (@retry_recovers_from_transient_failures Z
           (fails_then_returns 2 ConnectionError 7%Z) 3 2 1 2 start 7%Z).
  - reflexivity.
  - intros i Hi. exists ConnectionError.
    destruct i as [|[|i]]; [reflexivity | reflexivity | lia].
  - reflexivity.
Defined.

(** ** The two phases of a publication search *)

Section PubMedFacts.

Import Py PubMedCollector.
Local Open Scope string_scope.
Local Open Scope list_scope.

Lemma requests_made_after (events : list event) (w : world) :
  requests_made (after events w)
  = (requests_made w + List.length (filter is_request events))%nat.
Proof.
  unfold requests_made, after. cbn [trace].
  now rewrite filter_app, length_app.
Qed.

Lemma after_after (e1 e2 : list event) (w : world) :
  after e2 (after e1 w) = after (e1 ++ e2) w.
Proof. unfold after. cbn [trace db]. now rewrite app_assoc. Qed.

(** The body of [search_articles] up to the answer of the id search. *)
Lemma search_articles_body_esearch (net : network) (query : string)
    (max_results : Z) (w : world) :
  search_articles_body net query max_results w =
  let w1 := after (esearch_events query max_results) w in
  match esearch net (requests_made w) query max_results with
  | ConnectionFailed => (Raise ConnectionError, w1)
  | Response status body =>
      if is_error status then (Raise (HTTPError status), w1)
      else
        match body with
        | None => (Raise JSONDecodeError, w1)
        | Some JNull => (Raise AttributeError, w1)
        | Some JEmpty | Some (JDoc []) => (Return [], w1)
        | Some (JDoc (i :: ids)) =>
            let w2 := after (efetch_events (i :: ids)) w1 in
            match efetch net (S (requests_made w)) (i :: ids) with
            | ConnectionFailed => (Raise ConnectionError, w2)
            | Response status2 elements =>
                if is_error status2 then (Raise (HTTPError status2), w2)
                else (Return (map parse_article elements), w2)
            end
        end
  end.
Proof.
  unfold search_articles_body, try_except, bind, rate_limiter_wait, emit,
    requests_get, raise_for_status, response_json, ret, raise, after,
    esearch_events, efetch_events.
  rewrite requests_made_snoc_wait. cbn [fst snd trace db].
  rewrite <- !app_assoc. cbn [app].
  destruct (esearch net (requests_made w) query max_results)
    as [|status body]; [reflexivity|].
  cbn [fst snd]. destruct (is_error status); [reflexivity|].
  destruct body as [[| |[|i ids]]|]; try reflexivity.
  cbn [fst snd trace db].
  replace (requests_made
             {| trace := (trace w ++ [EvRateWait PubMed;
                                      EvRequest (ESearch query max_results)])
                         ++ [EvRateWait PubMed];
                db := db w |})
    with (S (requests_made w)).
  2: { unfold requests_made. cbn [trace].
       rewrite !filter_app, !length_app. simpl. lia. }
  rewrite <- !app_assoc. cbn [app].
  destruct (efetch net (S (requests_made w)) (i :: ids))
    as [|status2 elements]; [reflexivity|].
  cbn [fst snd]. now destruct (is_error status2).
Qed.

(** X3. When the id search of a publication search answers with no ids
    (an empty id list, or an empty object), [search_articles] returns the
    empty list after that one request: no batch fetch is attempted, and
    nothing is retried. *)
Theorem search_articles_short_circuits_on_no_ids :
  forall (net : network) (query : string) (max_results : Z) (w : world)
         (status : Z) (body : json (list string)),
    esearch net (requests_made w) query max_results
    = Response status (Some body) ->
    is_error status = false ->
    body = JEmpty \/ body = JDoc [] ->
    search_articles net query max_results w
    = (Return [], after (esearch_events query max_results) w).
Proof.
  intros net query max_results w status body Hr He Hb.
  unfold search_articles, retry_default. apply retry_return.
  rewrite search_articles_body_esearch. rewrite Hr, He. cbv zeta.
  now destruct Hb as [-> | ->].
Qed.

(** X4. When the id search succeeds with a non-empty id list and the batch
    fetch succeeds, [search_articles] makes exactly two requests, the id
    search and then one fetch of all ids together, and returns one record
    per [PubmedArticle] element of the answer, in order. *)
Theorem search_articles_two_requests :
  forall (net : network) (query : string) (max_results : Z) (w : world)
         (status status2 : Z) (i : string) (ids : list string)
         (elements : list pubmed_article),
    esearch net (requests_made w) query max_results
    = Response status (Some (JDoc (i :: ids))) ->
    is_error status = false ->
    efetch net (S (requests_made w)) (i :: ids)
    = Response status2 elements ->
    is_error status2 = false ->
    search_articles net query max_results w
    = (Return (map parse_article elements),
       after (esearch_events query max_results ++ efetch_events (i :: ids))
         w) /\
    List.length (map parse_article elements) = List.length elements.
Proof.
  intros net query max_results w status status2 i ids elements
    Hr He Hr2 He2.
  split; [|apply length_map].
  unfold search_articles, retry_default. apply retry_return.
  rewrite search_articles_body_esearch. rewrite Hr, He. cbv zeta.
  rewrite Hr2, He2. now rewrite after_after.
Qed.

(** The body of [search_articles] raises the failure of a failed id
    search. *)
Lemma search_articles_body_fails (net : network) (query : string)
    (max_results : Z) (w : world) :
  hard_failure (esearch net (requests_made w) query max_results) = true ->
  search_articles_body net query max_results w
  = (Raise (failure_of (esearch net (requests_made w) query max_results)),
     after (esearch_events query max_results) w).
Proof.
  intros H. rewrite search_articles_body_esearch. cbv zeta.
  destruct (esearch net (requests_made w) query max_results)
    as [|status body]; [reflexivity|].
  simpl in H. unfold failure_of.
  destruct (is_error status); [reflexivity|].
  destruct body; [discriminate | reflexivity].
Qed.

(** X5. Unlike the registry client, the publication search lets the retry
    decorator work: when every id search fails hard, [search_articles]
    makes exactly three requests, sleeps 1, 2 and 4 seconds after them, and
    raises the failure of the third. *)
Theorem search_articles_retries_then_raises :
  forall (net : network) (query : string) (max_results : Z) (w : world),
    (forall i, hard_failure (esearch net i query max_results) = true) ->
    let attempt := esearch_events query max_results in
    search_articles net query max_results w
    = (Raise (failure_of
                (esearch net (requests_made w + 2) query max_results)),
       after (attempt ++ [EvSleep 1] ++ attempt ++ [EvSleep (1 * 2)]
              ++ attempt ++ [EvSleep (1 * 2 * 2)]) w).
Proof.
  intros net query max_results w Hfail attempt.
  unfold search_articles, retry_default.
  pose (w1 := after attempt w).
  pose (w2 := after attempt (slept 1 w1)).
  pose (w3 := after attempt (slept (1 * 2) w2)).
  assert (R1 : requests_made (slept 1 w1) = S (requests_made w)).
  { unfold slept, w1. change {| trace := trace (after attempt w) ++ [EvSleep 1];
                                db := db (after attempt w) |}
      with (after [EvSleep 1] (after attempt w)).
    rewrite !requests_made_after. simpl. lia. }
  assert (R2 : requests_made (slept (1 * 2) w2) = S (S (requests_made w))).
  { unfold slept, w2.
    change {| trace := trace (after attempt (slept 1 w1))
                       ++ [EvSleep (1 * 2)];
              db := db (after attempt (slept 1 w1)) |}
      with (after [EvSleep (1 * 2)] (after attempt (slept 1 w1))).
    rewrite !requests_made_after, R1. simpl. lia. }
  rewrite (@retry_three_failures _ 1 2
             (search_articles_body net query max_results) w w1 w2 w3
             (failure_of (esearch net (requests_made w) query max_results))
             (failure_of
                (esearch net (S (requests_made w)) query max_results))
             (failure_of
                (esearch net (S (S (requests_made w))) query max_results))).
  - replace (requests_made w + 2)%nat with (S (S (requests_made w))) by lia.
    f_equal. unfold w3, w2, w1, slept, after. cbn [trace db].
    f_equal. repeat rewrite <- app_assoc. reflexivity.
  - apply search_articles_body_fails, Hfail.
  - unfold w2. rewrite <- R1. apply search_articles_body_fails, Hfail.
  - unfold w3. rewrite <- R2. apply search_articles_body_fails, Hfail.
Qed.

Lemma search_articles_short_circuit_witness :
  search_articles
    {| orcid_search := fun _ _ _ => ConnectionFailed;
       orcid_record := fun _ _ => ConnectionFailed;
       esearch := fun _ _ _ => Response 200 (Some (JDoc []));
       efetch := fun _ _ => ConnectionFailed |}
    "nothing"%string 10 start
  = (Return [], after (esearch_events "nothing"%string 10) start).
Proof.
  apply (@search_articles_short_circuits_on_no_ids _ "nothing"%string 10
           start 200 (JDoc [])).
  - reflexivity.
  - reflexivity.
  - right. reflexivity.
Defined.

Lemma search_articles_two_requests_witness :
  search_articles one_paper "tests"%string 10 start
  = (Return (map PubMedCollector.parse_article [one_author_paper]),
     after (esearch_events "tests"%string 10
            ++ efetch_events ["12345"%string]) start) /\
  List.length (map PubMedCollector.parse_article [one_author_paper])
  = List.length [one_author_paper].
Proof.
  exact (@search_articles_two_requests one_paper "tests"%string 10 start 200
           200 "12345"%string [] [one_author_paper] eq_refl eq_refl eq_refl
           eq_refl).
Defined.

Lemma search_articles_retries_witness :
  search_articles unreachable "tests"%string 10 start
  = (Raise (failure_of (esearch unreachable (requests_made start + 2)
                          "tests"%string 10)),
     after (esearch_events "tests"%string 10 ++ [EvSleep 1]
            ++ esearch_events "tests"%string 10 ++ [EvSleep (1 * 2)]
            ++ esearch_events "tests"%string 10 ++ [EvSleep (1 * 2 * 2)])
       start).
Proof.
  exact (@search_articles_retries_then_raises unreachable "tests"%string 10
           start (fun _ => eq_refl)).
Defined.

End PubMedFacts.

(** ** More on the registry client *)

Section ClientEdges.

Import Py OrcidClient.
Local Open Scope string_scope.
Local Open Scope list_scope.

(** X6. In debug mode the registry client makes no request at all: a
    search returns the empty list, a profile fetch returns the fixed debug
    profile, and the match operation returns [None], each leaving the
    world as it was. *)
Theorem debug_mode_makes_no_request :
  forall (self : t) (query orcid name : string) (max_results : Z)
         (include_details : bool) (keywords : option (list string))
         (institution : option string) (w : world),
    debug_mode self = true ->
    search_researchers self query max_results w = (Return [], w) /\
    get_researcher_info self orcid include_details w
    = (Return (Some (debug_profile orcid)), w) /\
    match_researcher self name keywords institution w = (Return None, w).
Proof.
  intros self query orcid name max_results include_details keywords
    institution w Hd.
  assert (Hs : forall q m, search_researchers self q m w = (Return [], w)).
  { intros q m. rewrite search_researchers_unfold.
    unfold search_researchers_body. now rewrite Hd. }
  split; [apply Hs|]. split.
  - now apply get_researcher_info_debug.
  - unfold match_researcher, try_except, bind. now rewrite Hs.
Qed.

Lemma debug_mode_witness :
  search_researchers debug_client "Jane Doe" 5 start = (Return [], start) /\
  get_researcher_info debug_client jane_id false start
  = (Return (Some (debug_profile jane_id)), start) /\
  match_researcher debug_client "Jane Doe" None None start
  = (Return None, start).
Proof.
  exact (@debug_mode_makes_no_request debug_client "Jane Doe" jane_id
           "Jane Doe" 5 false None None start eq_refl).
Defined.

(** X7. Outside debug mode a profile fetch never raises and never
    retries: it makes exactly one request and returns [None] when the
    request fails hard or the document is [null] or empty; when a document
    comes back it returns the profile read from it, which carries the
    identifier under ["orcid_id"] but has no ["orcid"] key and no
    confidence.  The one exception is a fetch with [include_details] of a
    document that has [null] under ["services"]: reading it raises, and
    the fetch returns [None]. *)
Theorem get_researcher_info_one_request :
  forall (self : t) (orcid : string) (include_details : bool) (w : world),
    debug_mode self = false ->
    exists o,
      get_researcher_info self orcid include_details w
      = (Return o, after (record_events orcid) w) /\
      (hard_failure (orcid_record (network_of self) (requests_made w) orcid)
       = true -> o = None) /\
      (forall status,
          orcid_record (network_of self) (requests_made w) orcid
          = Response status (Some JNull) \/
          orcid_record (network_of self) (requests_made w) orcid
          = Response status (Some JEmpty) ->
          o = None) /\
      (forall status doc,
          orcid_record (network_of self) (requests_made w) orcid
          = Response status (Some (JDoc doc)) ->
          is_error status = false ->
          o = (if include_details && services_null doc then None
               else Some (parse_record orcid doc)) /\
          r_orcid_id (parse_record orcid doc) = Some orcid /\
          r_orcid (parse_record orcid doc) = None /\
          r_match_confidence (parse_record orcid doc) = None).
Proof.
  intros self orcid include_details w Hd.
  exists (fetched_as include_details self (requests_made w) orcid).
  split; [now apply get_researcher_info_run_as|].
  unfold fetched_as.
  destruct (orcid_record (network_of self) (requests_made w) orcid)
    as [|status body].
  - split; [reflexivity|]. split.
    + intros s [H|H]; discriminate H.
    + intros s doc H. discriminate H.
  - split; [|split].
    + simpl. destruct (is_error status); [now destruct body as [[| |]|]|].
      destruct body as [[| |]|]; try discriminate; reflexivity.
    + intros s [H|H]; injection H as _ ->; reflexivity.
    + intros s doc H He. injection H as -> ->. rewrite He. cbn [orb].
      repeat split.
Qed.

Lemma get_researcher_info_one_request_witness :
  exists o,
    get_researcher_info (client_of (registry_of [] unserviced_doc)) jane_id
      true start
    = (Return o, after (record_events jane_id) start) /\
    (hard_failure (orcid_record (registry_of [] unserviced_doc)
                     (requests_made start) jane_id) = true -> o = None) /\
    (forall status,
        orcid_record (registry_of [] unserviced_doc) (requests_made start)
          jane_id
        = Response status (Some JNull) \/
        orcid_record (registry_of [] unserviced_doc) (requests_made start)
          jane_id
        = Response status (Some JEmpty) ->
        o = None) /\
    (forall status doc,
        orcid_record (registry_of [] unserviced_doc) (requests_made start)
          jane_id
        = Response status (Some (JDoc doc)) ->
        is_error status = false ->
        o = (if true && services_null doc then None
             else Some (parse_record jane_id doc)) /\
        r_orcid_id (parse_record jane_id doc) = Some jane_id /\
        r_orcid (parse_record jane_id doc) = None /\
        r_match_confidence (parse_record jane_id doc) = None).
Proof.
  exact (@get_researcher_info_one_request
           (client_of (registry_of [] unserviced_doc)) jane_id true start
           eq_refl).
Defined.

(** A hit with [null] for its identifier object ends the loop in an
    exception, after the hits before it have been dealt with. *)
Lemma search_loop_aborts (self : t) (max_results : Z) (good : list hit)
    (bad : hit) (rest : list hit) :
  debug_mode self = false ->
  well_formed good ->
  h_orcid_identifier bad = OidNull ->
  forall (results : list researcher) (w : world),
    search_loop self max_results (good ++ bad :: rest) results w
    = (Raise AttributeError,
       after (if (5 <? max_results)%Z then []
              else fetch_events (hit_ids good)) w).
Proof.
  intros Hd Hwf Hbad.
  induction good as [|h good IH]; intros results w.
  - cbn [app search_loop]. unfold bind, lift, hit_orcid_id. rewrite Hbad.
    unfold after. destruct (5 <? max_results)%Z; cbn [hit_ids fetch_events];
      rewrite app_nil_r; now destruct w.
  - inversion Hwf as [|x l Hh Hrest]; subst.
    destruct (@hit_orcid_id_usable h Hh) as [v [Hv Hu]].
    cbn [app search_loop hit_ids]. unfold bind at 1, lift. rewrite Hv, Hu.
    destruct v as [oid|]; [|now apply IH].
    destruct (truthy oid); cbn [negb]; [|now apply IH].
    destruct (5 <? max_results)%Z eqn:Hmax.
    + rewrite (IH Hrest). reflexivity.
    + unfold bind. rewrite (@get_researcher_info_run self oid _ Hd).
      destruct (fetched self (requests_made w) oid) as [info|];
        rewrite (IH Hrest); unfold after; cbn [trace db fetch_events];
        now rewrite <- !app_assoc.
Qed.

(** X8. One malformed hit empties the whole search: when any hit of the
    answer has [null] for its identifier object, [search_researchers]
    returns the empty list, also when the hits before it were good; with
    [max_results] at most 5 the profiles of those earlier hits have been
    fetched by then, and are dropped. *)
Theorem one_malformed_hit_empties_the_search :
  forall (self : t) (query : string) (max_results : Z) (w : world)
         (status : Z) (good : list hit) (bad : hit) (rest : list hit),
    debug_mode self = false ->
    orcid_search (network_of self) (requests_made w) query max_results
    = Response status
        (Some (JDoc {| sd_result := ResultList (good ++ bad :: rest) |})) ->
    is_error status = false ->
    well_formed good ->
    h_orcid_identifier bad = OidNull ->
    search_researchers self query max_results w
    = (Return [],
       after (if (5 <? max_results)%Z then []
              else fetch_events (hit_ids good))
         (searched query max_results w)).
Proof.
  intros self query max_results w status good bad rest Hd Hr He Hwf Hbad.
  rewrite (@search_researchers_hits self query max_results w status
             (good ++ bad :: rest) Hd Hr He).
  unfold try_except.
  now rewrite (@search_loop_aborts self max_results good bad rest Hd Hwf Hbad).
Qed.

Lemma one_malformed_hit_witness :
  search_researchers (client_of (registry_with ([jane_hit] ++ [null_hit])))
    "Jane Doe" 5 start
  = (Return [],
     after (if (5 <? 5)%Z then [] else fetch_events (hit_ids [jane_hit]))
       (searched "Jane Doe" 5 start)).
Proof.
  apply (@one_malformed_hit_empties_the_search
           (client_of (registry_with ([jane_hit] ++ [null_hit]))) "Jane Doe"
           5 start 200 [jane_hit] null_hit []); try reflexivity.
  repeat constructor. discriminate.
Defined.

End ClientEdges.

(** ** Ranking *)

Section Ranking.

Import Py OrcidClient.
Local Open Scope string_scope.
Local Open Scope list_scope.

Lemma search_loop_identified (self : t) (max_results : Z) (hits : list hit) :
  forall (results rs : list researcher) (w w' : world),
    Forall identified results ->
    search_loop self max_results hits results w = (Return rs, w') ->
    Forall identified rs.
Proof.
  induction hits as [|h hits IH]; intros results rs w w' Hres; simpl.
  - intros H; injection H as <- _. exact Hres.
  - unfold bind at 1, lift.
    destruct (hit_orcid_id h) as [[oid|]|e]; [| |discriminate].
    + destruct (truthy oid) eqn:Ht; cbn [negb]; [|now apply IH].
      destruct (5 <? max_results)%Z.
      * apply IH. apply Forall_app. split; [exact Hres|].
        constructor; [|constructor]. now exists oid.
      * unfold bind.
        destruct (get_researcher_info self oid false w)
          as [[[info|]|e] w1] eqn:Hg; [| |discriminate].
        -- apply IH. apply Forall_app. split; [exact Hres|].
           constructor; [|constructor]. now exists oid.
        -- now apply IH.
    + now apply IH.
Qed.

(** Every profile a search returns names its researcher. *)
Lemma search_researchers_identified (self : t) (query : string)
    (max_results : Z) (w w' : world) (rs : list researcher) :
  search_researchers self query max_results w = (Return rs, w') ->
  Forall identified rs.
Proof.
  rewrite search_researchers_unfold. unfold search_researchers_body.
  unfold try_except.
  destruct (debug_mode self).
  - intros H; injection H as <- _. constructor.
  - match goal with
    | |- context [match ?m w with _ => _ end] =>
        destruct (m w) as [[rs0|e] w0] eqn:Hrun
    end.
    2: { intros H; injection H as <- _. constructor. }
    intros H; injection H as <- <-. revert Hrun.
    unfold bind, rate_limiter_wait, emit, requests_get.
    destruct (orcid_search _ _ _ _) as [|status body]; [discriminate|].
    unfold raise_for_status. cbn [fst snd].
    destruct (is_error status); [discriminate|].
    unfold ret at 1. unfold response_json. cbn [snd].
    destruct body as [[| |doc]|]; try discriminate.
    + intros H; injection H as <- _. constructor.
    + unfold ret at 1. destruct (sd_result doc) as [| |hits].
      * intros H; injection H as <- _. constructor.
      * discriminate.
      * apply search_loop_identified. constructor.
Qed.

(** The scoring loop changes nothing of a profile but its confidence. *)
Lemma score_all_keeps (P : researcher -> Prop) (name : string)
    (keywords : option (list string)) (institution : option string) :
  (forall r c, P r -> P (with_confidence c r)) ->
  forall researchers scored,
    score_all name keywords institution researchers = Return scored ->
    Forall P researchers -> Forall P scored.
Proof.
  intros HP. induction researchers as [|r rs IH]; intros scored; simpl.
  - intros H _; injection H as <-. constructor.
  - destruct (score name keywords institution r) as [c|]; [|discriminate].
    destruct (score_all name keywords institution rs) as [rest|];
      [|discriminate].
    intros H Hall; injection H as <-. inversion Hall; subst.
    constructor; [now apply HP | now apply IH].
Qed.

Lemma identified_with_confidence (r : researcher) (c : Q) :
  identified r -> identified (with_confidence c r).
Proof. intros [oid H]. now exists oid. Qed.

Lemma hd_insert_desc (r : researcher) (l : list researcher) :
  hd_error (insert_desc r l)
  = match hd_error l with
    | None => Some r
    | Some b => if key_lt r b then Some b else Some r
    end.
Proof. destruct l as [|x l]; simpl; [reflexivity|]. now destruct (key_lt r x). Qed.

(** The head of the sorted list is the earliest of the greatest. *)
Lemma hd_sort_desc (l : list researcher) :
  hd_error (sort_desc l) = first_best l.
Proof.
  induction l as [|r l IH]; [reflexivity|].
  cbn [sort_desc fold_right first_best].
  fold (sort_desc l). now rewrite hd_insert_desc, IH.
Qed.

Lemma key_lt_spec (a b : researcher) :
  key_lt a b = true <-> sort_key a < sort_key b.
Proof.
  unfold key_lt. rewrite negb_true_iff.
  split; intros H.
  - apply Qnot_le_lt. intros Hle. apply Qle_bool_iff in Hle. congruence.
  - destruct (Qle_bool (sort_key b) (sort_key a)) eqn:E; [|reflexivity].
    apply Qle_bool_iff in E. exfalso. exact (Qlt_not_le _ _ H E).
Qed.

Lemma key_ge_spec (a b : researcher) :
  key_lt a b = false <-> sort_key b <= sort_key a.
Proof.
  unfold key_lt. rewrite negb_false_iff. apply Qle_bool_iff.
Qed.

(** What [first_best] picks: nothing before it is as good, nothing after
    it is better. *)
Lemma first_best_spec (l : list researcher) (x : researcher) :
  first_best l = Some x ->
  exists before after,
    l = before ++ x :: after /\
    Forall (fun y => sort_key y < sort_key x) before /\
    Forall (fun y => sort_key y <= sort_key x) after.
Proof.
  revert x. induction l as [|r l IH]; intros x; [discriminate|].
  cbn [first_best]. destruct (first_best l) as [b|] eqn:Hb.
  - destruct (IH b eq_refl) as [before [after [-> [Hlt Hle]]]].
    destruct (key_lt r b) eqn:Hk; intros H; injection H as <-.
    + exists (r :: before), after. split; [reflexivity|]. split; [|exact Hle].
      constructor; [now apply key_lt_spec | exact Hlt].
    + apply key_ge_spec in Hk. exists [], (before ++ b :: after).
      split; [reflexivity|]. split; [constructor|].
      apply Forall_app. split.
      * eapply Forall_impl; [|exact Hlt]. intros y Hy. cbv beta in Hy.
        apply Qlt_le_weak. eapply Qlt_le_trans; eassumption.
      * constructor; [exact Hk|].
        eapply Forall_impl; [|exact Hle]. intros y Hy. cbv beta in Hy.
        eapply Qle_trans; eassumption.
  - intros H; injection H as <-. destruct l as [|r' l]; [|simpl in Hb].
    + exists [], []. repeat split; constructor.
    + destruct (first_best l) as [b|]; [destruct (key_lt r' b)|];
        discriminate.
Qed.

Lemma sort_desc_nonempty (r : researcher) (l : list researcher) :
  sort_desc (r :: l) <> [].
Proof.
  cbn [sort_desc fold_right]. fold (sort_desc l).
  destruct (sort_desc l) as [|x s]; simpl; [discriminate|].
  destruct (key_lt r x); discriminate.
Qed.

(** The match operation with two candidates or more, once they are
    scored: the head of the sorted list. *)
Lemma match_researcher_ranked (self : t) (name : string)
    (keywords : option (list string)) (institution : option string)
    (w w' : world) (rs scored : list researcher) :
  search_researchers self (build_query name keywords institution) 5 w
  = (Return rs, w') ->
  (2 <= List.length rs)%nat ->
  score_all name keywords institution rs = Return scored ->
  exists best,
    first_best scored = Some best /\
    match_researcher self name keywords institution w
    = (Return (Some best), w').
Proof.
  intros Hs Hlen Hsc.
  unfold match_researcher, try_except, bind. rewrite Hs.
  destruct rs as [|r0 [|r1 rs]]; [simpl in Hlen; lia | simpl in Hlen; lia|].
  cbn [List.length Nat.ltb Nat.leb]. unfold lift. rewrite Hsc. unfold ret.
  pose proof (hd_sort_desc scored) as Hhd.
  destruct (sort_desc scored) as [|first rest] eqn:Hsort.
  - exfalso. revert Hsc. simpl.
    destruct (score name keywords institution r0); [|discriminate].
    destruct (score name keywords institution r1); [|discriminate].
    destruct (score_all name keywords institution rs); [|discriminate].
    intros H; injection H as <-. now apply sort_desc_nonempty in Hsort.
  - exists first. split; [now rewrite <- Hhd|].
    assert (Hc : exists c, r_match_confidence first = Some c).
    { assert (Hall : Forall (fun r => exists c, r_match_confidence r = Some c)
                       scored).
      { pose proof (score_all_bounds _ _ _ _ Hsc) as Hb.
        eapply Forall_impl; [|exact Hb].
        intros a [c [Hc _]]. now exists c. }
      rewrite Forall_forall in Hall. apply Hall.
      apply sort_desc_In. rewrite Hsort. now left. }
    destruct Hc as [c Hc]. unfold default_confidence. now rewrite Hc.
Qed.

(** X9. With two candidates or more the match operation returns the
    candidate with the greatest confidence, and among candidates of equal
    confidence the one that came first in the registry's answer: every
    candidate before the returned one scored strictly less, every
    candidate after it scored at most as much. *)
Theorem ranking_is_stable :
  forall (self : t) (name : string) (keywords : option (list string))
         (institution : option string) (w w' : world)
         (rs scored : list researcher),
    search_researchers self (build_query name keywords institution) 5 w
    = (Return rs, w') ->
    (2 <= List.length rs)%nat ->
    score_all name keywords institution rs = Return scored ->
    exists best before after,
      match_researcher self name keywords institution w
      = (Return (Some best), w') /\
      scored = before ++ best :: after /\
      Forall (fun y => sort_key y < sort_key best) before /\
      Forall (fun y => sort_key y <= sort_key best) after.
Proof.
  intros self name keywords institution w w' rs scored Hs Hlen Hsc.
  destruct (@match_researcher_ranked self name keywords institution w w' rs
              scored Hs Hlen Hsc) as [best [Hbest Hm]].
  destruct (@first_best_spec scored best Hbest)
    as [before [after [Heq [Hlt Hle]]]].
  now exists best, before, after.
Qed.

End Ranking.

Section Candidates.

Import Py OrcidClient.
Local Open Scope string_scope.
Local Open Scope list_scope.

Lemma ranking_is_stable_witness :
  exists best ahead behind,
    match_researcher (client_of (registry_with [jane_hit; jane_hit]))
      "Jane Doe" None None start
    = (Return (Some best),
       after (record_events jane_id ++ record_events jane_id)
         (searched (build_query "Jane Doe" None None) 5 start)) /\
    [with_confidence 0.80 jane; with_confidence 0.80 jane]
    = ahead ++ best :: behind /\
    Forall (fun y => sort_key y < sort_key best) ahead /\
    Forall (fun y => sort_key y <= sort_key best) behind.
Proof.
  exact (@ranking_is_stable (client_of (registry_with [jane_hit; jane_hit]))
           "Jane Doe" None None start _ [jane; jane] _ eq_refl (le_n 2)
           eq_refl).
Defined.

(** Every scored profile is one of the candidates with a confidence put
    on it. *)
Lemma score_all_origin (name : string) (keywords : option (list string))
    (institution : option string) :
  forall researchers scored s,
    score_all name keywords institution researchers = Return scored ->
    In s scored ->
    exists r0 c, In r0 researchers /\ s = with_confidence c r0 /\
                 0 <= c /\ c <= 1.
Proof.
  induction researchers as [|r rs IH]; intros scored s; simpl.
  - intros H; injection H as <-. intros [].
  - destruct (score name keywords institution r) as [c|] eqn:Hc;
      [|discriminate].
    destruct (score_all name keywords institution rs) as [rest|];
      [|discriminate].
    intros H; injection H as <-. intros [<-|Hin].
    + exists r, c. split; [now left|]. split; [reflexivity|].
      exact (@score_bounds name keywords institution r c Hc).
    + destruct (IH rest s eq_refl Hin) as [r0 [c0 [Hin0 H0]]].
      exists r0, c0. split; [now right | exact H0].
Qed.

(** Where a returned candidate comes from. *)
Lemma match_researcher_origin :
  forall (self : t) (name : string) (keywords : option (list string))
         (institution : option string) (w w' : world) (r : researcher),
    match_researcher self name keywords institution w
    = (Return (Some r), w') ->
    exists rs r0 c,
      search_researchers self (build_query name keywords institution) 5 w
      = (Return rs, w') /\
      In r0 rs /\ r = with_confidence c r0 /\
      identified r /\ 0 <= c /\ c <= 1.
Proof.
  intros self name keywords institution w w' r.
  unfold match_researcher, try_except, bind at 1.
  destruct (search_researchers self (build_query name keywords institution)
              5 w) as [[rs|e] w1] eqn:Hs.
  2: { unfold ret. intros H; discriminate H. }
  pose proof (search_researchers_identified _ _ _ _ Hs) as Hid.
  pose proof (search_researchers_unscored _ _ _ _ Hs) as Hun.
  destruct rs as [|r0 rs]; [unfold ret; intros H; discriminate H|].
  unfold bind.
  destruct (1 <? List.length (r0 :: rs))%nat eqn:Hlen.
  - unfold lift.
    destruct (score_all name keywords institution (r0 :: rs))
      as [scored|e] eqn:Hsc; [|unfold ret; intros H; discriminate H].
    unfold ret at 1.
    destruct (sort_desc scored) as [|first rest] eqn:Hsort;
      [unfold raise, ret; intros H; discriminate H|].
    unfold ret. intros H; injection H as <- <-.
    assert (Hin : In first scored).
    { apply sort_desc_In. rewrite Hsort. now left. }
    destruct (score_all_origin _ _ _ _ _ Hsc Hin)
      as [c0 [c [Hin0 [-> [Hlo Hhi]]]]].
    exists (r0 :: rs), c0, c. split; [reflexivity|].
    split; [exact Hin0|]. cbn [default_confidence with_confidence
                               r_match_confidence].
    split; [reflexivity|]. split; [|now split].
    apply identified_with_confidence.
    rewrite Forall_forall in Hid. now apply Hid.
  - unfold ret. intros H; injection H as <- <-.
    inversion Hun as [|x l Hr _]; subst. inversion Hid as [|x l Hi _]; subst.
    unfold default_confidence. unfold unscored in Hr. rewrite Hr.
    exists (r0 :: rs), r0, 0.7. split; [reflexivity|]. split; [now left|].
    split; [reflexivity|]. split; [now apply identified_with_confidence|].
    split; now compute.
Qed.

(** X10. The candidate the match operation returns is one of the profiles
    its search returned, unchanged but for the confidence put on it, and
    the match operation makes no request of its own after the search; the
    returned profile carries a non-empty identifier under ["orcid"], and
    the confidence lies between 0 and 1. *)
Theorem matched_candidate_comes_from_the_search :
  forall (self : t) (name : string) (keywords : option (list string))
         (institution : option string) (w w' : world) (r : researcher),
    match_researcher self name keywords institution w
    = (Return (Some r), w') ->
    exists rs r0 c,
      search_researchers self (build_query name keywords institution) 5 w
      = (Return rs, w') /\
      In r0 rs /\ r = with_confidence c r0 /\
      r_match_confidence r = Some c /\
      identified r /\ 0 <= c /\ c <= 1.
Proof.
  intros self name keywords institution w w' r H.
  destruct (@match_researcher_origin self name keywords institution w w' r H)
    as [rs [r0 [c [Hs [Hin [-> [Hid Hc]]]]]]].
  exists rs, r0, c. split; [exact Hs|]. split; [exact Hin|].
  split; [reflexivity|]. split; [reflexivity|]. split; assumption.
Qed.

Lemma matched_candidate_witness :
  exists rs r0 c,
    search_researchers (client_of (registry_with [jane_hit]))
      (build_query "Jane Doe" None None) 5 start
    = (Return rs,
       after (record_events jane_id)
         (searched (build_query "Jane Doe" None None) 5 start)) /\
    In r0 rs /\ with_confidence 0.7 jane = with_confidence c r0 /\
    r_match_confidence (with_confidence 0.7 jane) = Some c /\
    identified (with_confidence 0.7 jane) /\ 0 <= c /\ c <= 1.
Proof.
  exact (@matched_candidate_comes_from_the_search
           (client_of (registry_with [jane_hit])) "Jane Doe" None None start
           _ (with_confidence 0.7 jane) eq_refl).
Defined.

Lemma score_all_returns (name : string) (keywords : option (list string))
    (institution : option string) (researchers : list researcher) :
  Forall (fun r => string_valued r = true) researchers ->
  exists scored,
    score_all name keywords institution researchers = Return scored /\
    List.length scored = List.length researchers.
Proof.
  induction 1 as [|r rs Hr _ IH]; simpl.
  - now exists [].
  - destruct (score_returns name keywords institution r Hr) as [c ->].
    destruct IH as [rest [-> Hlen]]. eexists. split; [reflexivity|].
    simpl. now rewrite Hlen.
Qed.

Lemma single_candidate_default_confidence_aux (self : t) (name : string)
    (keywords : option (list string)) (institution : option string)
    (w w' : world) (r : researcher) :
  search_researchers self (build_query name keywords institution) 5 w
  = (Return [r], w') ->
  match_researcher self name keywords institution w
  = (Return (Some (with_confidence 0.7 r)), w').
Proof.
  intros H.
  pose proof (search_researchers_unscored _ _ _ _ H) as Hu.
  inversion Hu as [|x l Hr _]; subst.
  unfold match_researcher, try_except, bind. rewrite H.
  cbn [List.length Nat.ltb Nat.leb ret]. unfold default_confidence.
  unfold unscored in Hr. now rewrite Hr.
Qed.

(** X11. When the search returns at least one candidate and the name,
    institution and keywords of every candidate are strings, the match
    operation returns a candidate: however little evidence matched, also
    none at all, the result is never [None]. *)
Theorem candidates_are_never_dropped :
  forall (self : t) (name : string) (keywords : option (list string))
         (institution : option string) (w w' : world) (r0 : researcher)
         (rs : list researcher),
    search_researchers self (build_query name keywords institution) 5 w
    = (Return (r0 :: rs), w') ->
    Forall (fun r => string_valued r = true) (r0 :: rs) ->
    exists best,
      match_researcher self name keywords institution w
      = (Return (Some best), w').
Proof.
  intros self name keywords institution w w' r0 rs Hs Hsv.
  destruct rs as [|r1 rs].
  - exists (with_confidence 0.7 r0).
    now apply single_candidate_default_confidence_aux.
  - destruct (score_all_returns name keywords institution Hsv)
      as [scored [Hsc _]].
    destruct (@match_researcher_ranked self name keywords institution w w'
                (r0 :: r1 :: rs) scored Hs ltac:(simpl; lia) Hsc)
      as [best [_ Hm]].
    now exists best.
Qed.

End Candidates.

Section Evidence.

Import Py OrcidClient.
Local Open Scope string_scope.
Local Open Scope list_scope.

Lemma candidates_are_never_dropped_witness :
  exists best,
    match_researcher (client_of (registry_with [jane_hit; jane_hit]))
      "Nobody Else" None None start
    = (Return (Some best),
       after (record_events jane_id ++ record_events jane_id)
         (searched (build_query "Nobody Else" None None) 5 start)).
Proof.
  apply (@candidates_are_never_dropped
           (client_of (registry_with [jane_hit; jane_hit])) "Nobody Else"
           None None start _ jane [jane]).
  - reflexivity.
  - repeat constructor.
Defined.

(** A candidate that cannot be scored stops the scoring loop. *)
Lemma score_all_raises (name : string) (keywords : option (list string))
    (institution : option string) (r : researcher) (e : exn) :
  score name keywords institution r = Raise e ->
  forall researchers,
    In r researchers ->
    exists e', score_all name keywords institution researchers = Raise e'.
Proof.
  intros Hr. induction researchers as [|r0 rs IH]; intros Hin; [destruct Hin|].
  simpl. destruct (score name keywords institution r0) as [c|e0] eqn:H0;
    [|now exists e0].
  destruct Hin as [->|Hin]; [congruence|].
  destruct (IH Hin) as [e' ->]. now exists e'.
Qed.

(** A candidate whose institution is [None] cannot be scored against a
    query institution. *)
Lemma score_raises_on_null_institution (name : string)
    (keywords : option (list string)) (i : string) (r : researcher) :
  truthy i = true ->
  r_institution r = Some None ->
  exists e, score name keywords (Some i) r = Raise e.
Proof.
  intros Hi Hr. unfold score.
  destruct (score_name name r 0.0) as [c1|e1]; [|now exists e1].
  destruct (score_keywords keywords r c1) as [c2|e2]; [|now exists e2].
  unfold score_institution. rewrite Hr, Hi. now exists AttributeError.
Qed.

(** X12. One candidate with a [null] field loses the whole match: when the
    search returns two candidates or more and one of them has [None] for
    its institution (the registry sent [null] for the name of the
    organization) while the query names an institution, the scoring raises
    and the match operation returns [None], although candidates were
    found. *)
Theorem null_institution_loses_the_match :
  forall (self : t) (name i : string) (keywords : option (list string))
         (w w' : world) (rs : list researcher) (r : researcher),
    search_researchers self (build_query name keywords (Some i)) 5 w
    = (Return rs, w') ->
    (2 <= List.length rs)%nat ->
    In r rs ->
    r_institution r = Some None ->
    truthy i = true ->
    match_researcher self name keywords (Some i) w = (Return None, w').
Proof.
  intros self name i keywords w w' rs r Hs Hlen Hin Hr Hi.
  destruct (@score_raises_on_null_institution name keywords i r Hi Hr)
    as [e He].
  destruct (@score_all_raises name keywords (Some i) r e He rs Hin)
    as [e' Hsc].
  unfold match_researcher, try_except, bind. rewrite Hs.
  destruct rs as [|r0 [|r1 rs]]; [simpl in Hlen; lia | simpl in Hlen; lia|].
  cbn [List.length Nat.ltb Nat.leb]. unfold lift. now rewrite Hsc.
Qed.

Lemma null_institution_witness :
  match_researcher
    (client_of (registry_of [jane_hit; jane_hit] nameless_employer_doc))
    "Jane Doe" None (Some "Uppsala") start
  = (Return None,
     after (record_events jane_id ++ record_events jane_id)
       (searched (build_query "Jane Doe" None (Some "Uppsala")) 5 start)).
Proof.
  apply (@null_institution_loses_the_match
           (client_of (registry_of [jane_hit; jane_hit]
                         nameless_employer_doc))
           "Jane Doe" "Uppsala" None start _
           [with_orcid jane_id (parse_record jane_id nameless_employer_doc);
            with_orcid jane_id (parse_record jane_id nameless_employer_doc)]
           (with_orcid jane_id (parse_record jane_id nameless_employer_doc))).
  - reflexivity.
  - apply le_n.
  - left. reflexivity.
  - reflexivity.
  - reflexivity.
Defined.

Lemma contains_self (s : string) : contains s s = true.
Proof.
  apply contains_spec. exists "", "". simpl.
  induction s as [|c s IH]; [reflexivity|]. simpl. now rewrite <- IH.
Qed.

(** X13. With no keywords and no institution in the query, the confidence
    of a candidate comes from the name alone: 0.8 when the candidate's name
    equals the query name up to case, 0.5 when it only contains it, and 0
    when it does not contain it. *)
Theorem name_alone_scores :
  forall (name n : string) (candidate : researcher),
    r_name candidate = Some (Some n) ->
    n <> "" ->
    exists c,
      score name None None candidate = Return c /\
      (lower name = lower n -> c == 0.8) /\
      (lower name <> lower n ->
       contains (lower n) (lower name) = true -> c == 0.5) /\
      (contains (lower n) (lower name) = false -> c == 0).
Proof.
  intros name n candidate Hn Hne.
  unfold score, score_name, lower_py, dict_get. rewrite Hn.
  rewrite (@lower_nonempty n Hne). cbn [andb].
  unfold score_keywords, score_institution.
  destruct (contains (lower n) (lower name)) eqn:Hc.
  - destruct (String.eqb (lower name) (lower n)) eqn:He.
    + eexists. split; [reflexivity|]. split; [intros _; reflexivity|].
      apply String.eqb_eq in He. split; [congruence | discriminate].
    + eexists. split; [reflexivity|].
      apply String.eqb_neq in He. split; [congruence|].
      split; [intros _ _; reflexivity | discriminate].
  - eexists. split; [reflexivity|]. split.
    + intros Heq. rewrite Heq, contains_self in Hc. discriminate.
    + split; [discriminate | intros _; reflexivity].
Qed.

Lemma name_alone_scores_witness :
  exists c,
    score "BJÖRN ÖBERG" None None bjorn = Return c /\
    (lower "BJÖRN ÖBERG" = lower "Björn Öberg" -> c == 0.8) /\
    (lower "BJÖRN ÖBERG" <> lower "Björn Öberg" ->
     contains (lower "Björn Öberg") (lower "BJÖRN ÖBERG") = true ->
     c == 0.5) /\
    (contains (lower "Björn Öberg") (lower "BJÖRN ÖBERG") = false ->
     c == 0).
Proof.
  apply (@name_alone_scores "BJÖRN ÖBERG" "Björn Öberg" bjorn).
  - reflexivity.
  - discriminate.
Defined.

(** The three cases at work: the same name in capitals, a part of the
    name, another name. *)
Lemma name_alone_examples :
  score "BJÖRN ÖBERG" None None bjorn = Return 0.80 /\
  score "öberg" None None bjorn = Return 0.50 /\
  score "Jane Doe" None None bjorn = Return 0.00.
Proof. repeat split; vm_compute; reflexivity. Qed.

End Evidence.

(** ** The query of a match *)

Section Queries.

Import Py OrcidClient.
Local Open Scope string_scope.

Lemma append_empty_r (a : string) : a ++ "" = a.
Proof. induction a as [|c a IH]; [reflexivity|]. simpl. now rewrite IH. Qed.

(** A profile fetch only adds events to the trace. *)
Lemma get_researcher_info_extends (self : t) (orcid : string) (b : bool)
    (w : world) :
  exists events,
    trace (snd (get_researcher_info self orcid b w))
    = (trace w ++ events)%list.
Proof.
  destruct (debug_mode self) eqn:Hd.
  - rewrite (get_researcher_info_debug _ _ _ _ Hd). exists [].
    cbn [snd]. now rewrite app_nil_r.
  - rewrite (get_researcher_info_run_as _ _ _ _ Hd). now eexists.
Qed.

(** So does the loop over the hits, however it ends. *)
Lemma search_loop_extends (self : t) (max_results : Z) (hits : list hit) :
  forall (results : list researcher) (w : world),
  exists events,
    trace (snd (search_loop self max_results hits results w))
    = (trace w ++ events)%list.
Proof.
  induction hits as [|h hits IH]; intros results w; cbn [search_loop].
  - exists []. cbn. now rewrite app_nil_r.
  - unfold bind at 1, lift.
    destruct (hit_orcid_id h) as [[oid|]|e]; [| |].
    + destruct (negb (truthy oid)); [apply IH|].
      destruct (5 <? max_results)%Z; [apply IH|].
      unfold bind.
      destruct (get_researcher_info_extends self oid false w) as [ev1 H1].
      destruct (get_researcher_info self oid false w) as [[info|e] w1];
        cbn [snd] in H1.
      * destruct info as [info|];
          match goal with
          | |- context [search_loop self max_results hits ?r w1] =>
              destruct (IH r w1) as [ev2 H2]
          end;
          exists (ev1 ++ ev2)%list; now rewrite H2, H1, app_assoc.
      * exists ev1. exact H1.
    + apply IH.
    + exists []. cbn. now rewrite app_nil_r.
Qed.

(** Outside debug mode a search starts with its one search request. *)
Lemma search_researchers_extends (self : t) (query : string)
    (max_results : Z) (w : world) :
  debug_mode self = false ->
  exists events,
    trace (snd (search_researchers self query max_results w))
    = (trace w ++ EvRateWait Orcid
               :: EvRequest (OrcidSearch query max_results) :: events)%list.
Proof.
  intros Hd. rewrite search_researchers_unfold.
  unfold search_researchers_body. rewrite Hd.
  unfold try_except, bind, rate_limiter_wait, emit, requests_get.
  cbn [trace db]. rewrite <- app_assoc. cbn [app].
  match goal with
  | |- context [orcid_search (network_of self) ?k query max_results] =>
      destruct (orcid_search (network_of self) k query max_results)
        as [|status body]
  end; [exists []; reflexivity|].
  unfold raise_for_status, response_json. cbn [fst snd].
  destruct (is_error status); [exists []; reflexivity|].
  unfold ret at 1.
  destruct body as [[| |doc]|]; try (exists []; reflexivity).
  unfold ret at 1.
  destruct (sd_result doc) as [| |hits]; try (exists []; reflexivity).
  match goal with
  | |- context [search_loop self max_results hits [] ?w0] =>
      destruct (search_loop_extends self max_results hits [] w0)
        as [events H];
      destruct (search_loop self max_results hits [] w0) as [[rs|e] w1]
  end; unfold ret; cbn [snd trace] in H |- *; rewrite H, <- app_assoc;
    now exists events.
Qed.

(** After its search the match operation touches nothing. *)
Lemma match_researcher_trace (self : t) (name : string)
    (keywords : option (list string)) (institution : option string)
    (w : world) :
  snd (match_researcher self name keywords institution w)
  = snd (search_researchers self (build_query name keywords institution) 5 w).
Proof.
  unfold match_researcher, try_except, bind at 1.
  destruct (search_researchers self (build_query name keywords institution)
              5 w) as [[rs|e] w1]; [|reflexivity].
  destruct rs as [|r0 rs]; [reflexivity|].
  unfold bind.
  destruct (1 <? List.length (r0 :: rs))%nat.
  - unfold lift.
    destruct (score_all name keywords institution (r0 :: rs)) as [scored|e];
      [|reflexivity].
    unfold ret at 1. now destruct (sort_desc scored).
  - reflexivity.
Qed.

(** X14. Of the keywords of the query the first three reach the registry,
    and only they: for a list of three keywords or more the query is the
    quoted name, the first three keywords, each quoted, and the quoted
    institution when one is given, joined by [" AND "]; whatever the
    keywords, the query holds the first three of them at most; and the
    match operation starts by sending this query, asking for 5 rows. *)
Theorem query_takes_three_keywords :
  forall (self : t) (name k1 k2 k3 : string) (others : list string)
         (institution : option string) (w : world),
    debug_mode self = false ->
    let query :=
      quote name ++ " AND " ++ quote k1 ++ " AND " ++ quote k2 ++ " AND "
      ++ quote k3
      ++ match institution with
         | Some (String c i) => " AND " ++ quote (String c i)
         | _ => ""
         end in
    build_query name (Some (k1 :: k2 :: k3 :: others)) institution = query /\
    (exists events,
        trace (snd (match_researcher self name
                      (Some (k1 :: k2 :: k3 :: others)) institution w))
        = (trace w ++ EvRateWait Orcid
                   :: EvRequest (OrcidSearch query 5) :: events)%list) /\
    (forall keywords : list string,
        build_query name (Some keywords) institution
        = join " AND "
            (quote name :: map quote (firstn 3 keywords)
             ++ match institution with
                | Some (String c i) => [quote (String c i)]
                | _ => []
                end)%list) /\
    build_query name None None = quote name.
Proof.
  intros self name k1 k2 k3 others institution w Hd query.
  assert (Hq : build_query name (Some (k1 :: k2 :: k3 :: others)) institution
               = query).
  { subst query. unfold build_query, join.
    destruct institution as [[|c i]|]; cbn [truthy firstn map app concat];
      now rewrite ?append_empty_r. }
  split; [exact Hq|]. split; [|split; [|reflexivity]].
  - rewrite match_researcher_trace, Hq.
    now apply search_researchers_extends.
  - intros keywords. unfold build_query.
    destruct keywords as [|k ks];
      destruct institution as [[|c i]|]; cbn [truthy app];
      rewrite ?app_nil_r; reflexivity.
Qed.

Lemma query_takes_three_keywords_witness :
  build_query "Jane Doe" (Some ["physics"; "optics"; "lasers"; "glass"])
    (Some "Uppsala")
  = quote "Jane Doe" ++ " AND " ++ quote "physics" ++ " AND "
    ++ quote "optics" ++ " AND " ++ quote "lasers" ++ " AND "
    ++ quote "Uppsala" /\
  (exists events,
      trace (snd (match_researcher (client_of unreachable) "Jane Doe"
                    (Some ["physics"; "optics"; "lasers"; "glass"])
                    (Some "Uppsala") start))
      = (trace start
         ++ EvRateWait Orcid
            :: EvRequest
                 (OrcidSearch
                    (quote "Jane Doe" ++ " AND " ++ quote "physics"
                     ++ " AND " ++ quote "optics" ++ " AND "
                     ++ quote "lasers" ++ " AND " ++ quote "Uppsala")%string
                    5)
            :: events)%list) /\
  (forall keywords : list string,
      build_query "Jane Doe" (Some keywords) (Some "Uppsala")
      = join " AND "
          (quote "Jane Doe" :: map quote (firstn 3 keywords)
           ++ [quote "Uppsala"])%list) /\
  build_query "Jane Doe" None None = quote "Jane Doe".
Proof.
  exact (@query_takes_three_keywords (client_of unreachable) "Jane Doe"
           "physics" "optics" "lasers" ["glass"] (Some "Uppsala") start
           eq_refl).
Defined.

End Queries.

Section Tenths.

Import Py OrcidClient.
Local Open Scope string_scope.
Local Open Scope list_scope.

(** Rounding to two decimals leaves a number of tenths as it is. *)
Lemma round2_tenths (k : Z) : round2 (k # 10) == k # 10.
Proof.
  unfold round2, round_half_even.
  assert (Hf : Qfloor ((k # 10) * 100) = (k * 10)%Z).
  { unfold Qfloor, Qmult. cbn [Qnum Qden].
    change (Z.pos (10 * 1)) with 10%Z.
    replace (k * 100)%Z with (k * 10 * 10)%Z by lia.
    now apply Z.div_mul. }
  rewrite Hf.
  assert (Hc : ((k # 10) * 100 - inject_Z (k * 10) ?= 1 # 2)%Q = Lt).
  { assert (Hz : (k # 10) * 100 - inject_Z (k * 10) == 0).
    { unfold Qeq, Qminus, Qplus, Qopp, Qmult, inject_Z. cbn [Qnum Qden].
      lia. }
    now rewrite (Qcompare_comp _ _ Hz _ _ (Qeq_refl (1 # 2))). }
  rewrite Hc. unfold Qeq. cbn [Qnum Qden]. lia.
Qed.

Lemma name_contribution_tenths (name : string) (candidate : researcher) :
  exists k, (0 <= k)%Z /\ name_contribution name candidate == k # 10.
Proof.
  unfold name_contribution.
  destruct (dict_get (r_name candidate) "") as [n|];
    [|exists 0%Z; split; [lia | reflexivity]].
  destruct (truthy (lower n) && contains (lower n) (lower name));
    [|exists 0%Z; split; [lia | reflexivity]].
  destruct (String.eqb (lower name) (lower n));
    [exists 8%Z | exists 5%Z]; split; try lia; reflexivity.
Qed.

Lemma times_tenths (weight : Z) (n : nat) :
  times (weight # 10) n == (weight * Z.of_nat n) # 10.
Proof.
  unfold times, Qeq, Qmult, inject_Z. cbn [Qnum Qden]. lia.
Qed.

Lemma total_contribution_tenths (name : string)
    (keywords : option (list string)) (institution : option string)
    (candidate : researcher) :
  exists k, (0 <= k)%Z /\
            total_contribution name keywords institution candidate
            == k # 10.
Proof.
  destruct (name_contribution_tenths name candidate) as [a [Ha Hn]].
  exists (a + 1 * Z.of_nat (keyword_matches keywords candidate)
            + 2 * Z.of_nat (institution_matches institution candidate))%Z.
  split; [lia|].
  unfold total_contribution. rewrite Hn.
  change 0.1 with (1 # 10). change 0.2 with (2 # 10).
  rewrite !times_tenths.
  unfold Qeq, Qplus. cbn [Qnum Qden]. lia.
Qed.

Lemma min_tenths (k : Z) :
  (0 <= k)%Z -> min (k # 10) 1.0 == (Z.min k 10) # 10.
Proof.
  intros Hk. unfold min.
  destruct (Qle_bool (k # 10) 1.0) eqn:H.
  - apply Qle_bool_iff in H. unfold Qle in H. cbn [Qnum Qden] in H.
    replace (Z.min k 10) with k by lia. reflexivity.
  - assert (Hgt : ~ (k # 10 <= 1.0)).
    { intros Hle. apply Qle_bool_iff in Hle. congruence. }
    unfold Qle in Hgt. cbn [Qnum Qden] in Hgt.
    replace (Z.min k 10) with 10%Z by lia. reflexivity.
Qed.

(** X15. The confidence of a scored candidate, as the final rounding
    leaves it, is always a whole number of tenths between 0 and 1: every
    contribution is a number of tenths, and so is the cap. *)
Theorem confidence_is_a_number_of_tenths :
  forall (name : string) (keywords : option (list string))
         (institution : option string) (candidate : researcher) (c : Q),
    score name keywords institution candidate = Return c ->
    exists k, (0 <= k <= 10)%Z /\ c == k # 10.
Proof.
  intros name keywords institution candidate c H.
  destruct (@score_sum name keywords institution candidate c H)
    as [sum [Hsum ->]].
  destruct (total_contribution_tenths name keywords institution candidate)
    as [k [Hk Ht]].
  assert (Hmin : min sum 1.0 == Z.min k 10 # 10).
  { rewrite (@min_compat sum (k # 10) 1.0) by (now rewrite Hsum).
    now apply min_tenths. }
  assert (Hround : round2 (min sum 1.0) == Z.min k 10 # 10).
  { rewrite (@round2_compat _ _ Hmin). apply round2_tenths. }
  exists (Z.min k 10). split; [lia | exact Hround].
Qed.

Lemma confidence_tenths_witness :
  exists k, (0 <= k <= 10)%Z /\ 0.40 == k # 10.
Proof.
  exact (@confidence_is_a_number_of_tenths "John Smith" None (Some "MIT")
           twice_named 0.40 eq_refl).
Defined.

End Tenths.

(** ** More on the mapping table *)

Section MappingTable.

Import PermanentDatabase.
Local Open Scope string_scope.
Local Open Scope list_scope.

(** What a registration does to a store that can be reached. *)
Lemma register_online (dataset_id : Z) (record_id orcid : string)
    (confidence : Q) (w : world) :
  db_online (db w) = true ->
  register_orcid_mapping dataset_id record_id orcid confidence w
  = (Return true,
     {| trace := trace w;
        db := update_linked dataset_id
                (insert_mapping dataset_id record_id orcid confidence
                   (db w)) |}).
Proof. intros H. unfold register_orcid_mapping. now rewrite H. Qed.

Lemma register_offline (dataset_id : Z) (record_id orcid : string)
    (confidence : Q) (w : world) :
  db_online (db w) = false ->
  register_orcid_mapping dataset_id record_id orcid confidence w
  = (Return false, w).
Proof. intros H. unfold register_orcid_mapping. now rewrite H. Qed.

(** X16. Registrations keep the keys of the mapping table in order: when
    no id occurs twice and none is above the AUTOINCREMENT counter, the
    same holds after a registration, whether it succeeds or not, and the
    row a successful registration adds has an id above every id that was
    there. *)
Theorem register_keeps_keys_unique :
  forall (dataset_id : Z) (record_id orcid : string) (confidence : Q)
         (w : world),
    well_keyed (db w) ->
    let w' := snd (register_orcid_mapping dataset_id record_id orcid
                     confidence w) in
    well_keyed (db w') /\
    (db_online (db w) = true ->
     Forall (fun r => (m_id r
                       < m_id (registered_row dataset_id record_id orcid
                                 confidence (db w)))%Z)
       (orcid_mappings (db w))).
Proof.
  intros dataset_id record_id orcid confidence w [Hnd Hle] w'. subst w'.
  destruct (db_online (db w)) eqn:Hon.
  - rewrite (@register_online dataset_id record_id orcid confidence w Hon).
    unfold well_keyed.
    cbn [snd db update_linked insert_mapping orcid_mappings
         orcid_mappings_seq registered_row m_id].
    split; [split|].
    + rewrite map_app. cbn [map m_id].
      apply NoDup_app; [exact Hnd | |].
      * constructor; [intros [] | constructor].
      * intros a Ha [<-|[]]. rewrite Forall_forall in Hle.
        apply in_map_iff in Ha. destruct Ha as [r [Hr Hin]].
        specialize (Hle r Hin). lia.
    + apply Forall_app. split.
      * eapply Forall_impl; [|exact Hle]. intros r Hr. cbv beta in *. lia.
      * constructor; [cbn [m_id]; lia | constructor].
    + intros _. eapply Forall_impl; [|exact Hle].
      intros r Hr. cbv beta in *. lia.
  - rewrite (@register_offline dataset_id record_id orcid confidence w Hon).
    split; [now split | discriminate].
Qed.

Lemma register_keeps_keys_witness :
  well_keyed
    (db (snd (register_orcid_mapping 1 "17" "0000-0002-1825-0097" 0.7
                fresh_store))) /\
  (db_online (db fresh_store) = true ->
   Forall (fun r => (m_id r
                     < m_id (registered_row 1 "17" "0000-0002-1825-0097"
                               0.7 (db fresh_store)))%Z)
     (orcid_mappings (db fresh_store))).
Proof.
  apply (@register_keeps_keys_unique 1 "17" "0000-0002-1825-0097" 0.7
           fresh_store).
  split; constructor.
Defined.

(** X17. A mapping that was registered is found again: after a successful
    registration each of the three filtered queries that match the new row
    (by dataset, by identifier, by both) returns what it returned before
    followed by the new row, the rows that were in the table are still
    there in their order, and a query changes nothing. *)
Theorem registered_mapping_is_found :
  forall (dataset_id : Z) (record_id orcid : string) (confidence : Q)
         (w : world),
    db_online (db w) = true ->
    let w' := snd (register_orcid_mapping dataset_id record_id orcid
                     confidence w) in
    let row := registered_row dataset_id record_id orcid confidence (db w) in
    fst (register_orcid_mapping dataset_id record_id orcid confidence w)
    = Return true /\
    orcid_mappings (db w') = orcid_mappings (db w) ++ [row] /\
    (forall (by_d by_o : bool),
        by_d || by_o = true ->
        let d := if by_d then Some dataset_id else None in
        let o := if by_o then Some orcid else None in
        exists before,
          get_orcid_mappings d o w = (Return before, w) /\
          get_orcid_mappings d o w' = (Return (before ++ [row]), w')).
Proof.
  intros dataset_id record_id orcid confidence w Hon w' row. subst w' row.
  rewrite (@register_online dataset_id record_id orcid confidence w Hon).
  cbn [fst snd db update_linked insert_mapping orcid_mappings].
  split; [reflexivity|]. split; [reflexivity|].
  intros by_d by_o Hby. cbv zeta.
  unfold get_orcid_mappings.
  cbn [db update_linked insert_mapping db_online orcid_mappings]. rewrite Hon.
  unfold registered_row.
  destruct by_d, by_o; try discriminate; eexists; (split; [reflexivity|]);
    rewrite filter_app; cbn [filter]; unfold by_dataset, by_orcid;
    cbn [m_dataset_id m_orcid];
    rewrite ?Z.eqb_refl, ?String.eqb_refl; reflexivity.
Qed.

Lemma registered_mapping_witness :
  fst (register_orcid_mapping 1 "17" "0000-0002-1825-0097" 0.7 fresh_store)
  = Return true /\
  orcid_mappings
    (db (snd (register_orcid_mapping 1 "17" "0000-0002-1825-0097" 0.7
                fresh_store)))
  = orcid_mappings (db fresh_store)
    ++ [registered_row 1 "17" "0000-0002-1825-0097" 0.7 (db fresh_store)] /\
  (forall (by_d by_o : bool),
      by_d || by_o = true ->
      exists before,
        get_orcid_mappings (if by_d then Some 1%Z else None)
          (if by_o then Some "0000-0002-1825-0097" else None) fresh_store
        = (Return before, fresh_store) /\
        get_orcid_mappings (if by_d then Some 1%Z else None)
          (if by_o then Some "0000-0002-1825-0097" else None)
          (snd (register_orcid_mapping 1 "17" "0000-0002-1825-0097" 0.7
                  fresh_store))
        = (Return
             (before
              ++ [registered_row 1 "17" "0000-0002-1825-0097" 0.7
                    (db fresh_store)]),
           snd (register_orcid_mapping 1 "17" "0000-0002-1825-0097" 0.7
                  fresh_store))).
Proof.
  exact (@registered_mapping_is_found 1 "17" "0000-0002-1825-0097" 0.7
           fresh_store eq_refl).
Defined.

(** X18. A successful registration marks its dataset as linked and no
    other: afterwards every dataset row with the given id has
    [orcid_linked] set, every other dataset row is as it was, and the
    datasets are the same in number and order. *)
Theorem register_links_its_dataset :
  forall (dataset_id : Z) (record_id orcid : string) (confidence : Q)
         (w : world),
    db_online (db w) = true ->
    let w' := snd (register_orcid_mapping dataset_id record_id orcid
                     confidence w) in
    Forall2
      (fun old new =>
         ds_id new = ds_id old /\ ds_name new = ds_name old /\
         ds_source new = ds_source old /\
         ds_orcid_linked new
         = if (ds_id old =? dataset_id)%Z then true else ds_orcid_linked old)
      (datasets (db w)) (datasets (db w')).
Proof.
  intros dataset_id record_id orcid confidence w Hon w'. subst w'.
  rewrite (@register_online dataset_id record_id orcid confidence w Hon).
  cbn [snd db update_linked insert_mapping datasets].
  induction (datasets (db w)) as [|ds l IH]; [constructor|].
  cbn [map]. constructor; [|exact IH].
  unfold mark_linked. destruct (ds_id ds =? dataset_id)%Z; now repeat split.
Qed.

Lemma register_links_witness :
  Forall2
    (fun old new =>
       ds_id new = ds_id old /\ ds_name new = ds_name old /\
       ds_source new = ds_source old /\
       ds_orcid_linked new
       = if (ds_id old =? 1)%Z then true else ds_orcid_linked old)
    (datasets (db fresh_store))
    (datasets
       (db (snd (register_orcid_mapping 1 "17" "0000-0002-1825-0097" 0.7
                   fresh_store)))).
Proof.
  exact (@register_links_its_dataset 1 "17" "0000-0002-1825-0097" 0.7
           fresh_store eq_refl).
Defined.

Lemma insert_by_date_perm (r : mapping_row) (l : list mapping_row) :
  Permutation (r :: l) (insert_by_date r l).
Proof.
  induction l as [|x l IH]; simpl; [apply Permutation_refl|].
  destruct (date_lt r x); [|apply Permutation_refl].
  eapply Permutation_trans; [apply perm_swap|]. now apply perm_skip.
Qed.

Lemma insert_by_date_sorted (r : mapping_row) (l : list mapping_row) :
  StronglySorted newest_first l ->
  StronglySorted newest_first (insert_by_date r l).
Proof.
  induction 1 as [|x l Hs IH Hx]; simpl.
  - constructor; constructor.
  - destruct (date_lt r x) eqn:Hd; unfold date_lt in Hd.
    + apply Z.ltb_lt in Hd. constructor; [exact IH|].
      apply (Permutation_Forall (insert_by_date_perm r l)).
      constructor; [unfold newest_first; lia | exact Hx].
    + apply Z.ltb_ge in Hd. constructor; [now constructor|].
      constructor; [exact Hd|].
      eapply Forall_impl; [|exact Hx]. unfold newest_first. intros a Ha. lia.
Qed.

(** X19. The query without filters returns every row of the mapping table
    exactly once, the most recently matched first. *)
Theorem unfiltered_query_is_newest_first :
  forall (w : world),
    db_online (db w) = true ->
    exists rows,
      get_orcid_mappings None None w = (Return rows, w) /\
      Permutation (orcid_mappings (db w)) rows /\
      StronglySorted newest_first rows.
Proof.
  intros w Hon. unfold get_orcid_mappings. rewrite Hon.
  eexists. split; [reflexivity|].
  unfold order_by_date_desc.
  induction (orcid_mappings (db w)) as [|r l [IHp IHs]]; simpl.
  - split; constructor.
  - split.
    + eapply Permutation_trans; [|apply insert_by_date_perm].
      now apply perm_skip.
    + now apply insert_by_date_sorted.
Qed.

Lemma unfiltered_query_witness :
  exists rows,
    get_orcid_mappings None None three_mappings
    = (Return rows, three_mappings) /\
    Permutation (orcid_mappings (db three_mappings)) rows /\
    StronglySorted newest_first rows.
Proof.
  exact (@unfiltered_query_is_newest_first three_mappings eq_refl).
Defined.

End MappingTable.

(** ** The batch job and the store *)

Section Batch.

Import Py PermanentDatabase OrcidClient.
Local Open Scope string_scope.
Local Open Scope list_scope.

(** One row of the batch job: it writes at most one mapping, and counts
    it. *)
Lemma match_row_run (client : t) (dataset_id : Z) (r : Main.row)
    (w : world) :
  exists k w' new,
    Main.match_row client dataset_id r w = (Return k, w') /\
    orcid_mappings (db w') = orcid_mappings (db w) ++ new /\
    db_online (db w') = db_online (db w) /\
    k = List.length new /\ (List.length new <= 1)%nat /\
    Forall (fun m => m_dataset_id m = dataset_id /\
                     truthy (m_orcid m) = true /\
                     0 <= m_match_confidence m /\
                     m_match_confidence m <= 1 /\
                     m_record_id m = Main.row_record_id r) new /\
    (db_online (db w) = false -> new = []).
Proof.
  destruct (match_researcher_returns client (Main.row_name r)
              (Main.row_keywords r) (Main.row_institution r) w)
    as [o [w1 Hm]].
  pose proof (keeps_db_match_researcher client (Main.row_name r)
                (Main.row_keywords r) (Main.row_institution r) w) as Hk.
  rewrite Hm in Hk. cbn [snd] in Hk.
  unfold Main.match_row, bind. rewrite Hm.
  destruct o as [found|].
  2: { exists 0%nat, w1, []. rewrite Hk, app_nil_r.
       repeat split; auto. }
  destruct (@match_researcher_origin client (Main.row_name r)
              (Main.row_keywords r) (Main.row_institution r) w w1 found Hm)
    as [rs [r0 [c [_ [_ [Hf [[oid [Ht [Ho _]]] [Hlo Hhi]]]]]]]].
  rewrite Ho, Ht.
  assert (Hc : r_match_confidence found = Some c) by (now rewrite Hf).
  rewrite Hc.
  destruct (db_online (db w1)) eqn:Hon.
  - rewrite (@register_online dataset_id (Main.row_record_id r) oid c w1 Hon).
    eexists 1%nat, _,
      [registered_row dataset_id (Main.row_record_id r) oid c (db w1)].
    split; [reflexivity|].
    cbn [db update_linked insert_mapping orcid_mappings db_online].
    rewrite <- Hk. split; [reflexivity|]. split; [reflexivity|].
    split; [reflexivity|]. split; [simpl; lia|]. split.
    + constructor; [|constructor]. cbn. repeat split; assumption.
    + rewrite Hon. discriminate.
  - rewrite (@register_offline dataset_id (Main.row_record_id r) oid c w1 Hon).
    exists 0%nat, w1, []. rewrite Hk, app_nil_r. repeat split; auto.
Qed.

(** X20. The batch job counts exactly what it writes. Run over the rows
    of a dataset it never raises; the mapping table afterwards is the table
    before followed by new rows, as many as the count grew and at most one
    per row; each new row carries the dataset id, a non-empty identifier, a
    confidence between 0 and 1 and the record id of one of the rows; and
    when the store cannot be reached the count stays and nothing is
    written, although the registry is still asked. *)
Theorem batch_counts_what_it_writes :
  forall (client : t) (dataset_id : Z) (rows : list Main.row)
         (match_count : nat) (w : world),
    exists count w' new,
      Main.match_rows client dataset_id rows match_count w
      = (Return count, w') /\
      orcid_mappings (db w') = orcid_mappings (db w) ++ new /\
      count = (match_count + List.length new)%nat /\
      (List.length new <= List.length rows)%nat /\
      Forall (fun m => m_dataset_id m = dataset_id /\
                       truthy (m_orcid m) = true /\
                       0 <= m_match_confidence m /\
                       m_match_confidence m <= 1 /\
                       exists r, In r rows /\
                                 m_record_id m = Main.row_record_id r) new /\
      (db_online (db w) = false -> new = []).
Proof.
  intros client dataset_id rows.
  induction rows as [|r rows IH]; intros match_count w.
  - exists match_count, w, []. cbn [Main.match_rows ret].
    rewrite app_nil_r. repeat split; auto.
  - destruct (match_row_run client dataset_id r w)
      as [k [w1 [new1 [Hrun [Hrows1 [Hon1 [Hk [Hlen1 [Hall1 Hoff1]]]]]]]]].
    destruct (IH (match_count + k)%nat w1)
      as [count [w' [new [Hrest [Hrows [Hcount [Hlen [Hall Hoff]]]]]]]].
    exists count, w', (new1 ++ new).
    cbn [Main.match_rows]. unfold bind. rewrite Hrun.
    split; [exact Hrest|].
    split; [now rewrite Hrows, Hrows1, app_assoc|].
    split; [rewrite length_app; lia|].
    split; [rewrite length_app; simpl; lia|].
    split.
    + apply Forall_app. split.
      * eapply Forall_impl; [|exact Hall1].
        intros m [H1 [H2 [H3 [H4 H5]]]]. repeat split; try assumption.
        exists r. split; [now left | exact H5].
      * eapply Forall_impl; [|exact Hall].
        intros m [H1 [H2 [H3 [H4 [r' [Hin H5]]]]]].
        repeat split; try assumption.
        exists r'. split; [now right | exact H5].
    + intros Hoffline. rewrite (Hoff1 Hoffline).
      rewrite Hoff; [reflexivity|]. now rewrite Hon1.
Qed.

End Batch.

(** ** The rate limiter *)

Section RateLimiter.

Import APIRateLimiter.

(** X21. The limiter spaces the calls: whenever the clock has advanced by
    at least the pause between the two readings that [wait] takes, the
    time recorded for this call is at least one period after the time
    recorded for the call before. The pause is never negative, and with a
    period that is not negative it is at most one period when the clock
    has not gone back since the last call. *)
Theorem rate_limiter_spaces_calls :
  forall (self : t) (current_time time_after : Q),
    current_time + pause self current_time <= time_after ->
    last_call_time self + period self
    <= last_call_time (snd (wait self current_time time_after)) /\
    0 <= pause self current_time /\
    (0 <= period self -> last_call_time self <= current_time ->
     pause self current_time <= period self).
Proof.
  intros self current_time time_after Hclock.
  unfold pause, wait, time_to_wait in *. cbn [snd last_call_time].
  destruct (Qle_bool (period self) (current_time - last_call_time self))
    eqn:Hle; cbn [negb] in *.
  - apply Qle_bool_iff in Hle. repeat split; intros; lra.
  - assert (Hlt : current_time - last_call_time self < period self).
    { apply Qnot_le_lt. intros H. apply Qle_bool_iff in H. congruence. }
    repeat split; intros; lra.
Qed.

Lemma rate_limiter_witness :
  last_call_time two_per_second + period two_per_second
  <= last_call_time (snd (wait two_per_second (10 + 1 / 5) (10 + 1 / 2))) /\
  0 <= pause two_per_second (10 + 1 / 5) /\
  (0 <= period two_per_second ->
   last_call_time two_per_second <= 10 + 1 / 5 ->
   pause two_per_second (10 + 1 / 5) <= period two_per_second).
Proof.
  apply (@rate_limiter_spaces_calls two_per_second (10 + 1 / 5) (10 + 1 / 2)).
  vm_compute. discriminate.
Defined.

(** X22. A limiter made for a positive rate has the inverse of the rate as
    its period, a half second for two calls per second; a rate of zero
    cannot be made into a limiter. With a full period gone since the last
    call, [wait] does not sleep. *)
Theorem rate_limiter_period :
  forall (calls_per_second : Q),
    0 < calls_per_second ->
    exists limiter,
      init calls_per_second = Some limiter /\
      period limiter * calls_per_second == 1 /\
      0 < period limiter /\
      (forall current_time,
          last_call_time limiter + period limiter <= current_time ->
          time_to_wait limiter current_time = None) /\
      init 0 = None.
Proof.
  intros cps Hpos. unfold init.
  destruct (Qeq_bool cps 0) eqn:Hz.
  - apply Qeq_bool_iff in Hz. rewrite Hz in Hpos. discriminate Hpos.
  - eexists. split; [reflexivity|]. cbn [period last_call_time].
    assert (Hne : ~ cps == 0) by (intros H; rewrite H in Hpos; discriminate).
    split; [field; exact Hne|]. split.
    + unfold Qdiv. rewrite Qmult_1_l. now apply Qinv_lt_0_compat.
    + split; [|reflexivity]. intros current_time Hgone.
      unfold time_to_wait. cbn [period last_call_time].
      assert (Hle : 1 / cps <= current_time - 0) by lra.
      apply Qle_bool_iff in Hle. now rewrite Hle.
Qed.

Lemma rate_limiter_period_witness :
  exists limiter,
    init 2 = Some limiter /\
    period limiter * 2 == 1 /\
    0 < period limiter /\
    (forall current_time,
        last_call_time limiter + period limiter <= current_time ->
        time_to_wait limiter current_time = None) /\
    init 0 = None.
Proof. exact (@rate_limiter_period 2 eq_refl). Defined.

End RateLimiter.

(** ** The dashboard *)

Section Dashboard.

Import Py OrcidClient.
Local Open Scope string_scope.
Local Open Scope list_scope.

Lemma component_part_value (p : part) :
  match p with Atom v => truthy_scalar v = false | _ => True end ->
  truthy_scalar (App.component p) = truthy_scalar (part_value p) /\
  (truthy_scalar (part_value p) = true -> App.component p = part_value p).
Proof.
  destruct p as [|v|[v|]]; simpl; intros H.
  - now split.
  - rewrite H. split; [reflexivity | discriminate].
  - now split.
  - now split.
Qed.

Lemma append_assoc (a b c : string) :
  ((a ++ b) ++ c = a ++ b ++ c)%string.
Proof. induction a as [|x a IH]; simpl; [reflexivity | now rewrite IH]. Qed.

Lemma truthy_append (a b : string) :
  a <> "" -> truthy (a ++ b)%string = true.
Proof. destruct a; [congruence | reflexivity]. Qed.

(** X23. The two date formatters of the repository agree on every date
    object of the registry's shape, where no key holds a bare scalar that
    counts as true: the formatter of the dashboard and the one of the
    registry client return the same string or both [None]. They part on a
    bare scalar: a year given as a plain value is a date for the
    dashboard and no date for the client. And the dashboard's formatter
    hands a string back as it is, the empty string included. *)
Theorem date_formatters_agree :
  (forall d : date_dict,
      nested d -> App._format_date (App.DateDict d) = _format_date (Some d)) /\
  App._format_date App.DateNone = _format_date None /\
  (forall year : scalar,
      truthy_scalar year = true ->
      App._format_date
        (App.DateDict {| d_year := Atom year; d_month := Missing;
                         d_day := Missing |})
      = Some (format_scalar year) /\
      _format_date
        (Some {| d_year := Atom year; d_month := Missing; d_day := Missing |})
      = None) /\
  (forall s : string, App._format_date (App.DateStr s) = Some s).
Proof.
  split; [|split; [reflexivity|split]].
  - intros d Hn.
    destruct (@component_part_value (d_year d)) as [Hy Hy']. 
    { apply Hn. simpl. tauto. }
    destruct (@component_part_value (d_month d)) as [Hm Hm'].
    { apply Hn. simpl. tauto. }
    destruct (@component_part_value (d_day d)) as [Hd Hd'].
    { apply Hn. simpl. tauto. }
    unfold App._format_date, _format_date. cbv zeta.
    rewrite Hy, Hm, Hd.
    destruct (truthy_scalar (part_value (d_year d))) eqn:Ey.
    + rewrite (Hy' eq_refl).
      assert (Hne : format_scalar (part_value (d_year d)) <> "")
        by now apply format_scalar_nonempty.
      assert (Hnot : empty_date d = false).
      { unfold empty_date. destruct (d_year d) as [|v|[v|]];
          try reflexivity; discriminate Ey. }
      rewrite Hnot. cbn [append].
      destruct (truthy_scalar (part_value (d_month d))) eqn:Em.
      * rewrite (Hm' eq_refl).
        destruct (truthy_scalar (part_value (d_day d))) eqn:Ed.
        -- rewrite (Hd' eq_refl). cbn [andb].
           rewrite append_assoc, (@truthy_append _ _ Hne).
           reflexivity.
        -- cbn [andb]. now rewrite (@truthy_append _ _ Hne).
      * cbn [andb].
        destruct (format_scalar (part_value (d_year d))) eqn:Ef;
          [congruence|]. reflexivity.
    + cbn [truthy]. now destruct (empty_date d).
  - intros year Hy. unfold App._format_date, _format_date. cbv zeta.
    cbn [d_year d_month d_day App.component part_value truthy_scalar
         empty_date]. rewrite Hy. cbn [append].
    pose proof (@format_scalar_nonempty year Hy) as Hne.
    destruct (format_scalar year); [congruence | now split].
  - reflexivity.
Qed.

Lemma date_formatters_witness :
  App._format_date
    (App.DateDict {| d_year := value_of 2020; d_month := value_of 5;
                     d_day := Atom (SInt 0) |})
  = _format_date
      (Some {| d_year := value_of 2020; d_month := value_of 5;
               d_day := Atom (SInt 0) |}) /\
  (App._format_date
     (App.DateDict {| d_year := Atom (SInt 2020); d_month := Missing;
                      d_day := Missing |})
   = Some (format_scalar (SInt 2020)) /\
   _format_date
     (Some {| d_year := Atom (SInt 2020); d_month := Missing;
              d_day := Missing |})
   = None).
Proof.
  split.
  - apply (proj1 date_formatters_agree).
    intros p [<-|[<-|[<-|[]]]]; simpl; trivial.
  - apply (proj1 (proj2 (proj2 date_formatters_agree)) (SInt 2020)).
    reflexivity.
Defined.

(** X24. The dashboard's identifier lookup never raises: it returns the
    empty string when the search returns nothing (and so on every failure
    of the registry), and otherwise the non-empty identifier of the first
    profile of the search, in the world the search left. *)
Theorem search_orcid_returns_an_identifier_or_nothing :
  forall (client : t) (firstname lastname institution : string) (w : world),
    exists rs w',
      search_researchers client
        (firstname ++ " " ++ lastname ++ " " ++ institution)%string 1 w
      = (Return rs, w') /\
      match rs with
      | [] =>
          App.search_orcid client firstname lastname institution w
          = (Return "", w')
      | first :: _ =>
          exists oid,
            truthy oid = true /\ r_orcid_id first = Some oid /\
            App.search_orcid client firstname lastname institution w
            = (Return oid, w')
      end.
Proof.
  intros client firstname lastname institution w.
  destruct (search_researchers_body_returns client
              (firstname ++ " " ++ lastname ++ " " ++ institution)%string 1 w)
    as [rs [w' Hb]].
  rewrite <- search_researchers_unfold in Hb.
  exists rs, w'. split; [exact Hb|].
  pose proof (search_researchers_identified _ _ _ _ Hb) as Hid.
  unfold App.search_orcid, try_except, bind. rewrite Hb.
  destruct rs as [|first rest]; [reflexivity|].
  inversion Hid as [|x l [oid [Ht [_ Ho]]] _]; subst.
  exists oid. rewrite Ho. now repeat split.
Qed.

End Dashboard.

(** ** Dataset relationships *)

Section Relationships.

Import DatasetRelationships.
Local Open Scope string_scope.
Local Open Scope list_scope.

(** X25. A relationship that was registered is found from both of its
    ends and from no other dataset: after a successful registration the
    query for the source and the query for the target each return what
    they returned before followed by the new row, the query for any other
    dataset returns what it returned before, and the query without a
    dataset returns the whole table with the new row last. *)
Theorem registered_relationship_is_found_from_both_ends :
  forall (clock source_id target_id : Z) (relationship_type : string)
         (table : relationships_table),
    let after_it :=
      snd (register_dataset_relationship true clock source_id target_id
             relationship_type table) in
    let row := registered_relationship clock source_id target_id
                 relationship_type table in
    fst (register_dataset_relationship true clock source_id target_id
           relationship_type table) = true /\
    (forall d,
        get_dataset_relationships true (Some d) after_it
        = get_dataset_relationships true (Some d) table
          ++ (if (source_id =? d)%Z || (target_id =? d)%Z then [row]
              else [])) /\
    get_dataset_relationships true None after_it
    = get_dataset_relationships true None table ++ [row] /\
    (forall d, get_dataset_relationships false d after_it = []) /\
    register_dataset_relationship false clock source_id target_id
      relationship_type table = (false, table).
Proof.
  intros clock source_id target_id relationship_type table after_it row.
  subst after_it row.
  unfold register_dataset_relationship, get_dataset_relationships,
    registered_relationship.
  cbn [fst snd relationships].
  split; [reflexivity|]. split; [|split; [reflexivity|split; reflexivity]].
  intros d. rewrite filter_app. cbn [filter source_dataset_id
                                      target_dataset_id].
  now destruct ((source_id =? d)%Z || (target_id =? d)%Z).
Qed.

End Relationships.

Section BatchWitness.

Import Py PermanentDatabase OrcidClient.
Local Open Scope string_scope.
Local Open Scope list_scope.

Lemma batch_counts_witness :
  exists count w' new,
    Main.match_rows (client_of (registry_with [jane_hit])) 1 [sample_row] 0
      fresh_store
    = (Return count, w') /\
    orcid_mappings (db w') = orcid_mappings (db fresh_store) ++ new /\
    count = (0 + List.length new)%nat /\
    (List.length new <= List.length [sample_row])%nat /\
    Forall (fun m => m_dataset_id m = 1%Z /\
                     truthy (m_orcid m) = true /\
                     0 <= m_match_confidence m /\
                     m_match_confidence m <= 1 /\
                     exists r, In r [sample_row] /\
                               m_record_id m = Main.row_record_id r) new /\
    (db_online (db fresh_store) = false -> new = []).
Proof.
  exact (@batch_counts_what_it_writes (client_of (registry_with [jane_hit]))
           1 [sample_row] 0%nat fresh_store).
Defined.

End BatchWitness.
